(** * uploadthing: the upload request orchestration core

    A shallow embedding of [packages/uploadthing/src/internal/handler.ts]
    (request classification, the upload orchestrator, the callback
    reconciler and the route-config introspection handler) together with
    the properties the specification states about them.

    The Effect programs of the source become functions in a small
    state-and-error monad [Eff]: the state is a [World] that records what
    the handler does (log lines, user hooks invoked, keys and URLs
    generated, outbound HTTP calls, forked daemon fibers) and supplies what
    the runtime decides (clock readings, entropy, fiber scheduling). *)

From Stdlib Require Import ZArith Lia.
From stdpp Require Import base option list strings pretty.

Set Default Proof Using "Type".

(* ===================================================================== *)
(** * Data model *)
(* ===================================================================== *)

(** JSON values, as far as the handler looks into them. *)
#[local] Unset Elimination Schemes.
Inductive Json : Type :=
| JNull
| JBool (b : bool)
| JNum (z : Z)
| JStr (s : string)
| JArr (items : list Json)
| JObj (fields : list (string * Json)).
#[local] Set Elimination Schemes.

(** The closed enum of error codes of [UploadThingError]. *)
Inductive ErrorCode : Type :=
| BAD_REQUEST
| NOT_FOUND
| FORBIDDEN
| INTERNAL_SERVER_ERROR
| INVALID_SERVER_CONFIG
| UPLOAD_FAILED
| URL_GENERATION_FAILED
| FILE_LIMIT_EXCEEDED.

(** [new UploadThingError({ code, message, cause })]. The cause is kept as
    its textual rendering. *)
Record UploadThingError : Type := mkUTError {
  code : ErrorCode;
  message : string;
  cause : option string;
}.

(** What user code (middleware, input parser, resolver) can throw:
    [error instanceof UploadThingError] or anything else. *)
Inductive Thrown : Type :=
| ThrownUTError (e : UploadThingError)
| ThrownOther (rendering : string).

(** The typed failures of the Effect programs in the handler. *)
Inductive Err : Type :=
| ErrUploadThing (e : UploadThingError)   (* _tag: "UploadThingError" *)
| ErrParse (msg : string)                 (* _tag: "ParseError" *)
| ErrConfig (msg : string)                (* _tag: "ConfigError" *)
| ErrInvalidRouteConfig (msg : string)    (* _tag: "InvalidRouteConfig" *)
| ErrRequest (msg : string)               (* _tag: "RequestError" *)
| ErrResponse (status : Z) (json : option Json).   (* _tag: "ResponseError" *)

(** What [schemaBodyJson(schema)] fails with on a request body: the body
    is not JSON (a [RequestError]) or the JSON does not fit the schema (a
    [ParseError]). *)
Inductive BodyError : Type :=
| NotJson (msg : string)
| NotOfSchema (msg : string).

Definition bodyError (e : BodyError) : Err :=
  match e with
  | NotJson msg => ErrRequest msg
  | NotOfSchema msg => ErrParse msg
  end.

(** One element of [files] in the upload action payload. The handler reads
    [name], [size] and [type]; a client-declared [lastModified] may be
    present on the wire. *)
Record FileUploadData : Type := mkFile {
  fd_name : string;
  fd_size : Z;
  fd_type : string;
  fd_lastModified : option Z;
}.

(** One element of the middleware's [UTFiles] override array; every field
    may be missing ([theirs?.name ?? ...]). [None] for [ov_customId] stands
    for both [undefined] and [null]. *)
Record FileOverride : Type := mkOverride {
  ov_name : option string;
  ov_size : option Z;
  ov_customId : option string;
  ov_lastModified : option Z;
}.

(** The middleware's return value: user fields and the reserved [UTFiles]
    key. *)
Record Metadata : Type := mkMetadata {
  md_fields : list (string * Json);
  md_UTFiles : option (list FileOverride);
}.

(** Element of [filesWithCustomIds]. *)
Record FileWithCustomId : Type := mkFileWithCustomId {
  fc_name : string;
  fc_size : Z;
  fc_type : string;
  fc_customId : option string;
  fc_lastModified : Z;
}.

(** Element of [fileUploadRequests]. *)
Record FileUploadRequest : Type := mkFileUploadRequest {
  fr_name : string;
  fr_size : Z;
  fr_type : string;
  fr_lastModified : Z;
  fr_customId : option string;
  fr_contentDisposition : string;
  fr_acl : option string;
}.

(** Element of the upload action's response body; [None] for
    [pe_customId] is JSON [null]. *)
Record PresignedEntry : Type := mkPresigned {
  pe_url : string;
  pe_key : string;
  pe_name : string;
  pe_customId : option string;
}.

(** [{ url, key }], the result of one per-file generation task. *)
Record UrlAndKey : Type := mkUrlAndKey {
  uk_url : string;
  uk_key : string;
}.

(** One bucket of the normalized route config. *)
Record RouteTypeConfig : Type := mkRouteTypeConfig {
  maxFileSize : string;
  maxFileCount : Z;
  minFileCount : Z;
  contentDisposition : option string;
  acl : option string;
}.

(** The normalized config: a JS object keyed by file type, in key order. *)
Definition ExpandedRouteConfig : Type := list (string * RouteTypeConfig).

Record RouteOptions : Type := mkRouteOptions {
  presignedURLTTL : Z;
  getFileHashParts : option (FileUploadRequest -> list string);
  awaitServerData : option bool;
}.

Record UploadActionPayload : Type := mkPayload {
  input : Json;
  files : list FileUploadData;
}.

Record UploadedFileData : Type := mkUploaded {
  up_key : string;
  up_name : string;
  up_size : Z;
}.

Record CallbackPayload : Type := mkCallbackPayload {
  cb_status : string;
  cb_file : UploadedFileData;
  cb_metadata : list (string * Json);
}.

(** A route definition ([Uploader]): [_def.middleware], [_def.inputParser],
    [_def.routerConfig], [_def.routeOptions] and [resolver]. User code is a
    function of its arguments that returns or throws. *)
Record Uploader : Type := mkUploader {
  middleware : Json -> Json -> list FileUploadData -> Thrown + Metadata;
  inputParser : Json -> Thrown + Json;
  routerConfig : Json;
  routeOptions : RouteOptions;
  resolver : UploadedFileData -> list (string * Json) -> Thrown + option Json;
}.

(** [FileRouter]: a JS object from slug to route, in key order. *)
Definition FileRouter : Type := list (string * Uploader).

(** [obj[key]] on an object kept as an association list. *)
Fixpoint getProp {V : Type} (obj : list (string * V)) (key : string) : option V :=
  match obj with
  | [] => None
  | (k, v) :: rest => if String.eqb k key then Some v else getProp rest key
  end.

(** The names an object literal inherits from [Object.prototype]. A
    router is an object literal: for these names [opts.router[slug]] is a
    function or an object, not [undefined], also when the router has no
    route of that name. *)
Definition objectPrototypeNames : list string :=
  [ "constructor"; "__defineGetter__"; "__defineSetter__"; "hasOwnProperty";
    "__lookupGetter__"; "__lookupSetter__"; "isPrototypeOf"; "propertyIsEnumerable";
    "toString"; "valueOf"; "__proto__"; "toLocaleString" ].

Definition inherited (name : string) : bool :=
  existsb (String.eqb name) objectPrototypeNames.

(** [objectKeys(obj)]. *)
Definition objectKeys {V : Type} (obj : list (string * V)) : list string :=
  map fst obj.

(** [a ?? b]. *)
Definition nullish {A : Type} (a : option A) (b : A) : A :=
  match a with Some x => x | None => b end.

(** [a === "literal"] on a value that may be missing. *)
Definition isString (a : option string) (lit : string) : bool :=
  match a with Some s => String.eqb s lit | None => false end.

(** The double quote character, as a string. *)
Definition dquote : string :=
  String (Ascii.Ascii false true false false false true false false) EmptyString.

(** [String.prototype.startsWith] and [includes]. *)
Fixpoint startsWith (s p : string) {struct p} : bool :=
  match p, s with
  | EmptyString, _ => true
  | String c p', String d s' => if Ascii.eqb c d then startsWith s' p' else false
  | String _ _, EmptyString => false
  end.

Fixpoint includes (s sub : string) : bool :=
  startsWith s sub ||
  match s with
  | EmptyString => false
  | String _ s' => includes s' sub
  end.

(* ===================================================================== *)
(** * The world and the effect monad *)
(* ===================================================================== *)

Inductive LogLevel : Type := LDebug | LInfo | LWarning | LError.

(** [handleDaemonPromise] of the route handler config: "void", "await" or
    a function of the host, which returns or throws when it is called with
    the promise of the fiber. *)
Inductive HandleDaemon : Type :=
| DaemonVoid
| DaemonAwait
| DaemonFunction (throws : option string).

(** The answer of a server to an outbound request of the handler: its
    status, its body read as JSON ([res.json], missing when the body is
    not JSON) and its body read as a stream of text chunks. *)
Record HttpClientResponse : Type := mkClientResponse {
  res_status : Z;
  res_json : option Json;
  res_chunks : list string;
}.

(** What becomes of an outbound request: it is answered, or it cannot be
    sent or gets no answer (a [RequestError]).  An answer whose body cannot
    be read at all is counted with the second case; an answer whose body is
    not JSON is [Answered] with [res_json = None]. *)
Inductive Reply : Type :=
| Answered (res : HttpClientResponse)
| Unanswered (reason : string).

(** The body of [POST {ingest}/route-metadata]. *)
Record MetadataRequest : Type := mkMetadataRequest {
  mr_url : string;
  mr_headers : list (string * string);
  mr_fileKeys : list string;
  mr_metadata : Metadata;
  mr_isDev : bool;
  mr_callbackUrl : string;
  mr_callbackSlug : string;
  mr_awaitServerData : bool;
}.

(** A forked daemon fiber, kept as a description of the work it does. *)
Inductive Fiber : Type :=
| RegisterMetadata (r : MetadataRequest)
| CompleteCallback (uploadable : Uploader) (payload : CallbackPayload)
    (headers : list (string * string)).

(** What the handler does that an observer can see. *)
Inductive Event : Type :=
| EvLog (lvl : LogLevel) (msg : string)
| EvInputParser
| EvMiddleware
| EvResolver (fileKey : string)
| EvKeyGenerated (key : string)
| EvUrlSigned (url : string)
| EvHttpPost (url : string)
| EvHandleDaemon.

(** The events of key and URL generation and of a call to the ingest
    service: what the orchestrator does after validation. *)
Definition outbound (ev : Event) : bool :=
  match ev with
  | EvKeyGenerated _ | EvUrlSigned _ | EvHttpPost _ => true
  | _ => false
  end.

Record World : Type := mkWorld {
  clock : nat -> Z;          (* the n-th reading of Date.now() *)
  clockReads : nat;
  entropy : nat -> Z;        (* the n-th draw of randomness *)
  entropyReads : nat;
  scheduler : nat -> nat;    (* the n-th choice of the fiber scheduler *)
  schedulerReads : nat;
  network : nat -> Reply;    (* what becomes of the n-th outbound request *)
  trace : list Event;        (* oldest first *)
  daemons : list Fiber;      (* forked, not awaited *)
}.

Inductive Exit (A : Type) : Type :=
| Success (a : A)
| Failure (e : Err)
| Die (defect : string).
Arguments Success {A} a.
Arguments Failure {A} e.
Arguments Die {A} defect.

Definition Eff (A : Type) : Type := World -> Exit A * World.

Definition succeed {A : Type} (a : A) : Eff A := fun w => (Success a, w).
Definition fail {A : Type} (e : Err) : Eff A := fun w => (Failure e, w).
Definition die {A : Type} (d : string) : Eff A := fun w => (Die d, w).

Definition bind {A B : Type} (m : Eff A) (k : A -> Eff B) : Eff B :=
  fun w =>
    match m w with
    | (Success a, w') => k a w'
    | (Failure e, w') => (Failure e, w')
    | (Die d, w') => (Die d, w')
    end.

Notation "'let*' x := m 'in' k" := (bind m (fun x => k))
  (at level 10, x name, m at level 100, k at level 200).
Notation "'let*' ' p := m 'in' k" := (bind m (fun x => match x with p => k end))
  (at level 10, p pattern, m at level 100, k at level 200).

(** [yield* new UploadThingError(...)]. *)
Definition failUT {A : Type} (c : ErrorCode) (msg : string) (cs : option string) : Eff A :=
  fail (ErrUploadThing (mkUTError c msg cs)).

(** [Effect.mapError]. *)
Definition mapError {A : Type} (f : Err -> Err) (m : Eff A) : Eff A :=
  fun w =>
    match m w with
    | (Failure e, w') => (Failure (f e), w')
    | r => r
    end.

(** [Effect.catchAll] restricted by the handler given: [h] returns [None]
    for the tags it does not catch. *)
Definition catchSome {A : Type} (h : Err -> option (Eff A)) (m : Eff A) : Eff A :=
  fun w =>
    match m w with
    | (Failure e, w') =>
        match h e with
        | Some k => k w'
        | None => (Failure e, w')
        end
    | r => r
    end.

(** The world after [dc] more clock readings, [de] more draws of entropy,
    [ds] more scheduling decisions, the events [evs] and the forks [fs]. *)
Definition advance (w : World) (dc de ds : nat) (evs : list Event) (fs : list Fiber)
  : World :=
  {| clock := clock w; clockReads := clockReads w + dc;
     entropy := entropy w; entropyReads := entropyReads w + de;
     scheduler := scheduler w; schedulerReads := schedulerReads w + ds;
     network := network w;
     trace := trace w ++ evs; daemons := daemons w ++ fs |}.

(** How many events of a kind the trace of a world holds. *)
Definition count (kind : Event -> bool) (w : World) : nat :=
  length (filter (fun ev => kind ev = true) (trace w)).

Definition isHttpPost (ev : Event) : bool :=
  match ev with EvHttpPost _ => true | _ => false end.

Definition emit (ev : Event) : Eff unit :=
  fun w => (Success tt, advance w 0 0 0 [ev] []).

Definition logDebug (msg : string) : Eff unit := emit (EvLog LDebug msg).
Definition logInfo (msg : string) : Eff unit := emit (EvLog LInfo msg).
Definition logWarning (msg : string) : Eff unit := emit (EvLog LWarning msg).
Definition logError (msg : string) : Eff unit := emit (EvLog LError msg).

(** [Date.now()]. *)
Definition DateNow : Eff Z :=
  fun w => (Success (clock w (clockReads w)), advance w 1 0 0 [] []).

(** One draw of randomness. *)
Definition random : Eff Z :=
  fun w => (Success (entropy w (entropyReads w)), advance w 0 1 0 [] []).

(** The scheduler picks which of [n] runnable fibers goes next. *)
Definition schedule (n : nat) : Eff nat :=
  fun w => (Success (scheduler w (schedulerReads w) `mod` n), advance w 0 0 1 [] []).

(** [Effect.forkDaemon]: the fiber is handed to the runtime and the
    caller goes on without waiting for it. *)
Definition forkDaemon (f : Fiber) : Eff Fiber :=
  fun w => (Success f, advance w 0 0 0 [] [f]).

(** [Effect.tryPromise({ try, catch })] around user code. *)
Definition tryPromise {A : Type} (r : Thrown + A) (catch : Thrown -> UploadThingError) : Eff A :=
  match r with
  | inr a => succeed a
  | inl t => fail (ErrUploadThing (catch t))
  end.

(** [yield*] of a config value. *)
Definition fromConfig {A : Type} (c : string + A) : Eff A :=
  match c with
  | inr a => succeed a
  | inl msg => fail (ErrConfig msg)
  end.

(** [yield*] of an effect of the interface, given as its outcome. *)
Definition fromEither {A : Type} (r : Err + A) : Eff A :=
  match r with
  | inr a => succeed a
  | inl e => fail e
  end.

(** [httpClient(request)]: the request goes out, and the network decides
    what becomes of it. *)
Definition httpExecute (url : string) : Eff HttpClientResponse :=
  fun w =>
    match network w (count isHttpPost w) with
    | Answered res => (Success res, advance w 0 0 0 [EvHttpPost url] [])
    | Unanswered reason => (Failure (ErrRequest reason), advance w 0 0 0 [EvHttpPost url] [])
    end.

(** [HttpClient.filterStatusOk]: a status outside 2xx is a
    [ResponseError]. *)
Definition filterStatusOk (res : HttpClientResponse) : Eff HttpClientResponse :=
  if (200 <=? res_status res)%Z && (res_status res <? 300)%Z
  then succeed res
  else fail (ErrResponse (res_status res) (res_json res)).

(** [Effect.tapBoth({ onSuccess, onFailure })]: the outcome of the effect
    is kept, unless the tap itself fails. *)
Definition tapBoth {A : Type} (onFailure : Err -> Eff unit) (onSuccess : A -> Eff unit)
    (m : Eff A) : Eff A :=
  fun w =>
    match m w with
    | (Success a, w') => (let* _ := onSuccess a in succeed a) w'
    | (Failure e, w') => (let* _ := onFailure e in fail e) w'
    | (Die d, w') => (Die d, w')
    end.

(** [Effect.tapError]. *)
Definition tapError {A : Type} (onFailure : Err -> Eff unit) (m : Eff A) : Eff A :=
  tapBoth onFailure (fun _ => succeed tt) m.

(** [HttpClientResponse.schemaBodyJsonScoped(schema)] on a response: the
    body must be JSON and fit the schema. The decoded value is not used
    by the handler. *)
Definition schemaBodyJsonScoped (fits : Json -> bool) (res : HttpClientResponse) : Eff unit :=
  match res_json res with
  | None => fail (ErrResponse (res_status res) None)
  | Some j => if fits j then succeed tt else fail (ErrParse "response body")
  end.

(** ** [Effect.forEach], sequential: elements are processed in list order,
    the callback gets the index, the first failure stops the loop. *)
Fixpoint forEachFrom {A B : Type} (f : A -> nat -> Eff B) (i : nat) (xs : list A)
  : Eff (list B) :=
  match xs with
  | [] => succeed []
  | x :: rest =>
      let* b := f x i in
      let* bs := forEachFrom f (S i) rest in
      succeed (b :: bs)
  end.

Definition forEach {A B : Type} (xs : list A) (f : A -> nat -> Eff B) : Eff (list B) :=
  forEachFrom f 0 xs.

(** ** [Effect.forEach] with [{ concurrency: "unbounded" }]: one fiber per
    element. The scheduler decides which pending fiber runs next; each
    fiber writes its result into the slot of its own index of a
    preallocated array; a failure interrupts the rest. [fuel] bounds the
    number of scheduling rounds and is set to the number of elements. *)
Fixpoint runFibers {A B : Type} (f : A -> Eff B) (fuel : nat)
    (pending : list (nat * A)) (slots : list (option B)) : Eff (list (option B)) :=
  match fuel with
  | 0 => succeed slots
  | S fuel' =>
      match pending with
      | [] => succeed slots
      | _ :: _ =>
          let* k := schedule (length pending) in
          match pending !! k with
          | Some (i, x) =>
              let* b := f x in
              runFibers f fuel' (delete k pending) (<[i := Some b]> slots)
          | None => succeed slots
          end
      end
  end.

(** Pair every element with its index. *)
Definition indexed {A : Type} (xs : list A) : list (nat * A) :=
  zip (seq 0 (length xs)) xs.

(** Read the filled array back; an empty slot would be a defect. *)
Fixpoint collect {B : Type} (slots : list (option B)) : option (list B) :=
  match slots with
  | [] => Some []
  | Some b :: rest =>
      match collect rest with
      | Some bs => Some (b :: bs)
      | None => None
      end
  | None :: _ => None
  end.

Definition forEachUnbounded {A B : Type} (xs : list A) (f : A -> Eff B) : Eff (list B) :=
  let* slots := runFibers f (length xs) (indexed xs) (replicate (length xs) None) in
  match collect slots with
  | Some bs => succeed bs
  | None => die "forEach: unfilled slot"
  end.

(* ===================================================================== *)
(** * External collaborators *)
(* ===================================================================== *)

(** Modelled from the spec: the literals of [ActionType] and
    [UploadThingHook] (declared in [./types], not part of the sources at
    hand). The classifier rules name [actionType == "upload"] and
    [uploadthing-hook == "callback"] as the only values. *)
Inductive ActionType : Type := ActionUpload.
Inductive UploadThingHook : Type := HookCallback.

Definition decodeActionType (raw : string) : option ActionType :=
  if String.eqb raw "upload" then Some ActionUpload else None.

Definition decodeUploadThingHook (raw : string) : option UploadThingHook :=
  if String.eqb raw "callback" then Some HookCallback else None.

(** The functions the handler imports from [@uploadthing/shared] and from
    sibling modules whose code is not part of the sources at hand. They are
    an interface: the handler is verified for every implementation. A
    failure is the left injection. Key generation and URL signing are
    effects that the handler yields: whether and with which tag they fail
    is left to the implementation. *)
Class Shared : Type := {
  (** [pkgJson.version] / [UPLOADTHING_VERSION] *)
  UPLOADTHING_VERSION : string;
  (** [verifySignature(payload, signature, secret)] *)
  verifySignature : string -> option string -> string -> bool;
  (** fails with [InvalidRouteConfig] *)
  fillInputRouteConfig : Json -> string + ExpandedRouteConfig;
  (** the list of [{ slug, config }] of a router *)
  extractRouterConfig : FileRouter -> string + list (string * ExpandedRouteConfig);
  (** [Some (tag, reasonOrMessage)] when the files break the config *)
  assertFilesMeetConfig : list FileUploadData -> ExpandedRouteConfig -> option (string * string);
  (** fails with [InvalidFileType] or [UnknownFileType] *)
  getTypeFromFileName : string -> list string -> string + string;
  (** [generateKey(file, getFileHashParts)], given its draw of entropy *)
  generateKey :
    FileUploadRequest -> option (FileUploadRequest -> list string) -> Z -> Err + string;
  (** [generateSignedURL(url, apiKey, { ttlInSeconds, data })] *)
  generateSignedURL : string -> string -> Z -> list (string * Json) -> Err + string;
  getStatusCodeFromError : UploadThingError -> Z;
  formatError : UploadThingError -> FileRouter -> Json;
  (** [schemaBodyJson(UploadActionPayload)] on the body text *)
  decodeUploadActionPayload : string -> BodyError + UploadActionPayload;
  (** [schemaBodyJson(S.Struct({ status, file, metadata }))] *)
  decodeCallbackPayload : string -> BodyError + CallbackPayload;
  (** whether a JSON value fits the schema [MetadataFetchResponse] *)
  isMetadataFetchResponse : Json -> bool;
  (** whether a JSON value fits the schema [CallbackResultResponse] *)
  isCallbackResultResponse : Json -> bool;
  (** [S.decode(S.parseJson(MetadataFetchStreamPart))] on a chunk of text:
      [{ payload, signature }] *)
  decodeMetadataFetchStreamPart : string -> option (string * string);
}.

Record Token : Type := mkToken {
  apiKey : string;
  appId : string;
}.

(** What the config provider resolves; a missing or malformed value is a
    [ConfigError]. *)
Record Config : Type := mkConfig {
  IsDevelopment : string + bool;
  IngestUrl : string + string;
  UTToken : string + Token;
  callbackUrl : option string;
  handleDaemonPromise : option HandleDaemon;
}.

Record RouteHandlerOptions : Type := mkOpts {
  router : FileRouter;
  config : Config;
}.

(** The incoming request: the headers and query parameters the handler
    reads, still undecoded, the URL ([origin + pathname]) and the body
    text, taken as already read from the socket: a body that cannot be read
    ([request.text] failing) is not represented. *)
Record HttpServerRequest : Type := mkRequest {
  req_url : string;
  hdr_uploadthing_hook : option string;
  hdr_x_uploadthing_package : option string;
  hdr_x_uploadthing_version : option string;
  hdr_x_uploadthing_signature : option string;
  param_actionType : option string;
  param_slug : option string;
  req_text : string;
}.

Inductive Body : Type :=
| BodyNull
| BodyPresigneds (presigneds : list PresignedEntry)
| BodyRouterConfig (routerConfig : list (string * ExpandedRouteConfig))
| BodyJson (j : Json).

Record HttpServerResponse : Type := mkResponse {
  status : Z;
  headers : list (string * string);
  body : Body;
}.

(** [HttpServerResponse.json(body, { status })]. *)
Definition jsonResponse (b : Body) (st : Z) : HttpServerResponse :=
  mkResponse st [] b.

(** [HttpServerResponse.setHeader(name, value)]. *)
Definition setHeader (name value : string) (r : HttpServerResponse) : HttpServerResponse :=
  mkResponse (status r) (headers r ++ [(name, value)]) (body r).

Definition renderThrown (t : Thrown) : string :=
  match t with
  | ThrownUTError e => message e
  | ThrownOther r => r
  end.

(** [Effect.map]. *)
Definition effMap {A B : Type} (f : A -> B) (m : Eff A) : Eff B :=
  let* a := m in succeed (f a).

(** The line [Effect.ignoreLogged] logs, at debug level, with the cause. *)
Definition silentlyIgnored : string :=
  "An error was silently ignored because it is not anticipated to be useful".

(** [Effect.ignoreLogged]: a failure or defect is logged and dropped. *)
Definition ignoreLogged {A : Type} (m : Eff A) : Eff unit :=
  fun w =>
    match m w with
    | (Success _, w') => (Success tt, w')
    | (Failure _, w') => logDebug silentlyIgnored w'
    | (Die _, w') => logDebug silentlyIgnored w'
    end.

(* ===================================================================== *)
(** * The handler *)
(* ===================================================================== *)

Section Handler.

Context {shared : Shared}.

(** ** [runRouteMiddleware] *)

(** The [catch] of the middleware call. *)
Definition catchMiddleware (error : Thrown) : UploadThingError :=
  match error with
  | ThrownUTError e => e
  | ThrownOther r => mkUTError INTERNAL_SERVER_ERROR "Failed to run middleware" (Some r)
  end.

(** [metadata[UTFiles] && metadata[UTFiles].length !== files.length]: an
    array, also the empty one, is truthy. *)
Definition overrideLengthDiffers (metadata : Metadata) (files : list FileUploadData) : bool :=
  match md_UTFiles metadata with
  | Some overrides => negb (length overrides =? length files)
  | None => false
  end.

Definition overrideLengthMessage (metadata : Metadata) (files : list FileUploadData) : string :=
  "Expected files override to have the same length as original files, got "
  +:+ pretty (length (nullish (md_UTFiles metadata) []))
  +:+ " but expected " +:+ pretty (length files).

(** [metadata[UTFiles]?.[idx]]. *)
Definition theirsAt (metadata : Metadata) (idx : nat) : option FileOverride :=
  match md_UTFiles metadata with
  | Some overrides => overrides !! idx
  | None => None
  end.

(** [theirs && theirs.size !== file.size]. *)
Definition sizeDiffers (theirs : option FileOverride) (file : FileUploadData) : bool :=
  match theirs with
  | Some t =>
      match ov_size t with
      | Some s => negb (s =? fd_size file)%Z
      | None => true
      end
  | None => false
  end.

(** The warning of a size mismatch, as it appears in the trace. *)
Definition sizeWarning : Event :=
  EvLog LWarning "File size mismatch. Reverting to original size".

(** The callback of [Effect.forEach(files, (file, idx) => ...)]. *)
Definition attachCustomId (metadata : Metadata) (file : FileUploadData) (idx : nat)
  : Eff FileWithCustomId :=
  let theirs := theirsAt metadata idx in
  let* _ := (if sizeDiffers theirs file
             then logWarning "File size mismatch. Reverting to original size"
             else succeed tt) in
  let* lastModified :=
    match theirs ≫= ov_lastModified with
    | Some lm => succeed lm
    | None => DateNow
    end in
  succeed {| fc_name := nullish (theirs ≫= ov_name) (fd_name file);
             fc_size := fd_size file;
             fc_type := fd_type file;
             fc_customId := theirs ≫= ov_customId;
             fc_lastModified := lastModified |}.

Definition runRouteMiddleware (middlewareArgs : Json) (json : UploadActionPayload)
    (uploadable : Uploader) : Eff (Metadata * list FileWithCustomId) :=
  let files := files json in
  let input := input json in
  let* _ := logDebug "Running middleware" in
  let* _ := emit EvMiddleware in
  let* metadata :=
    tryPromise (middleware uploadable middlewareArgs input files) catchMiddleware in
  if overrideLengthDiffers metadata files then
    let msg := overrideLengthMessage metadata files in
    let* _ := logError msg in
    failUT BAD_REQUEST "Files override must have the same length as files" (Some msg)
  else
    let* filesWithCustomIds := forEach files (attachCustomId metadata) in
    succeed (metadata, filesWithCustomIds).

(** ** [handleUploadAction] *)

Definition optJson (o : option string) : Json :=
  match o with Some s => JStr s | None => JNull end.

(** The [data] signed into the URL of one file. *)
Definition signedData (appId slug : string) (file : FileUploadRequest) : list (string * Json) :=
  [ ("x-ut-identifier", JStr appId);
    ("x-ut-file-name", JStr (fr_name file));
    ("x-ut-file-size", JNum (fr_size file));
    ("x-ut-file-type", JStr (fr_type file));
    ("x-ut-slug", JStr slug);
    ("x-ut-custom-id", optJson (fr_customId file));
    ("x-ut-content-disposition", JStr (fr_contentDisposition file));
    ("x-ut-acl", optJson (fr_acl file)) ].

(** The callback that builds one element of [fileUploadRequests]. *)
Definition toFileUploadRequest (parsedConfig : ExpandedRouteConfig)
    (file : FileWithCustomId) (_ : nat) : Eff FileUploadRequest :=
  match getTypeFromFileName (fc_name file) (objectKeys parsedConfig) with
  | inl e => die e
  | inr type =>
      let bucket := getProp parsedConfig type in
      succeed {| fr_name := fc_name file;
                 fr_size := fc_size file;
                 fr_type := fc_type file;
                 fr_lastModified := fc_lastModified file;
                 fr_customId := fc_customId file;
                 fr_contentDisposition := nullish (bucket ≫= contentDisposition) "inline";
                 fr_acl := bucket ≫= acl |}
  end.

(** The per-file task of the unbounded [forEach]: key, then signed URL. *)
Definition presignFile (cfg : Config) (uploadable : Uploader) (tok : Token)
    (slug : string) (file : FileUploadRequest) : Eff UrlAndKey :=
  let* r := random in
  let* key := fromEither (generateKey file (getFileHashParts (routeOptions uploadable)) r) in
  let* _ := emit (EvKeyGenerated key) in
  let* baseUrl := fromConfig (IngestUrl cfg) in
  let* url := fromEither (generateSignedURL (baseUrl +:+ "/" +:+ key) (apiKey tok)
                            (presignedURLTTL (routeOptions uploadable))
                            (signedData (appId tok) slug file)) in
  let* _ := emit (EvUrlSigned url) in
  succeed {| uk_url := url; uk_key := key |}.

(** [presignedUrls.map((p, i) => ({ ..., name: fileUploadRequests[i].name,
    customId: fileUploadRequests[i].customId ?? null }))]; reading a
    property of a missing element throws. *)
Fixpoint toPresigneds (presignedUrls : list UrlAndKey) (i : nat)
    (fileUploadRequests : list FileUploadRequest) : option (list PresignedEntry) :=
  match presignedUrls with
  | [] => Some []
  | p :: rest =>
      match fileUploadRequests !! i, toPresigneds rest (S i) fileUploadRequests with
      | Some r, Some entries =>
          Some ({| pe_url := uk_url p; pe_key := uk_key p;
                   pe_name := fr_name r; pe_customId := fr_customId r |} :: entries)
      | _, _ => None
      end
  end.

Definition authHeaders (tok : Token) (beAdapter fePackage : string) : list (string * string) :=
  [ ("x-uploadthing-api-key", apiKey tok);
    ("x-uploadthing-version", UPLOADTHING_VERSION);
    ("x-uploadthing-be-adapter", beAdapter);
    ("x-uploadthing-fe-package", fePackage) ].

Definition catchInputParser (error : Thrown) : UploadThingError :=
  mkUTError BAD_REQUEST "Invalid input" (Some (renderThrown error)).

Definition handleUploadAction (cfg : Config) (middlewareArgs : Json)
    (request : HttpServerRequest) (uploadable : Uploader)
    (fePackage beAdapter slug : string) : Eff (list PresignedEntry * Fiber) :=
  let* json :=
    match decodeUploadActionPayload (req_text request) with
    | inr j => succeed j
    | inl e => fail (bodyError e)
    end in
  let* _ := logDebug "Handling upload request with input:" in
  (* validate the input *)
  let* _ := logDebug "Parsing user input" in
  let* _ := emit EvInputParser in
  let* parsedInput := tryPromise (inputParser uploadable (input json)) catchInputParser in
  let* _ := logDebug "Input parsed successfully" in
  let* '(metadata, filesWithCustomIds) :=
    runRouteMiddleware middlewareArgs
      {| input := parsedInput; files := files json |} uploadable in
  let* _ := logDebug "Parsing route config" in
  let* parsedConfig :=
    match fillInputRouteConfig (routerConfig uploadable) with
    | inr c => succeed c
    | inl err => failUT BAD_REQUEST "Invalid route config" (Some err)
    end in
  let* _ := logDebug "Route config parsed successfully" in
  let* _ := logDebug "Validating files meet the config requirements" in
  let* _ :=
    match assertFilesMeetConfig (files json) parsedConfig with
    | None => succeed tt
    | Some (tag, reason) => failUT BAD_REQUEST ("Invalid config: " +:+ tag) (Some reason)
    end in
  let* fileUploadRequests := forEach filesWithCustomIds (toFileUploadRequest parsedConfig) in
  let* tok := fromConfig (UTToken cfg) in
  let* presignedUrls :=
    forEachUnbounded fileUploadRequests (presignFile cfg uploadable tok slug) in
  let callbackUrl := nullish (callbackUrl cfg) (req_url request) in
  let* isDev := fromConfig (IsDevelopment cfg) in
  let* baseUrl := fromConfig (IngestUrl cfg) in
  let metadataRequest :=
    {| mr_url := baseUrl +:+ "/route-metadata";
       mr_headers := authHeaders tok beAdapter fePackage;
       mr_fileKeys := map uk_key presignedUrls;
       mr_metadata := metadata;
       mr_isDev := isDev;
       mr_callbackUrl := callbackUrl;
       mr_callbackSlug := slug;
       mr_awaitServerData := nullish (awaitServerData (routeOptions uploadable)) false |} in
  (* Send metadata to UT server (non blocking as a daemon) *)
  let* fiber := forkDaemon (RegisterMetadata metadataRequest) in
  match toPresigneds presignedUrls 0 fileUploadRequests with
  | None => die "TypeError: Cannot read properties of undefined"
  | Some presigneds =>
      let* _ := logInfo "Sending presigned URLs to client" in
      succeed (presigneds, fiber)
  end.

(** ** [handleCallbackRequest] *)

Definition catchResolver (error : Thrown) : UploadThingError :=
  mkUTError INTERNAL_SERVER_ERROR
    "Failed to run onUploadComplete. You probably shouldn't be throwing errors here."
    (Some (renderThrown error)).

Definition handleCallbackRequest (cfg : Config) (request : HttpServerRequest)
    (uploadable : Uploader) (fePackage beAdapter : string) : Eff (Body * Fiber) :=
  let* tok := fromConfig (UTToken cfg) in
  let verified :=
    verifySignature (req_text request) (hdr_x_uploadthing_signature request) (apiKey tok) in
  let* _ := logDebug "Signature verified:" in
  if negb verified then
    let* _ := logError "Invalid signature" in
    failUT BAD_REQUEST "Invalid signature" None
  else
    let* requestInput :=
      match decodeCallbackPayload (req_text request) with
      | inr p => succeed p
      | inl e => fail (bodyError e)
      end in
    let* _ := logDebug "Handling callback request with input:" in
    (* Run `.onUploadComplete` as a daemon *)
    let* fiber :=
      forkDaemon (CompleteCallback uploadable requestInput
                    (authHeaders tok beAdapter fePackage)) in
    succeed (BodyNull, fiber).

(** ** What a forked fiber does when the runtime runs it. *)

(** The tap on a [ResponseError]: the body of the response is read as
    JSON and the status is logged; when the body is not JSON, reading it
    fails and nothing is logged. *)
Definition logResponseError (e : Err) : Eff unit :=
  match e with
  | ErrResponse status (Some _) =>
      logError ("Failed to register metadata (" +:+ pretty status +:+ ")")
  | ErrResponse status None => fail (ErrResponse status None)
  | _ => succeed tt
  end.

(** [metadataRequest]: the POST to [/route-metadata] with its
    [filterStatusOk] and [tapBoth]. *)
Definition metadataRequest (r : MetadataRequest) : Eff HttpClientResponse :=
  tapBoth
    (fun err =>
       match err with
       | ErrResponse _ _ => logResponseError err
       | _ => logError "Failed to register metadata"
       end)
    (fun _ => logDebug "Registerred metadata")
    (let* res := httpExecute (mr_url r) in filterStatusOk res).

(** In development the response is a stream: every chunk is decoded as a
    [{ payload, signature }] part and replayed as a callback request to
    the handler's own URL (with the slug as query parameter); a failed
    replay is logged and dropped, a chunk that does not decode ends the
    stream with a [ParseError]. *)
Fixpoint simulateCallbacks (callbackUrl : string) (chunks : list string) : Eff unit :=
  match chunks with
  | [] => succeed tt
  | chunk :: rest =>
      match decodeMetadataFetchStreamPart chunk with
      | None => fail (ErrParse chunk)
      | Some _ =>
          let* _ := ignoreLogged (
            let* _ := httpExecute callbackUrl in
            logInfo "Successfully simulated callback") in
          simulateCallbacks callbackUrl rest
      end
  end.

Definition runFiber (cfg : Config) (f : Fiber) : Eff unit :=
  match f with
  | RegisterMetadata r =>
      ignoreLogged (
        let* res := metadataRequest r in
        if mr_isDev r
        then simulateCallbacks (mr_callbackUrl r) (res_chunks res)
        else schemaBodyJsonScoped isMetadataFetchResponse res)
  | CompleteCallback uploadable requestInput _ =>
      ignoreLogged (
        let* _ := emit (EvResolver (up_key (cb_file requestInput))) in
        let* serverData :=
          tryPromise (resolver uploadable (cb_file requestInput) (cb_metadata requestInput))
                     catchResolver in
        let* _ := logDebug
          "'onUploadComplete' callback finished. Sending response to UploadThing:" in
        let* baseUrl := fromConfig (IngestUrl cfg) in
        let* res :=
          tapError logResponseError
            (let* res := httpExecute (baseUrl +:+ "/callback-result") in
             filterStatusOk res) in
        let* _ := schemaBodyJsonScoped isCallbackResultResponse res in
        logInfo "Sent callback result to UploadThing")
  end.

(** ** [createRequestHandler] *)

Record Headers : Type := mkHeaders {
  uploadthingHook : option UploadThingHook;
  fePackage : string;
  clientVersion : string;
}.

(** [S.optional(literal)] on a raw value: absent is fine, present must
    decode. The outer [None] is the [ParseError]. *)
Definition optionalLiteral {A : Type} (decode : string -> option A) (raw : option string)
  : option (option A) :=
  match raw with
  | None => Some None
  | Some r =>
      match decode r with
      | Some a => Some (Some a)
      | None => None
      end
  end.

(** [HttpServerRequest.schemaHeaders(S.Struct({ ... }))]: an optional
    literal, and two optional strings with defaults. *)
Definition schemaHeaders (request : HttpServerRequest) : Eff Headers :=
  match optionalLiteral decodeUploadThingHook (hdr_uploadthing_hook request) with
  | Some hook =>
      succeed {| uploadthingHook := hook;
                 fePackage := nullish (hdr_x_uploadthing_package request) "unknown";
                 clientVersion := nullish (hdr_x_uploadthing_version request)
                                          UPLOADTHING_VERSION |}
  | None => fail (ErrParse "uploadthing-hook: expected a literal")
  end.

Record Params : Type := mkParams {
  actionType : option ActionType;
  slug : string;
}.

(** [HttpRouter.schemaParams(S.Struct({ actionType, slug }))]. *)
Definition schemaParams (request : HttpServerRequest) : Eff Params :=
  match optionalLiteral decodeActionType (param_actionType request),
        param_slug request with
  | Some action, Some s => succeed {| actionType := action; slug := s |}
  | None, _ => fail (ErrParse "actionType: expected a literal")
  | _, None => fail (ErrParse "slug: is missing")
  end.

Definition versionMismatchMessage (clientVersion : string) : string :=
  "Server version: " +:+ UPLOADTHING_VERSION +:+ ", Client version: " +:+ clientVersion.

(** The [Match.value({ actionType, uploadthingHook })] of the POST route. *)
Definition dispatch (cfg : Config) (middlewareArgs : Json) (request : HttpServerRequest)
    (uploadable : Uploader) (fePackage beAdapter slug : string)
    (actionType : option ActionType) (uploadthingHook : option UploadThingHook)
  : Eff (Body * option Fiber) :=
  match actionType, uploadthingHook with
  | Some ActionUpload, None =>
      let* '(presigneds, fiber) :=
        handleUploadAction cfg middlewareArgs request uploadable fePackage beAdapter slug in
      succeed (BodyPresigneds presigneds, Some fiber)
  | None, Some HookCallback =>
      let* '(body, fiber) :=
        handleCallbackRequest cfg request uploadable fePackage beAdapter in
      succeed (body, Some fiber)
  | _, _ => succeed (BodyNull, None)
  end.

(** A member of [Object.prototype] where a route is expected. It has no
    [resolver]: calling it throws a TypeError, inside the [try] of the
    callback fiber. It has no [_def] either; the fields below that stand
    for [_def] are never read (see [dispatchInherited]). *)
Definition notARoute : Uploader :=
  {| middleware := fun _ _ _ =>
       inl (ThrownOther "TypeError: Cannot read properties of undefined");
     inputParser := fun _ =>
       inl (ThrownOther "TypeError: Cannot read properties of undefined");
     routerConfig := JNull;
     routeOptions := {| presignedURLTTL := 0; getFileHashParts := None;
                        awaitServerData := None |};
     resolver := fun _ _ => inl (ThrownOther "TypeError: uploadable.resolver is not a function") |}.

(** The same [Match] when [opts.router[slug]] is a member of
    [Object.prototype]. The upload handler decodes the body, logs two
    lines and then reads [uploadable._def.inputParser], which throws
    inside the generator: a defect. The callback handler only hands the
    value on to its fiber. *)
Definition dispatchInherited (cfg : Config) (request : HttpServerRequest)
    (fePackage beAdapter : string)
    (actionType : option ActionType) (uploadthingHook : option UploadThingHook)
  : Eff (Body * option Fiber) :=
  match actionType, uploadthingHook with
  | Some ActionUpload, None =>
      let* _ :=
        match decodeUploadActionPayload (req_text request) with
        | inr j => succeed j
        | inl e => fail (bodyError e)
        end in
      let* _ := logDebug "Handling upload request with input:" in
      let* _ := logDebug "Parsing user input" in
      die "TypeError: Cannot read properties of undefined (reading 'inputParser')"
  | None, Some HookCallback =>
      let* '(body, fiber) :=
        handleCallbackRequest cfg request notARoute fePackage beAdapter in
      succeed (body, Some fiber)
  | _, _ => succeed (BodyNull, None)
  end.

(** [if (fiber) { ... }] on the daemon policy. The host's function is
    called inside the generator, outside any [try]: when it throws, the
    route dies. *)
Definition handleDaemonFiber (cfg : Config) (fiber : option Fiber) : Eff unit :=
  match fiber with
  | Some f =>
      match handleDaemonPromise cfg with
      | Some DaemonVoid => succeed tt
      | Some DaemonAwait => runFiber cfg f
      | Some (DaemonFunction throws) =>
          let* _ := emit EvHandleDaemon in
          match throws with
          | None => succeed tt
          | Some thrown => die thrown
          end
      | None => succeed tt
      end
  | None => succeed tt
  end.

(** The POST route once the version check has passed: parameters, route
    lookup, dispatch, daemon policy, response. [opts.router[slug]] is a
    route of the router, or a member of [Object.prototype], or
    [undefined]. *)
Definition processRequest (opts : RouteHandlerOptions) (beAdapter : string)
    (middlewareArgs : Json) (request : HttpServerRequest) (h : Headers)
  : Eff HttpServerResponse :=
  let* p := schemaParams request in
  match getProp (router opts) (slug p) with
  | None =>
      if inherited (slug p) then
        let* '(body, fiber) :=
          dispatchInherited (config opts) request (fePackage h) beAdapter
                            (actionType p) (uploadthingHook h) in
        let* _ := handleDaemonFiber (config opts) fiber in
        succeed (jsonResponse body 200)
      else
        let msg := "No file route found for slug " +:+ slug p in
        let* _ := logError msg in
        failUT NOT_FOUND msg None
  | Some uploadable =>
      let* '(body, fiber) :=
        dispatch (config opts) middlewareArgs request uploadable
                 (fePackage h) beAdapter (slug p) (actionType p) (uploadthingHook h) in
      let* _ := handleDaemonFiber (config opts) fiber in
      succeed (jsonResponse body 200)
  end.

(** The generator of the POST route, before its [catchTags]. *)
Definition POSTbody (opts : RouteHandlerOptions) (beAdapter : string)
    (middlewareArgs : Json) (request : HttpServerRequest) : Eff HttpServerResponse :=
  let* h := schemaHeaders request in
  if negb (String.eqb (clientVersion h) UPLOADTHING_VERSION) then
    let msg := versionMismatchMessage (clientVersion h) in
    let* _ := logError msg in
    failUT BAD_REQUEST "Client version mismatch" (Some msg)
  else
    processRequest opts beAdapter middlewareArgs request h.

Definition errorResponse (opts : RouteHandlerOptions) (e : UploadThingError)
  : HttpServerResponse :=
  jsonResponse (BodyJson (formatError e (router opts))) (getStatusCodeFromError e).

(** The [Effect.catchTags({ ParseError, UploadThingError })] of the POST
    route. *)
Definition catchPOST (opts : RouteHandlerOptions) (e : Err) : option (Eff HttpServerResponse) :=
  match e with
  | ErrParse msg =>
      Some (succeed (jsonResponse
              (BodyJson (formatError (mkUTError BAD_REQUEST "Invalid input" (Some msg))
                                     (router opts))) 400))
  | ErrUploadThing e => Some (succeed (errorResponse opts e))
  | _ => None
  end.

Definition POST (opts : RouteHandlerOptions) (beAdapter : string)
    (middlewareArgs : Json) (request : HttpServerRequest) : Eff HttpServerResponse :=
  catchSome (catchPOST opts) (POSTbody opts beAdapter middlewareArgs request).

Definition GET (routerConfig : list (string * ExpandedRouteConfig)) : Eff HttpServerResponse :=
  succeed (jsonResponse (BodyRouterConfig routerConfig) 200).

Definition appendResponseHeaders : Eff HttpServerResponse -> Eff HttpServerResponse :=
  effMap (setHeader "x-uploadthing-version" UPLOADTHING_VERSION).

(** The router [createRequestHandler] returns: its GET and POST routes. *)
Record HttpRouter : Type := mkRouter {
  route_get : Eff HttpServerResponse;
  route_post : Json -> HttpServerRequest -> Eff HttpServerResponse;
}.

(** The message of the configuration error, [await] in double quotes. *)
Definition awaitForbidden : string :=
  "handleDaemonPromise: " +:+ dquote +:+ "await" +:+ dquote
  +:+ " is forbidden in development.".

Definition createRequestHandler (opts : RouteHandlerOptions) (beAdapter : string)
  : Eff HttpRouter :=
  let* isDevelopment := fromConfig (IsDevelopment (config opts)) in
  let* routerConfig :=
    match extractRouterConfig (router opts) with
    | inr rc => succeed rc
    | inl msg => fail (ErrInvalidRouteConfig msg)
    end in
  let handleDaemon := handleDaemonPromise (config opts) in
  if isDevelopment && match handleDaemon with Some DaemonAwait => true | _ => false end then
    failUT INVALID_SERVER_CONFIG awaitForbidden None
  else
    succeed {| route_get := appendResponseHeaders (GET routerConfig);
               route_post := fun middlewareArgs request =>
                 appendResponseHeaders (POST opts beAdapter middlewareArgs request) |}.

(** ** The requests a built router serves, one after the other. *)
Inductive Incoming : Type :=
| IncomingGET
| IncomingPOST (middlewareArgs : Json) (request : HttpServerRequest).

Definition serveOne (rt : HttpRouter) (i : Incoming) : Eff HttpServerResponse :=
  match i with
  | IncomingGET => route_get rt
  | IncomingPOST middlewareArgs request => route_post rt middlewareArgs request
  end.

Fixpoint serve (rt : HttpRouter) (reqs : list Incoming) (w : World)
  : list (Exit HttpServerResponse) * World :=
  match reqs with
  | [] => ([], w)
  | i :: rest =>
      let '(r, w1) := serveOne rt i w in
      let '(rs, w2) := serve rt rest w1 in
      (r :: rs, w2)
  end.

(** ** The earlier revision of the file: [RequestInput]-based dispatch and
    the permissions handler of the adapters. Its [handleCallbackRequest],
    [runRouteMiddleware] and [handleUploadAction] are the programs above,
    reading their inputs from [RequestInput] (a body that is not JSON has
    the tag [InvalidJson] there). *)

Record RequestInput : Type := mkRequestInput {
  ri_req : HttpServerRequest;
  ri_uploadable : Uploader;
  ri_middlewareArgs : Json;
  ri_action : option string;
  ri_hook : option string;
  ri_slug : string;
  ri_fePackage : string;
  ri_adapter : string;
}.

Definition handleRequest (cfg : Config) (ri : RequestInput) : Eff (bool * Body * Fiber) :=
  let* '(body, fiber) :=
    if isString (ri_hook ri) "callback" then
      handleCallbackRequest cfg (ri_req ri) (ri_uploadable ri)
                            (ri_fePackage ri) (ri_adapter ri)
    else if isString (ri_action ri) "upload" then
      let* '(presigneds, fiber) :=
        handleUploadAction cfg (ri_middlewareArgs ri) (ri_req ri) (ri_uploadable ri)
                           (ri_fePackage ri) (ri_adapter ri) (ri_slug ri) in
      succeed (BodyPresigneds presigneds, fiber)
    else die "Unreachable" in
  succeed (true, body, fiber).

(** [objectKeys(opts.router).map((slug) => ({ slug, config }))]; [runSync]
    throws when the config is invalid. *)
Fixpoint permissionsOf (router : FileRouter) (slugs : list string)
  : string + list (string * ExpandedRouteConfig) :=
  match slugs with
  | [] => inr []
  | slug :: rest =>
      match getProp router slug with
      | None => inl "TypeError: Cannot read properties of undefined"
      | Some route =>
          match fillInputRouteConfig (routerConfig route) with
          | inl err => inl err
          | inr config =>
              match permissionsOf router rest with
              | inl err => inl err
              | inr permissions => inr ((slug, config) :: permissions)
              end
          end
      end
  end.

Definition buildPermissionsInfoHandler (opts : RouteHandlerOptions)
  : unit -> string + list (string * ExpandedRouteConfig) :=
  fun _ => permissionsOf (router opts) (objectKeys (router opts)).

End Handler.

(* ===================================================================== *)
(** * What an effect leaves behind *)
(* ===================================================================== *)

(** [calm w w']: from [w] to [w'] the clock may have been read and lines
    may have been logged or user hooks called, and nothing else: no
    entropy drawn, no fiber scheduled or forked, no key or URL generated,
    no HTTP call made. *)
Definition calm (w w' : World) : Prop :=
  exists dc evs,
    w' = advance w dc 0 0 evs [] /\ Forall (fun ev => outbound ev = false) evs.

(** What the reconciliation callback logs for the file at index [idx]:
    the warning, when there is an override at that index and it does not
    carry the size of the file. *)
Definition sizeWarningAt (metadata : Metadata) (idx : nat) (file : FileUploadData)
  : list Event :=
  match md_UTFiles metadata ≫= (.!! idx) with
  | Some theirs =>
      if bool_decide (ov_size theirs = Some (fd_size file)) then [] else [sizeWarning]
  | None => []
  end.

Definition isKeyGenerated (ev : Event) : bool :=
  match ev with EvKeyGenerated _ => true | _ => false end.

Definition isUrlSigned (ev : Event) : bool :=
  match ev with EvUrlSigned _ => true | _ => false end.

(** [steady w w']: no entropy was drawn, no key generated, no URL
    signed. *)
Definition steady (w w' : World) : Prop :=
  entropyReads w' = entropyReads w /\
  count isKeyGenerated w' = count isKeyGenerated w /\
  count isUrlSigned w' = count isUrlSigned w.

(** [sameDaemons w w']: no fiber was forked. *)
Definition sameDaemons (w w' : World) : Prop := daemons w' = daemons w.

(** The effect relates the world it starts in to the world it ends in by
    [R], whatever its outcome. *)
Definition Keeps (R : World -> World -> Prop) {A : Type} (m : Eff A) : Prop :=
  forall w r w', m w = (r, w') -> R w w'.

(** What the callback fiber adds to the trace once its request to
    [/callback-result] has gone out, by what became of the request. *)
Definition afterCallbackResult {shared : Shared} (reply : Reply) : list Event :=
  match reply with
  | Unanswered _ => [EvLog LDebug silentlyIgnored]
  | Answered res =>
      if (200 <=? res_status res)%Z && (res_status res <? 300)%Z then
        match res_json res with
        | Some j =>
            if isCallbackResultResponse j
            then [EvLog LInfo "Sent callback result to UploadThing"]
            else [EvLog LDebug silentlyIgnored]
        | None => [EvLog LDebug silentlyIgnored]
        end
      else
        match res_json res with
        | Some _ =>
            [EvLog LError
               ("Failed to register metadata (" +:+ pretty (res_status res) +:+ ")");
             EvLog LDebug silentlyIgnored]
        | None => [EvLog LDebug silentlyIgnored]
        end
  end.

(** What the outcome of an upload action says about the forked fibers:
    the returned fiber and no other on success, none on a failure, at
    most one on a defect. *)
Definition forkOutcome (w : World) (r : Exit (list PresignedEntry * Fiber)) (w' : World)
  : Prop :=
  match r with
  | Success (_, fiber) => daemons w' = daemons w ++ [fiber]
  | Failure _ => daemons w' = daemons w
  | Die _ => daemons w' = daemons w \/ exists fiber, daemons w' = daemons w ++ [fiber]
  end.

(* ===================================================================== *)
(** * The client transfer: [uploadWithProgress] *)
(* ===================================================================== *)

(** The events of the [XMLHttpRequest] the function listens to. *)
Inductive XhrEvent : Type :=
| XhrProgress (loaded : Z)                 (* xhr.upload "progress" *)
| XhrLoad (status : Z) (response : Json)   (* "load" *)
| XhrError.                                (* "error" *)

(** What [resume] is called with. *)
Inductive UploadOutcome : Type :=
| Uploaded (response : Json)     (* Micro.succeed(xhr.response) *)
| XhrFailed (status : Z)         (* Micro.die(`XHR failed ...`) *)
| UploadFailed.                  (* new UploadThingError({ code: "UPLOAD_FAILED" }) *)

(** The state the listeners share: [previousLoaded], the calls made to
    [onUploadProgress] as [(loaded, delta)], oldest first, and what the
    effect was resumed with, if it was. *)
Record Xhr : Type := mkXhr {
  previousLoaded : Z;
  progressCalls : list (Z * Z);
  resumed : option UploadOutcome;
}.

Definition xhrOpen : Xhr :=
  {| previousLoaded := 0; progressCalls := []; resumed := None |}.

(** [resume(...)]: an async effect is resumed once; later calls are
    ignored. *)
Definition resume (o : UploadOutcome) (x : Xhr) : Xhr :=
  match resumed x with
  | Some _ => x
  | None => {| previousLoaded := previousLoaded x;
               progressCalls := progressCalls x;
               resumed := Some o |}
  end.

(** One event through its listener; [onUploadProgress] may be undefined
    ([onUploadProgress?.(...)]). *)
Definition xhrListen (onUploadProgress : bool) (x : Xhr) (ev : XhrEvent) : Xhr :=
  match ev with
  | XhrProgress loaded =>
      let delta := (loaded - previousLoaded x)%Z in
      {| previousLoaded := loaded;
         progressCalls := if onUploadProgress
                          then progressCalls x ++ [(loaded, delta)]
                          else progressCalls x;
         resumed := resumed x |}
  | XhrLoad status response =>
      resume (if (200 <=? status)%Z && (status <? 300)%Z
              then Uploaded response
              else XhrFailed status) x
  | XhrError => resume UploadFailed x
  end.

Definition uploadWithProgress (onUploadProgress : bool) (events : list XhrEvent) : Xhr :=
  fold_left (xhrListen onUploadProgress) events xhrOpen.


(* ===================================================================== *)
(** * A concrete instance *)
(* ===================================================================== *)

(** A small implementation of the interface and a route registry with one
    route, on which the handler is run in the examples below. *)
Module Fixture.

(** Modelled from the spec: the status of an error code
    (BAD_REQUEST→400, NOT_FOUND→404, INTERNAL_SERVER_ERROR→500); the
    function itself lives in [@uploadthing/shared]. *)
Definition statusOf (e : UploadThingError) : Z :=
  match code e with
  | BAD_REQUEST => 400
  | NOT_FOUND => 404
  | FORBIDDEN => 403
  | _ => 500
  end.

Definition imageBucket : RouteTypeConfig :=
  {| maxFileSize := "4MB"; maxFileCount := 4; minFileCount := 1;
     contentDisposition := None; acl := Some "public-read" |}.

Definition fill (declared : Json) : string + ExpandedRouteConfig :=
  match declared with
  | JArr [JStr "image"] => inr [("image", imageBucket)]
  | _ => inl "InvalidRouteConfig"
  end.

Fixpoint extract (r : FileRouter) : string + list (string * ExpandedRouteConfig) :=
  match r with
  | [] => inr []
  | (slug, route) :: rest =>
      match fill (routerConfig route), extract rest with
      | inr c, inr cs => inr ((slug, c) :: cs)
      | inl e, _ => inl e
      | _, inl e => inl e
      end
  end.

Definition filesOk (fs : list FileUploadData) (c : ExpandedRouteConfig)
  : option (string * string) :=
  if forallb (fun f => (fd_size f <=? 4000000)%Z) fs
  then None
  else Some ("FileSizeMismatch", "file is too large").

Definition a_png : FileUploadData :=
  {| fd_name := "a.png"; fd_size := 1000000; fd_type := "image/png";
     fd_lastModified := Some 1%Z |}.
Definition b_png : FileUploadData :=
  {| fd_name := "b.png"; fd_size := 2000000; fd_type := "image/png";
     fd_lastModified := None |}.
Definition c_png : FileUploadData :=
  {| fd_name := "c.png"; fd_size := 3000000; fd_type := "image/png";
     fd_lastModified := None |}.

(** The request bodies the decoders know. *)
Definition decodeUpload (text : string) : BodyError + UploadActionPayload :=
  if String.eqb text "three" then inr {| input := JNull; files := [a_png; b_png; c_png] |}
  else if String.eqb text "one" then inr {| input := JNull; files := [a_png] |}
  else if String.eqb text "{}" then inl (NotOfSchema "Expected { input, files }")
  else inl (NotJson "Unexpected token").

Definition decodeCallback (text : string) : BodyError + CallbackPayload :=
  if String.eqb text "uploaded"
  then inr {| cb_status := "uploaded";
              cb_file := {| up_key := "k1"; up_name := "a.png"; up_size := 1000000 |};
              cb_metadata := [] |}
  else inl (NotOfSchema "Expected { status, file, metadata }").

(** The stream parts the decoder knows: ["payload|signature"] with a
    one-letter payload. *)
Definition decodePart (chunk : string) : option (string * string) :=
  match chunk with
  | String p (String sep signature) =>
      if String.eqb (String sep EmptyString) "|" then Some (String p EmptyString, signature) else None
  | _ => None
  end.

#[local] Instance shared : Shared := {|
  UPLOADTHING_VERSION := "7.0.0";
  verifySignature := fun payload signature secret =>
    isString signature ("sig:" +:+ secret +:+ ":" +:+ payload);
  fillInputRouteConfig := fill;
  extractRouterConfig := extract;
  assertFilesMeetConfig := filesOk;
  getTypeFromFileName := fun name types =>
    match types with t :: _ => inr t | [] => inl "UnknownFileType" end;
  generateKey := fun file _ r => inr (fr_name file +:+ "#" +:+ pretty r);
  generateSignedURL := fun url key _ _ => inr (url +:+ "?signature=" +:+ key);
  getStatusCodeFromError := statusOf;
  formatError := fun e _ => JObj [("message", JStr (message e))];
  decodeUploadActionPayload := decodeUpload;
  decodeCallbackPayload := decodeCallback;
  isMetadataFetchResponse := fun j => match j with JObj _ => true | _ => false end;
  isCallbackResultResponse := fun j => match j with JObj _ => true | _ => false end;
  decodeMetadataFetchStreamPart := decodePart;
|}.

(** A middleware that renames the second file, gives it a custom id and a
    wrong size, and leaves the others alone. *)
Definition renameSecond (_ _ : Json) (fs : list FileUploadData) : Thrown + Metadata :=
  inr {| md_fields := [("userId", JStr "u1")];
         md_UTFiles := Some (imap (fun i f =>
           if i =? 1
           then {| ov_name := Some "renamed.png"; ov_size := Some 5%Z;
                   ov_customId := Some "custom-b"; ov_lastModified := Some 42%Z |}
           else {| ov_name := None; ov_size := Some (fd_size f);
                   ov_customId := None; ov_lastModified := None |}) fs) |}.

(** A middleware whose override array has always two elements. *)
Definition twoOverrides (_ _ : Json) (fs : list FileUploadData) : Thrown + Metadata :=
  inr {| md_fields := [];
         md_UTFiles := Some [ mkOverride None None None None;
                              mkOverride None None None None ] |}.

Definition options : RouteOptions :=
  {| presignedURLTTL := 3600; getFileHashParts := None; awaitServerData := None |}.

Definition avatar : Uploader :=
  {| middleware := renameSecond;
     inputParser := fun j => inr j;
     routerConfig := JArr [JStr "image"];
     routeOptions := options;
     resolver := fun _ _ => inr None |}.

Definition strict : Uploader :=
  {| middleware := twoOverrides;
     inputParser := fun j => inr j;
     routerConfig := JArr [JStr "image"];
     routeOptions := options;
     resolver := fun _ _ => inr None |}.

Definition token : Token := {| apiKey := "sk_live"; appId := "app1" |}.

Definition production : Config :=
  {| IsDevelopment := inr false;
     IngestUrl := inr "https://ingest.example";
     UTToken := inr token;
     callbackUrl := None;
     handleDaemonPromise := None |}.

Definition devAwait : Config :=
  {| IsDevelopment := inr true;
     IngestUrl := inr "https://ingest.example";
     UTToken := inr token;
     callbackUrl := None;
     handleDaemonPromise := Some DaemonAwait |}.

Definition opts : RouteHandlerOptions :=
  {| router := [("avatar", avatar); ("strict", strict)]; config := production |}.

Definition optsDevAwait : RouteHandlerOptions :=
  {| router := [("avatar", avatar); ("strict", strict)]; config := devAwait |}.

Definition upload (slug text : string) (version : option string) : HttpServerRequest :=
  {| req_url := "https://app.example/api/uploadthing";
     hdr_uploadthing_hook := None;
     hdr_x_uploadthing_package := Some "@uploadthing/react";
     hdr_x_uploadthing_version := version;
     hdr_x_uploadthing_signature := None;
     param_actionType := Some "upload";
     param_slug := Some slug;
     req_text := text |}.

Definition callback (signature : option string) : HttpServerRequest :=
  {| req_url := "https://app.example/api/uploadthing";
     hdr_uploadthing_hook := Some "callback";
     hdr_x_uploadthing_package := None;
     hdr_x_uploadthing_version := None;
     hdr_x_uploadthing_signature := signature;
     param_actionType := None;
     param_slug := Some "avatar";
     req_text := "uploaded" |}.

(** Neither [actionType] nor the hook header. *)
Definition bare : HttpServerRequest :=
  {| req_url := "https://app.example/api/uploadthing";
     hdr_uploadthing_hook := None;
     hdr_x_uploadthing_package := None;
     hdr_x_uploadthing_version := None;
     hdr_x_uploadthing_signature := None;
     param_actionType := None;
     param_slug := Some "avatar";
     req_text := "" |}.

(** Both [actionType=upload] and the hook header. *)
Definition both : HttpServerRequest :=
  {| req_url := "https://app.example/api/uploadthing";
     hdr_uploadthing_hook := Some "callback";
     hdr_x_uploadthing_package := None;
     hdr_x_uploadthing_version := Some "7.0.0";
     hdr_x_uploadthing_signature := None;
     param_actionType := Some "upload";
     param_slug := Some "avatar";
     req_text := "one" |}.

Definition three : UploadActionPayload :=
  {| input := JNull; files := [a_png; b_png; c_png] |}.

(** A world whose scheduler runs the last pending fiber first, and one
    that runs them first to last. *)
Definition world (sched : nat -> nat) (now : Z) : World :=
  {| clock := fun n => (now + Z.of_nat n)%Z; clockReads := 0;
     entropy := fun n => Z.of_nat (100 + n); entropyReads := 0;
     scheduler := sched; schedulerReads := 0;
     network := fun _ => Answered {| res_status := 200; res_json := Some (JObj []);
                                     res_chunks := [] |};
     trace := []; daemons := [] |}.

Definition lastFirst : nat -> nat := fun n => 2 - n.
Definition firstFirst : nat -> nat := fun _ => 0.

(** A middleware that refuses the upload with an error of its own, and one
    that throws something else. *)
Definition forbidden : UploadThingError :=
  {| code := FORBIDDEN; message := "Sign in first"; cause := None |}.

Definition guarded : Uploader :=
  {| middleware := fun _ _ _ => inl (ThrownUTError forbidden);
     inputParser := fun j => inr j;
     routerConfig := JArr [JStr "image"];
     routeOptions := options;
     resolver := fun _ _ => inr None |}.

(** A route whose input parser rejects everything and whose resolver
    throws. *)
Definition picky : Uploader :=
  {| middleware := renameSecond;
     inputParser := fun _ => inl (ThrownOther "Expected a string");
     routerConfig := JArr [JStr "image"];
     routeOptions := options;
     resolver := fun _ _ => inl (ThrownOther "database is down") |}.

Definition awaiting : Config :=
  {| IsDevelopment := inr false;
     IngestUrl := inr "https://ingest.example";
     UTToken := inr token;
     callbackUrl := None;
     handleDaemonPromise := Some DaemonAwait |}.

(** A callback request with the signature the fixture accepts. *)
Definition signedCallback : HttpServerRequest :=
  callback (Some "sig:sk_live:uploaded").

Definition unconfigured : Config :=
  {| IsDevelopment := inr false;
     IngestUrl := inr "https://ingest.example";
     UTToken := inl "Missing token";
     callbackUrl := None;
     handleDaemonPromise := None |}.

Definition huge : FileUploadData :=
  {| fd_name := "huge.png"; fd_size := 5000000; fd_type := "image/png";
     fd_lastModified := None |}.

(** The same implementation, with a decoder that reads every body as one
    file of five million bytes. *)
Definition sharedHuge : Shared := {|
  UPLOADTHING_VERSION := "7.0.0";
  verifySignature := fun payload signature secret =>
    isString signature ("sig:" +:+ secret +:+ ":" +:+ payload);
  fillInputRouteConfig := fill;
  extractRouterConfig := extract;
  assertFilesMeetConfig := filesOk;
  getTypeFromFileName := fun name types =>
    match types with t :: _ => inr t | [] => inl "UnknownFileType" end;
  generateKey := fun file _ r => inr (fr_name file +:+ "#" +:+ pretty r);
  generateSignedURL := fun url key _ _ => inr (url +:+ "?signature=" +:+ key);
  getStatusCodeFromError := statusOf;
  formatError := fun e _ => JObj [("message", JStr (message e))];
  decodeUploadActionPayload := fun _ => inr {| input := JNull; files := [huge] |};
  decodeCallbackPayload := decodeCallback;
  isMetadataFetchResponse := fun j => match j with JObj _ => true | _ => false end;
  isCallbackResultResponse := fun j => match j with JObj _ => true | _ => false end;
  decodeMetadataFetchStreamPart := decodePart;
|}.

(** A request of the earlier dispatcher with both the hook and the
    action. *)
Definition hookAndAction : RequestInput :=
  {| ri_req := signedCallback;
     ri_uploadable := avatar;
     ri_middlewareArgs := JNull;
     ri_action := Some "upload";
     ri_hook := Some "callback";
     ri_slug := "avatar";
     ri_fePackage := "unknown";
     ri_adapter := "express" |}.

Definition start : World := world firstFirst 1000.

(** A world in which every outbound request is answered with the given
    status and a JSON body, and one in which the first answer is a stream
    of chunks. *)
Definition failing (st : Z) : World :=
  {| clock := fun n => (1000 + Z.of_nat n)%Z; clockReads := 0;
     entropy := fun n => Z.of_nat (100 + n); entropyReads := 0;
     scheduler := firstFirst; schedulerReads := 0;
     network := fun _ => Answered {| res_status := st;
                                     res_json := Some (JObj [("error", JStr "no")]);
                                     res_chunks := [] |};
     trace := []; daemons := [] |}.

Definition streaming (chunks : list string) : World :=
  {| clock := fun n => (1000 + Z.of_nat n)%Z; clockReads := 0;
     entropy := fun n => Z.of_nat (100 + n); entropyReads := 0;
     scheduler := firstFirst; schedulerReads := 0;
     network := fun _ => Answered {| res_status := 200; res_json := None;
                                     res_chunks := chunks |};
     trace := []; daemons := [] |}.

(** A route whose declared config does not normalize, in a router built
    for development with the policy "await". *)
Definition broken : Uploader :=
  {| middleware := renameSecond;
     inputParser := fun j => inr j;
     routerConfig := JNull;
     routeOptions := options;
     resolver := fun _ _ => inr None |}.

Definition optsBrokenDevAwait : RouteHandlerOptions :=
  {| router := [("avatar", avatar); ("broken", broken)]; config := devAwait |}.

(** An upload request without the version header whose hook header is no
    known literal. *)
Definition pinged : HttpServerRequest :=
  {| req_url := "https://app.example/api/uploadthing";
     hdr_uploadthing_hook := Some "ping";
     hdr_x_uploadthing_package := None;
     hdr_x_uploadthing_version := None;
     hdr_x_uploadthing_signature := None;
     param_actionType := Some "upload";
     param_slug := Some "avatar";
     req_text := "one" |}.

End Fixture.

(* ===================================================================== *)
(** * Reasoning about effects *)
(* ===================================================================== *)

(** A successful sequence is the success of both parts. *)
Lemma bind_Success {A B : Type} (m : Eff A) (k : A -> Eff B) w b w' :
  bind m k w = (Success b, w') ->
  exists a w1, m w = (Success a, w1) /\ k a w1 = (Success b, w').
Proof.
  unfold bind. destruct (m w) as [[a | e | d] w1]; intros H; try discriminate.
  by exists a, w1.
Qed.

Lemma bind_step {A B : Type} (m : Eff A) (k : A -> Eff B) w a w1 :
  m w = (Success a, w1) -> bind m k w = k a w1.
Proof. unfold bind. by intros ->. Qed.

(** One step of a sequence whose first part runs by computation. *)
Ltac eff_step := erewrite bind_step by reflexivity; cbv beta.

Section EffLemmas.

Context {A B : Type}.

Lemma advance_advance w dc de ds evs fs dc' de' ds' evs' fs' :
  advance (advance w dc de ds evs fs) dc' de' ds' evs' fs'
  = advance w (dc + dc') (de + de') (ds + ds') (evs ++ evs') (fs ++ fs').
Proof.
  unfold advance; cbn. f_equal; try lia; by rewrite app_assoc.
Qed.

Lemma advance_zero w : advance w 0 0 0 [] [] = w.
Proof.
  destruct w; unfold advance; cbn.
  rewrite !Nat.add_0_r, !app_nil_r. reflexivity.
Qed.

(** ** Sequential [forEach]: the [j]-th result comes from the [j]-th
    element, called with its index. *)
Lemma forEachFrom_Success (f : A -> nat -> Eff B) xs : forall i w bs w',
  forEachFrom f i xs w = (Success bs, w') ->
  length bs = length xs /\
  forall j x, xs !! j = Some x ->
    exists b w1 w2, bs !! j = Some b /\ f x (i + j) w1 = (Success b, w2).
Proof.
  induction xs as [| x xs IH]; intros i w bs w' H; cbn in H.
  - inversion H; subst. split; [done |]. intros j y Hj. by destruct j.
  - apply bind_Success in H as (b & w1 & Hb & H).
    apply bind_Success in H as (bs' & w2 & Hbs & H).
    inversion H; subst; clear H.
    destruct (IH _ _ _ _ Hbs) as [Hlen Hall].
    split; [cbn; by rewrite Hlen |].
    intros [| j] y Hj; cbn in Hj.
    + inversion Hj; subst. exists b, w, w1. by rewrite Nat.add_0_r.
    + destruct (Hall j y Hj) as (b' & wa & wb & Hb' & Hf).
      exists b', wa, wb. split; [done |].
      by replace (i + S j) with (S i + j) by lia.
Qed.

(** When every call succeeds, the loop succeeds. *)
Lemma forEachFrom_total (f : A -> nat -> Eff B) xs :
  (forall x i w, exists b w', f x i w = (Success b, w')) ->
  forall i w, exists bs w', forEachFrom f i xs w = (Success bs, w').
Proof.
  intros Hf. induction xs as [| x xs IH]; intros i w; cbn.
  - by exists [], w.
  - destruct (Hf x i w) as (b & w1 & Hb).
    destruct (IH (S i) w1) as (bs & w2 & Hbs).
    exists (b :: bs), w2.
    rewrite (bind_step _ _ _ _ _ Hb), (bind_step _ _ _ _ _ Hbs). reflexivity.
Qed.

(** ** Concurrent [forEach] *)

Lemma schedule_lt n w k w' :
  0 < n -> schedule n w = (Success k, w') -> k < n.
Proof.
  unfold schedule. intros Hn H. inversion H; subst.
  apply Nat.mod_upper_bound. lia.
Qed.

(** The invariant of the scheduling loop: slots of fibers that are not
    pending are left alone, and every pending fiber, whenever the
    scheduler runs it, fills the slot of its own index with what the task
    returned for its own element. *)
Lemma runFibers_Success (f : A -> Eff B) fuel : forall pending slots w slots' w',
  runFibers f fuel pending slots w = (Success slots', w') ->
  length pending <= fuel ->
  NoDup pending.*1 ->
  (forall i x, (i, x) ∈ pending -> i < length slots) ->
  length slots' = length slots /\
  (forall j, j ∉ pending.*1 -> slots' !! j = slots !! j) /\
  (forall i x, (i, x) ∈ pending ->
     exists b w1 w2, slots' !! i = Some (Some b) /\ f x w1 = (Success b, w2)).
Proof.
  induction fuel as [| fuel IH]; intros pending slots w slots' w' H Hfuel Hnd Hin.
  - destruct pending; [| cbn in Hfuel; lia].
    cbn in H. inversion H; subst.
    split; [done |]. split; [done |]. intros i x Hx. by apply elem_of_nil in Hx.
  - destruct pending as [| p0 rest] eqn:Epend.
    { cbn in H. inversion H; subst.
      split; [done |]. split; [done |]. intros i x Hx. by apply elem_of_nil in Hx. }
    rewrite <- Epend in *.
    assert (Hpos : 0 < length pending) by (rewrite Epend; cbn; lia).
    assert (H' : (let* k := schedule (length pending) in
                  match pending !! k with
                  | Some (i, x) =>
                      let* b := f x in
                      runFibers f fuel (delete k pending) (<[i := Some b]> slots)
                  | None => succeed slots
                  end) w = (Success slots', w')).
    { rewrite <- H. cbn. rewrite Epend. reflexivity. }
    clear H. apply bind_Success in H' as (k & w1 & Hk & H).
    apply (schedule_lt _ _ _ _ Hpos) in Hk.
    destruct (lookup_lt_is_Some_2 pending k Hk) as [[i x] Hix].
    rewrite Hix in H.
    apply bind_Success in H as (b & w2 & Hb & H).
    pose proof (take_drop_middle _ _ _ Hix) as Hsplit.
    pose proof (delete_take_drop pending k) as Hdel.
    assert (Hnd' : NoDup (take k pending).*1 /\ NoDup (drop (S k) pending).*1 /\
                   (i ∉ (take k pending).*1) /\ (i ∉ (drop (S k) pending).*1) /\
                   (forall j, j ∈ (take k pending).*1 -> j ∉ (drop (S k) pending).*1)).
    { rewrite <- Hsplit, fmap_app, fmap_cons in Hnd. cbn in Hnd.
      apply NoDup_app in Hnd as (Hn1 & Hn2 & Hn3).
      apply NoDup_cons in Hn3 as [Hn3 Hn4].
      repeat split; try done.
      - intros Hi. apply (Hn2 i Hi). by left.
      - intros j Hj Hj'. apply (Hn2 j Hj). by right. }
    destruct Hnd' as (Hn1 & Hn2 & Hi1 & Hi2 & Hdisj).
    assert (Hislot : i < length slots).
    { apply (Hin i x). eapply list_elem_of_lookup_2, Hix. }
    apply IH in H as (Hlen & Hkeep & Hfill).
    + rewrite length_insert in Hlen.
      assert (Hnotin : i ∉ (delete k pending).*1).
      { rewrite Hdel, fmap_app. intros [?|?]%elem_of_app; by auto. }
      split; [done |]. split.
      * intros j Hj.
        assert (j <> i).
        { intros ->. apply Hj. rewrite <- Hsplit, fmap_app, fmap_cons.
          apply elem_of_app. right. by left. }
        rewrite Hkeep.
        -- by apply list_lookup_insert_ne.
        -- intros Hj'. apply Hj. rewrite <- Hsplit, fmap_app, fmap_cons.
           rewrite Hdel, fmap_app in Hj'.
           apply elem_of_app in Hj' as [?|?]; apply elem_of_app; [by left |].
           right. by right.
      * intros i' x' Hx'. rewrite <- Hsplit in Hx'.
        apply elem_of_app in Hx' as [Hx' | Hx'].
        -- apply Hfill. rewrite Hdel. apply elem_of_app. by left.
        -- apply elem_of_cons in Hx' as [Heq | Hx'].
           ++ inversion Heq; subst. exists b, w1, w2. split; [| done].
              rewrite (Hkeep i Hnotin). by apply list_lookup_insert_eq.
           ++ apply Hfill. rewrite Hdel. apply elem_of_app. by right.
    + rewrite length_delete by eauto. lia.
    + rewrite Hdel, fmap_app. apply NoDup_app. repeat split; try done.
    + intros i' x' Hx'. rewrite length_insert. apply (Hin i' x').
      rewrite <- Hsplit. rewrite Hdel in Hx'.
      apply elem_of_app in Hx' as [?|?]; apply elem_of_app; [by left |].
      right. by right.
Qed.

(** If every task succeeds, so does the loop, whatever the scheduler
    does. *)
Lemma runFibers_total (f : A -> Eff B) :
  (forall x w, exists b w', f x w = (Success b, w')) ->
  forall fuel pending slots w,
    exists slots' w', runFibers f fuel pending slots w = (Success slots', w').
Proof.
  intros Hf. induction fuel as [| fuel IH]; intros pending slots w.
  - by exists slots, w.
  - destruct pending as [| p0 rest]; [by exists slots, w |].
    cbn [runFibers]. unfold bind at 1. cbn [schedule].
    set (pending := p0 :: rest). set (w1 := advance w 0 0 1 [] []).
    destruct (pending !! _) as [[i x] |]; [| by exists slots, w1].
    destruct (Hf x w1) as (b & w2 & Hb).
    rewrite (bind_step _ _ _ _ _ Hb). apply IH.
Qed.

Lemma collect_Some (slots : list (option B)) bs :
  collect slots = Some bs ->
  length bs = length slots /\
  forall i b, slots !! i = Some (Some b) -> bs !! i = Some b.
Proof.
  revert bs. induction slots as [| [b0 |] slots IH]; intros bs H; cbn in H.
  - inversion H; subst. split; [done |]. intros i b Hi. by destruct i.
  - destruct (collect slots) as [bs' |]; [| done]. inversion H; subst.
    destruct (IH bs' eq_refl) as [Hlen Hall].
    split; [cbn; by rewrite Hlen |].
    intros [| i] b Hi; cbn in *; [by inversion Hi | by apply Hall].
  - done.
Qed.

Lemma collect_filled (slots : list (option B)) :
  (forall i, i < length slots -> exists b, slots !! i = Some (Some b)) ->
  exists bs, collect slots = Some bs.
Proof.
  induction slots as [| s slots IH]; intros H; [by exists [] |].
  destruct (H 0) as [b Hb]; [cbn; lia |]. cbn in Hb. inversion Hb; subst.
  destruct IH as [bs Hbs].
  { intros i Hi. apply (H (S i)). cbn; lia. }
  exists (b :: bs). cbn. by rewrite Hbs.
Qed.

Lemma elem_of_indexed (xs : list A) i x :
  (i, x) ∈ indexed xs <-> xs !! i = Some x.
Proof.
  unfold indexed. rewrite elem_of_lookup_zip_with. split.
  - intros (j & a & b & Heq & Ha & Hb). inversion Heq; subst.
    apply lookup_seq in Ha as [-> _]. done.
  - intros Hx. exists i, i, x. split; [done |]. split; [| done].
    apply lookup_seq. split; [done |]. by eapply lookup_lt_Some.
Qed.

Lemma indexed_fst (xs : list A) : (indexed xs).*1 = seq 0 (length xs).
Proof. unfold indexed. apply fst_zip. by rewrite length_seq. Qed.

Lemma indexed_length (xs : list A) : length (indexed xs) = length xs.
Proof. unfold indexed. rewrite length_zip, length_seq. lia. Qed.

(** The results of the concurrent [forEach] are in the order of the
    elements: the [i]-th result is what the task returned for the [i]-th
    element, in whatever world the scheduler ran it. *)
Lemma forEachUnbounded_Success (xs : list A) (f : A -> Eff B) w bs w' :
  forEachUnbounded xs f w = (Success bs, w') ->
  length bs = length xs /\
  forall i x, xs !! i = Some x ->
    exists b w1 w2, bs !! i = Some b /\ f x w1 = (Success b, w2).
Proof.
  unfold forEachUnbounded. intros H.
  apply bind_Success in H as (slots & w1 & Hrun & H).
  destruct (collect slots) as [bs' |] eqn:Hc; [| done].
  inversion H; subst; clear H.
  apply runFibers_Success in Hrun as (Hlen & _ & Hfill).
  - rewrite length_replicate in Hlen.
    apply collect_Some in Hc as [Hlen' Hget].
    split; [congruence |].
    intros i x Hx. apply elem_of_indexed in Hx.
    destruct (Hfill i x Hx) as (b & wa & wb & Hb & Hf).
    exists b, wa, wb. split; [by apply Hget | done].
  - by rewrite indexed_length.
  - rewrite indexed_fst. apply NoDup_seq.
  - intros i x Hx. apply elem_of_indexed in Hx.
    rewrite length_replicate. by eapply lookup_lt_Some.
Qed.

(** With as many scheduling rounds as there are elements every fiber has
    run: no slot is left empty. *)
Lemma forEachUnbounded_total (xs : list A) (f : A -> Eff B) :
  (forall x w, exists b w', f x w = (Success b, w')) ->
  forall w, exists bs w', forEachUnbounded xs f w = (Success bs, w').
Proof.
  intros Hf w. unfold forEachUnbounded.
  destruct (runFibers_total f Hf (length xs) (indexed xs)
              (replicate (length xs) None) w) as (slots & w1 & Hrun).
  rewrite (bind_step _ _ _ _ _ Hrun).
  pose proof Hrun as Hrun'.
  apply runFibers_Success in Hrun' as (Hlen & _ & Hfill).
  - destruct (collect_filled slots) as [bs Hbs].
    + intros i Hi. rewrite Hlen, length_replicate in Hi.
      destruct (lookup_lt_is_Some_2 xs i Hi) as [x Hx].
      apply elem_of_indexed in Hx.
      destruct (Hfill i x Hx) as (b & _ & _ & Hb & _). by exists b.
    + rewrite Hbs. by exists bs, w1.
  - by rewrite indexed_length.
  - rewrite indexed_fst. apply NoDup_seq.
  - intros i x Hx. apply elem_of_indexed in Hx.
    rewrite length_replicate. by eapply lookup_lt_Some.
Qed.

End EffLemmas.

(* ===================================================================== *)
(** * Reconciling the per-file overrides *)
(* ===================================================================== *)

(** One call of the reconciliation callback, in full: the file it builds
    and the world it leaves. It never fails. *)
Lemma attachCustomId_run metadata file idx w :
  attachCustomId metadata file idx w =
  (Success {| fc_name := nullish (theirsAt metadata idx ≫= ov_name) (fd_name file);
              fc_size := fd_size file;
              fc_type := fd_type file;
              fc_customId := theirsAt metadata idx ≫= ov_customId;
              fc_lastModified :=
                match theirsAt metadata idx ≫= ov_lastModified with
                | Some lm => lm
                | None => clock w (clockReads w)
                end |},
   advance w
     (match theirsAt metadata idx ≫= ov_lastModified with Some _ => 0 | None => 1 end)
     0 0
     (if sizeDiffers (theirsAt metadata idx) file then [sizeWarning] else [])
     []).
Proof.
  unfold attachCustomId, bind, logWarning, emit, succeed, DateNow, sizeWarning.
  destruct (sizeDiffers _ _); destruct (theirsAt metadata idx ≫= ov_lastModified);
    cbn; rewrite ?advance_advance, ?Nat.add_0_r; cbn;
    rewrite ?advance_zero; reflexivity.
Qed.

(** [metadata[UTFiles]?.[idx]] and the condition of the warning, on the
    data. *)
Lemma theirsAt_lookup metadata idx :
  theirsAt metadata idx = md_UTFiles metadata ≫= (.!! idx).
Proof. unfold theirsAt. by destruct (md_UTFiles metadata). Qed.

Lemma sizeDiffers_warning metadata idx file :
  (if sizeDiffers (theirsAt metadata idx) file then [sizeWarning] else [])
  = sizeWarningAt metadata idx file.
Proof.
  unfold sizeWarningAt. rewrite <- theirsAt_lookup.
  destruct (theirsAt metadata idx) as [theirs |]; [| done]. cbn.
  destruct (ov_size theirs) as [size |]; cbn.
  - destruct (Z.eqb_spec size (fd_size file)) as [-> | Hne]; cbn.
    + by rewrite bool_decide_eq_true_2.
    + rewrite bool_decide_eq_false_2; [done |]. intros [= ?]. done.
  - by rewrite bool_decide_eq_false_2.
Qed.

(** The whole loop over the files: it succeeds, reads the clock and logs
    the warnings of the files in order, and does nothing else; how often
    it reads the clock does not depend on the world it starts in. *)
Lemma forEachFrom_attach_run metadata files : forall i,
  exists dc,
    forall w, exists fwc,
      forEachFrom (attachCustomId metadata) i files w
      = (Success fwc,
         advance w dc 0 0
           (mjoin (imap (fun j file => sizeWarningAt metadata (i + j) file) files)) []).
Proof.
  induction files as [| file files IH]; intros i.
  - exists 0. intros w. exists [].
    cbn. unfold succeed. by rewrite advance_zero.
  - destruct (IH (S i)) as (dc & Hrun).
    eexists (_ + dc). intros w. cbn [forEachFrom].
    rewrite (bind_step _ _ _ _ _ (attachCustomId_run metadata file i w)).
    destruct (Hrun (advance w
      (match theirsAt metadata i ≫= ov_lastModified with Some _ => 0 | None => 1 end)
      0 0 (if sizeDiffers (theirsAt metadata i) file then [sizeWarning] else [])
      [])) as [fwc Hfwc].
    rewrite (bind_step _ _ _ _ _ Hfwc). unfold succeed.
    rewrite advance_advance. cbn [Nat.add app].
    rewrite sizeDiffers_warning, imap_cons, Nat.add_0_r. cbn [mjoin list_join].
    rewrite (imap_ext ((fun j file => sizeWarningAt metadata (i + j) file) ∘ S)
                      (fun j file => sizeWarningAt metadata (S i + j) file)).
    + eexists. reflexivity.
    + intros j f _. cbn. f_equal. lia.
Qed.

Lemma sizeWarnings_Forall metadata files : forall i,
  Forall (fun ev => ev = sizeWarning)
    (mjoin (imap (fun j file => sizeWarningAt metadata (i + j) file) files)).
Proof.
  induction files as [| file files IH]; intros i; [constructor |].
  rewrite imap_cons. cbn [mjoin list_join]. apply Forall_app. split.
  - unfold sizeWarningAt. destruct (_ ≫= _); [| constructor].
    case_bool_decide; repeat constructor.
  - rewrite (imap_ext ((fun j file => sizeWarningAt metadata (i + j) file) ∘ S)
                      (fun j file => sizeWarningAt metadata (S i + j) file));
      [apply IH |].
    intros j f _. cbn. f_equal. lia.
Qed.

(** What one successful call of the callback returned, read backwards. *)
Lemma attachCustomId_Success metadata file idx w r w' :
  attachCustomId metadata file idx w = (Success r, w') ->
  fc_size r = fd_size file /\
  fc_type r = fd_type file /\
  fc_name r = nullish (theirsAt metadata idx ≫= ov_name) (fd_name file) /\
  fc_customId r = theirsAt metadata idx ≫= ov_customId /\
  (forall lm, theirsAt metadata idx ≫= ov_lastModified = Some lm -> fc_lastModified r = lm).
Proof.
  rewrite attachCustomId_run. intros H. inversion H; subst; cbn.
  repeat split; try done. by intros lm ->.
Qed.


(** ** [runRouteMiddleware], when the middleware returned and the override
    array, if any, has the length of [files]. *)
Lemma runRouteMiddleware_exact middlewareArgs json uploadable metadata :
  middleware uploadable middlewareArgs (input json) (files json) = inr metadata ->
  overrideLengthDiffers metadata (files json) = false ->
  exists dc,
    forall w, exists fwc,
      runRouteMiddleware middlewareArgs json uploadable w
      = (Success (metadata, fwc),
         advance w dc 0 0
           ([EvLog LDebug "Running middleware"; EvMiddleware]
            ++ mjoin (imap (sizeWarningAt metadata) (files json))) []) /\
      forEachFrom (attachCustomId metadata) 0 (files json)
        (advance w 0 0 0 [EvLog LDebug "Running middleware"; EvMiddleware] [])
      = (Success fwc,
         advance w dc 0 0
           ([EvLog LDebug "Running middleware"; EvMiddleware]
            ++ mjoin (imap (sizeWarningAt metadata) (files json))) []).
Proof.
  intros Hmw Hlen.
  destruct (forEachFrom_attach_run metadata (files json) 0) as (dc & Hrun).
  exists dc. intros w.
  destruct (Hrun (advance w 0 0 0 [EvLog LDebug "Running middleware"; EvMiddleware] []))
    as [fwc Hfwc].
  exists fwc. rewrite advance_advance in Hfwc. cbn in Hfwc.
  split; [| by rewrite Hfwc].
  unfold runRouteMiddleware, bind, logDebug, emit, tryPromise, forEach.
  rewrite Hmw. cbn. rewrite Hlen, advance_advance. cbn.
  by rewrite Hfwc.
Qed.

Lemma runRouteMiddleware_run middlewareArgs json uploadable metadata :
  middleware uploadable middlewareArgs (input json) (files json) = inr metadata ->
  overrideLengthDiffers metadata (files json) = false ->
  exists dc evs,
    Forall (fun ev => ev = sizeWarning) evs /\
    forall w, exists fwc,
      runRouteMiddleware middlewareArgs json uploadable w
      = (Success (metadata, fwc),
         advance w dc 0 0 ([EvLog LDebug "Running middleware"; EvMiddleware] ++ evs) []) /\
      forEachFrom (attachCustomId metadata) 0 (files json)
        (advance w 0 0 0 [EvLog LDebug "Running middleware"; EvMiddleware] [])
      = (Success fwc,
         advance w dc 0 0 ([EvLog LDebug "Running middleware"; EvMiddleware] ++ evs) []).
Proof.
  intros Hmw Hlen.
  destruct (runRouteMiddleware_exact _ _ _ _ Hmw Hlen) as (dc & Hrun).
  exists dc, (mjoin (imap (sizeWarningAt metadata) (files json))).
  split; [apply (sizeWarnings_Forall metadata (files json) 0) | exact Hrun].
Qed.

Section Orchestrator.

Context {shared : Shared}.

(** What one successful call of the request-building callback returned. *)
Lemma toFileUploadRequest_Success parsedConfig file i w q w' :
  toFileUploadRequest parsedConfig file i w = (Success q, w') ->
  fr_name q = fc_name file /\ fr_size q = fc_size file /\ fr_type q = fc_type file /\
  fr_customId q = fc_customId file /\ fr_lastModified q = fc_lastModified file.
Proof.
  unfold toFileUploadRequest, succeed, die.
  destruct (getTypeFromFileName _ _); intros H; inversion H; subst. done.
Qed.

(** C6: when the middleware has returned and its override array, if any,
    has the length of [files], [runRouteMiddleware] succeeds whatever
    sizes the overrides carry. Besides its two fixed events it adds to the
    trace exactly one size-mismatch warning for every file whose override,
    at the file's index, does not carry the size the client declared, in
    file order, and nothing else: a warning is logged if and only if there
    is such a file. The [i]-th file it builds, and the [i]-th File Upload
    Request built from it, has the size and type of the [i]-th payload
    file; with an override at index [i] it has the override's name when
    there is one (else the payload's), the override's customId, and the
    override's lastModified when there is one; without an override it has
    the payload's name and no customId. *)
Theorem size_is_client_declared middlewareArgs json uploadable metadata w :
  middleware uploadable middlewareArgs (input json) (files json) = inr metadata ->
  overrideLengthDiffers metadata (files json) = false ->
  exists fwc w' evs,
    runRouteMiddleware middlewareArgs json uploadable w = (Success (metadata, fwc), w') /\
    trace w' = trace w ++ [EvLog LDebug "Running middleware"; EvMiddleware] ++ evs /\
    evs = mjoin (imap (fun i file =>
            match md_UTFiles metadata ≫= (.!! i) with
            | Some theirs =>
                if bool_decide (ov_size theirs = Some (fd_size file))
                then []
                else [EvLog LWarning "File size mismatch. Reverting to original size"]
            | None => []
            end) (files json)) /\
    (EvLog LWarning "File size mismatch. Reverting to original size" ∈ evs <->
       exists i file theirs,
         files json !! i = Some file /\
         md_UTFiles metadata ≫= (.!! i) = Some theirs /\
         ov_size theirs <> Some (fd_size file)) /\
    length fwc = length (files json) /\
    (forall i file, files json !! i = Some file ->
       exists r, fwc !! i = Some r /\
         fc_size r = fd_size file /\
         fc_type r = fd_type file /\
         match md_UTFiles metadata ≫= (.!! i) with
         | Some theirs =>
             fc_name r = default (fd_name file) (ov_name theirs) /\
             fc_customId r = ov_customId theirs /\
             (forall lm, ov_lastModified theirs = Some lm -> fc_lastModified r = lm)
         | None => fc_name r = fd_name file /\ fc_customId r = None
         end) /\
    (forall parsedConfig requests w1 w2,
       forEach fwc (toFileUploadRequest parsedConfig) w1 = (Success requests, w2) ->
       length requests = length (files json) /\
       forall i file, files json !! i = Some file ->
         exists q, requests !! i = Some q /\
           fr_size q = fd_size file /\
           fr_type q = fd_type file /\
           match md_UTFiles metadata ≫= (.!! i) with
           | Some theirs =>
               fr_name q = default (fd_name file) (ov_name theirs) /\
               fr_customId q = ov_customId theirs /\
               (forall lm, ov_lastModified theirs = Some lm -> fr_lastModified q = lm)
           | None => fr_name q = fd_name file /\ fr_customId q = None
           end).
Proof.
  intros Hmw Hlen.
  destruct (runRouteMiddleware_exact _ _ _ _ Hmw Hlen) as (dc & Hrun).
  destruct (Hrun w) as (fwc & Hrw & Hloop).
  apply forEachFrom_Success in Hloop as [Hlength Hall].
  assert (Hfiles : forall i file, files json !! i = Some file ->
    exists r, fwc !! i = Some r /\
      fc_size r = fd_size file /\ fc_type r = fd_type file /\
      match md_UTFiles metadata ≫= (.!! i) with
      | Some theirs =>
          fc_name r = default (fd_name file) (ov_name theirs) /\
          fc_customId r = ov_customId theirs /\
          (forall lm, ov_lastModified theirs = Some lm -> fc_lastModified r = lm)
      | None => fc_name r = fd_name file /\ fc_customId r = None
      end).
  { intros i file Hi. destruct (Hall i file Hi) as (r & w1 & w2 & Hr & Hcall).
    exists r. split; [done |]. cbn [Nat.add] in Hcall.
    apply attachCustomId_Success in Hcall as (Hsize & Htype & Hname & Hcid & Hlm).
    split; [done |]. split; [done |].
    rewrite theirsAt_lookup in Hname, Hcid, Hlm.
    destruct (md_UTFiles metadata ≫= (.!! i)) as [theirs |].
    - split; [exact Hname | split; [exact Hcid | exact Hlm]].
    - split; [exact Hname | exact Hcid]. }
  exists fwc; eexists; eexists. split; [exact Hrw |].
  split; [reflexivity |]. split; [reflexivity |]. split.
  { change (EvLog LWarning "File size mismatch. Reverting to original size")
      with sizeWarning.
    change (sizeWarning ∈ mjoin (imap (sizeWarningAt metadata) (files json)) <->
            exists i file theirs,
              files json !! i = Some file /\
              md_UTFiles metadata ≫= (.!! i) = Some theirs /\
              ov_size theirs <> Some (fd_size file)).
    rewrite list_elem_of_join. split.
    - intros (evs & Hin & Hevs).
      apply elem_of_lookup_imap_1 in Hevs as (i & file & -> & Hi).
      unfold sizeWarningAt in Hin.
      destruct (md_UTFiles metadata ≫= (.!! i)) as [theirs |] eqn:Htheirs;
        [| by apply elem_of_nil in Hin].
      case_bool_decide as Hsize; [by apply elem_of_nil in Hin |].
      by exists i, file, theirs.
    - intros (i & file & theirs & Hi & Htheirs & Hsize).
      exists (sizeWarningAt metadata i file). split.
      + unfold sizeWarningAt. rewrite Htheirs, bool_decide_eq_false_2 by done.
        apply list_elem_of_here.
      + by apply elem_of_lookup_imap_2 with (i := i). }
  split; [done |]. split; [done |].
  intros parsedConfig requests w1 w2 Hreq.
  apply forEachFrom_Success in Hreq as [Hlength' Hall'].
  split; [congruence |].
  intros i file Hi.
  destruct (Hfiles i file Hi) as (r & Hr & Hsize & Htype & Hrest).
  destruct (Hall' i r Hr) as (q & wa & wb & Hq & Hcall).
  apply toFileUploadRequest_Success in Hcall as (Hn & Hs & Ht & Hc & Hl).
  exists q. split; [done |]. split; [congruence |]. split; [congruence |].
  destruct (md_UTFiles metadata ≫= (.!! i)) as [theirs |].
  - destruct Hrest as (Hname & Hcid & Hlm).
    split; [congruence |]. split; [congruence |].
    intros lm Hov. rewrite Hl. by apply Hlm.
  - destruct Hrest as (Hname & Hcid). split; congruence.
Qed.


Lemma bind_Failure {A B : Type} (m : Eff A) (k : A -> Eff B) w e w1 :
  m w = (Failure e, w1) -> bind m k w = (Failure e, w1).
Proof. unfold bind. by intros ->. Qed.

(** ** The override array of the wrong length *)

Lemma overrideLengthDiffers_true metadata fs overrides :
  md_UTFiles metadata = Some overrides ->
  length overrides <> length fs ->
  overrideLengthDiffers metadata fs = true.
Proof.
  unfold overrideLengthDiffers. intros -> Hne.
  apply negb_true_iff, Nat.eqb_neq, Hne.
Qed.

Lemma runRouteMiddleware_length_mismatch middlewareArgs json uploadable metadata w :
  middleware uploadable middlewareArgs (input json) (files json) = inr metadata ->
  overrideLengthDiffers metadata (files json) = true ->
  runRouteMiddleware middlewareArgs json uploadable w =
  (Failure (ErrUploadThing
     (mkUTError BAD_REQUEST "Files override must have the same length as files"
        (Some (overrideLengthMessage metadata (files json))))),
   advance w 0 0 0
     [EvLog LDebug "Running middleware"; EvMiddleware;
      EvLog LError (overrideLengthMessage metadata (files json))] []).
Proof.
  intros Hmw Hlen.
  unfold runRouteMiddleware, bind, logDebug, logError, emit, tryPromise, failUT, fail.
  rewrite Hmw. cbn -[overrideLengthMessage]. rewrite Hlen.
  rewrite !advance_advance. reflexivity.
Qed.

(** The run of [handleUploadAction] up to the failure, event by event. *)
Lemma handleUploadAction_length_mismatch cfg middlewareArgs request uploadable
    fePackage beAdapter slug json parsedInput metadata w :
  decodeUploadActionPayload (req_text request) = inr json ->
  inputParser uploadable (input json) = inr parsedInput ->
  middleware uploadable middlewareArgs parsedInput (files json) = inr metadata ->
  overrideLengthDiffers metadata (files json) = true ->
  handleUploadAction cfg middlewareArgs request uploadable fePackage beAdapter slug w =
  (Failure (ErrUploadThing
     (mkUTError BAD_REQUEST "Files override must have the same length as files"
        (Some (overrideLengthMessage metadata (files json))))),
   advance w 0 0 0
     [EvLog LDebug "Handling upload request with input:";
      EvLog LDebug "Parsing user input"; EvInputParser;
      EvLog LDebug "Input parsed successfully";
      EvLog LDebug "Running middleware"; EvMiddleware;
      EvLog LError (overrideLengthMessage metadata (files json))] []).
Proof.
  intros Hdec Hparse Hmw Hlen.
  unfold handleUploadAction. rewrite Hdec.
  do 4 eff_step. rewrite Hparse. do 2 eff_step.
  erewrite bind_Failure.
  2: { apply runRouteMiddleware_length_mismatch; [exact Hmw | exact Hlen]. }
  rewrite !advance_advance. reflexivity.
Qed.

(** C2: when the middleware returns metadata whose [UTFiles] array has a
    length other than that of [files], [handleUploadAction] fails with
    BAD_REQUEST; up to the failure no key is generated, no URL is signed,
    no HTTP call is made, no entropy is drawn and no fiber is forked (so no
    metadata is registered). *)
Theorem override_length_mismatch_is_fatal cfg middlewareArgs request uploadable
    fePackage beAdapter slug json parsedInput metadata overrides w :
  decodeUploadActionPayload (req_text request) = inr json ->
  inputParser uploadable (input json) = inr parsedInput ->
  middleware uploadable middlewareArgs parsedInput (files json) = inr metadata ->
  md_UTFiles metadata = Some overrides ->
  length overrides <> length (files json) ->
  exists detail w' evs,
    handleUploadAction cfg middlewareArgs request uploadable fePackage beAdapter slug w
    = (Failure (ErrUploadThing
         (mkUTError BAD_REQUEST "Files override must have the same length as files"
            (Some detail))), w') /\
    trace w' = trace w ++ evs /\
    Forall (fun ev => outbound ev = false) evs /\
    daemons w' = daemons w /\
    entropyReads w' = entropyReads w.
Proof.
  intros Hdec Hparse Hmw Hov Hne.
  pose proof (overrideLengthDiffers_true _ _ _ Hov Hne) as Hlen.
  eexists _, _, _. split.
  - apply (handleUploadAction_length_mismatch _ _ _ _ _ _ _ _ _ _ _ Hdec Hparse Hmw Hlen).
  - cbn -[overrideLengthMessage]. split; [reflexivity |].
    split; [repeat constructor |]. split; [apply app_nil_r | lia].
Qed.

(** ** A successful upload action, read backwards *)

Lemma succeed_Success {A : Type} (a b : A) w w' :
  succeed a w = (Success b, w') -> a = b /\ w = w'.
Proof. unfold succeed. intros H. by inversion H. Qed.

Lemma runRouteMiddleware_Success middlewareArgs json uploadable metadata fwc w w' :
  runRouteMiddleware middlewareArgs json uploadable w = (Success (metadata, fwc), w') ->
  middleware uploadable middlewareArgs (input json) (files json) = inr metadata /\
  overrideLengthDiffers metadata (files json) = false /\
  exists w1, forEachFrom (attachCustomId metadata) 0 (files json) w1 = (Success fwc, w').
Proof.
  unfold runRouteMiddleware. intros H.
  apply bind_Success in H as (? & w1 & _ & H).
  apply bind_Success in H as (? & w2 & _ & H).
  apply bind_Success in H as (md & w3 & Hmw & H).
  destruct (middleware uploadable middlewareArgs (input json) (files json))
    as [t | md'] eqn:E; cbn in Hmw; [done |].
  apply succeed_Success in Hmw as [-> ->].
  destruct (overrideLengthDiffers md (files json)) eqn:Hlen.
  - apply bind_Success in H as (? & w4 & _ & H). done.
  - apply bind_Success in H as (fwc' & w4 & Hloop & H).
    apply succeed_Success in H as [Heq ->]. inversion Heq; subst.
    split; [done |]. split; [done |]. by exists w3.
Qed.

Lemma presignFile_Success cfg uploadable tok slug file w p w' :
  presignFile cfg uploadable tok slug file w = (Success p, w') ->
  exists r baseUrl,
    IngestUrl cfg = inr baseUrl /\
    generateKey file (getFileHashParts (routeOptions uploadable)) r = inr (uk_key p) /\
    generateSignedURL (baseUrl +:+ "/" +:+ uk_key p) (apiKey tok)
      (presignedURLTTL (routeOptions uploadable))
      (signedData (appId tok) slug file) = inr (uk_url p).
Proof.
  unfold presignFile. intros H.
  apply bind_Success in H as (r & w1 & _ & H).
  apply bind_Success in H as (key & w2 & Hkey & H).
  apply bind_Success in H as (? & w3 & _ & H).
  apply bind_Success in H as (baseUrl & w4 & Hbase & H).
  apply bind_Success in H as (url & w5 & Hurl & H).
  apply bind_Success in H as (? & w6 & _ & H).
  apply succeed_Success in H as [<- _]. cbn.
  destruct (generateKey file _ r) as [e | key'] eqn:Ekey; cbn in Hkey; [done |].
  apply succeed_Success in Hkey as [-> _].
  destruct (IngestUrl cfg) as [msg | base'] eqn:E; cbn in Hbase; [done |].
  apply succeed_Success in Hbase as [-> _].
  destruct (generateSignedURL _ _ _ _) as [e | url'] eqn:Eurl; cbn in Hurl; [done |].
  apply succeed_Success in Hurl as [-> _].
  by exists r, baseUrl.
Qed.

Lemma toPresigneds_Some fileUploadRequests presignedUrls : forall i presigneds,
  toPresigneds presignedUrls i fileUploadRequests = Some presigneds ->
  length presigneds = length presignedUrls /\
  forall j p, presignedUrls !! j = Some p ->
    exists q, fileUploadRequests !! (i + j) = Some q /\
      presigneds !! j = Some {| pe_url := uk_url p; pe_key := uk_key p;
                                pe_name := fr_name q; pe_customId := fr_customId q |}.
Proof.
  induction presignedUrls as [| p0 ps IH]; intros i presigneds H; cbn in H.
  - inversion H; subst. split; [done |]. intros j p Hj. by destruct j.
  - destruct (fileUploadRequests !! i) as [q0 |] eqn:Hq0; [| done].
    destruct (toPresigneds ps (S i) fileUploadRequests) as [entries |] eqn:Hrest;
      [| done].
    inversion H; subst; clear H.
    destruct (IH _ _ Hrest) as [Hlen Hall].
    split; [cbn; by rewrite Hlen |].
    intros [| j] p Hj; cbn in Hj.
    + inversion Hj; subst. exists q0. by rewrite Nat.add_0_r.
    + destruct (Hall j p Hj) as (q & Hq & He).
      exists q. split; [| done]. by replace (i + S j) with (S i + j) by lia.
Qed.

(** C1: when [handleUploadAction] succeeds, its body has one entry per
    file of the payload, and the [i]-th entry belongs to the [i]-th file:
    its name and customId are the reconciled ones of that file, its key is
    what [generateKey] returned for that file's upload request and its url
    is what [generateSignedURL] returned for that key and that request; the reconciled values are those
    of the metadata the middleware returned. This holds for every world, so
    for every order in which the scheduler runs the per-file fibers. The
    keys registered with the ingest service are in the same order. *)
Theorem presigned_entries_in_input_order cfg middlewareArgs request uploadable
    fePackage beAdapter slug w presigneds fiber w' :
  handleUploadAction cfg middlewareArgs request uploadable fePackage beAdapter slug w
  = (Success (presigneds, fiber), w') ->
  exists json parsedInput metadata tok baseUrl,
    decodeUploadActionPayload (req_text request) = inr json /\
    inputParser uploadable (input json) = inr parsedInput /\
    middleware uploadable middlewareArgs parsedInput (files json) = inr metadata /\
    UTToken cfg = inr tok /\
    IngestUrl cfg = inr baseUrl /\
    length presigneds = length (files json) /\
    (forall i file, files json !! i = Some file ->
       exists entry q r,
         presigneds !! i = Some entry /\
         pe_name entry = nullish (theirsAt metadata i ≫= ov_name) (fd_name file) /\
         pe_customId entry = theirsAt metadata i ≫= ov_customId /\
         fr_name q = pe_name entry /\
         fr_size q = fd_size file /\
         fr_type q = fd_type file /\
         fr_customId q = pe_customId entry /\
         generateKey q (getFileHashParts (routeOptions uploadable)) r
           = inr (pe_key entry) /\
         generateSignedURL (baseUrl +:+ "/" +:+ pe_key entry) (apiKey tok)
           (presignedURLTTL (routeOptions uploadable))
           (signedData (appId tok) slug q) = inr (pe_url entry)) /\
    (exists registration,
       fiber = RegisterMetadata registration /\
       mr_metadata registration = metadata /\
       mr_fileKeys registration = map pe_key presigneds).
Proof.
  unfold handleUploadAction. intros H.
  apply bind_Success in H as (json & w1 & Hjson & H).
  destruct (decodeUploadActionPayload (req_text request)) as [msg | json'] eqn:Hdec;
    [done |].
  apply succeed_Success in Hjson as [-> ->].
  apply bind_Success in H as (? & w2 & _ & H).
  apply bind_Success in H as (? & w3 & _ & H).
  apply bind_Success in H as (? & w4 & _ & H).
  apply bind_Success in H as (parsedInput & w5 & Hparse & H).
  destruct (inputParser uploadable (input json)) as [thrown | parsed] eqn:Eparse;
    [done |].
  apply succeed_Success in Hparse as [-> ->].
  apply bind_Success in H as (? & w6 & _ & H).
  apply bind_Success in H as ([metadata fwc] & w7 & Hmw & H).
  apply runRouteMiddleware_Success in Hmw as (Hmw & _ & wa & Hattach).
  cbn in Hmw, Hattach.
  apply forEachFrom_Success in Hattach as [Hlen1 Hall1].
  apply bind_Success in H as (? & w8 & _ & H).
  apply bind_Success in H as (parsedConfig & w9 & _ & H).
  apply bind_Success in H as (? & w10 & _ & H).
  apply bind_Success in H as (? & w11 & _ & H).
  apply bind_Success in H as (? & w12 & _ & H).
  apply bind_Success in H as (requests & w13 & Hreq & H).
  apply forEachFrom_Success in Hreq as [Hlen2 Hall2].
  apply bind_Success in H as (tok & w14 & Htok & H).
  destruct (UTToken cfg) as [msg | tok'] eqn:Etok; [done |].
  apply succeed_Success in Htok as [-> ->].
  apply bind_Success in H as (urls & w15 & Hurls & H).
  apply forEachUnbounded_Success in Hurls as [Hlen3 Hall3].
  apply bind_Success in H as (isDev & w16 & _ & H).
  apply bind_Success in H as (baseUrl & w17 & Hbase & H).
  destruct (IngestUrl cfg) as [msg | baseUrl'] eqn:Ebase; [done |].
  apply succeed_Success in Hbase as [-> ->].
  apply bind_Success in H as (fiber' & w18 & Hfork & H).
  destruct (toPresigneds urls 0 requests) as [entries |] eqn:Hentries; [| done].
  apply bind_Success in H as (? & w19 & _ & H).
  apply succeed_Success in H as [Heq _]. inversion Heq; subst entries fiber'; clear Heq.
  apply toPresigneds_Some in Hentries as [Hlen4 Hall4].
  exists json, parsedInput, metadata, tok, baseUrl.
  split; [done |]. split; [done |]. split; [done |]. split; [done |]. split; [done |].
  split; [congruence |]. split.
  - intros i file Hi.
    destruct (Hall1 i file Hi) as (c & ? & ? & Hc & Hattach).
    apply attachCustomId_Success in Hattach as (Hsize & Htype & Hname & Hcid & _).
    destruct (Hall2 i c Hc) as (q & ? & ? & Hq & Hbuild).
    apply toFileUploadRequest_Success in Hbuild as (Hn & Hs & Ht & Hcu & _).
    destruct (Hall3 i q Hq) as (p & ? & ? & Hp & Hsign).
    apply presignFile_Success in Hsign as (r & baseUrl' & Eb & Hkey & Hurl).
    assert (baseUrl' = baseUrl) as -> by congruence.
    destruct (Hall4 i p Hp) as (q' & Hq' & Hentry). cbn in Hq'.
    assert (q' = q) as -> by congruence.
    eexists _, q, r. split; [exact Hentry |]. cbn in Hname, Hcid |- *.
    repeat split; congruence.
  - unfold forkDaemon in Hfork. inversion Hfork; subst.
    eexists. split; [reflexivity |]. cbn. split; [done |].
    clear -Hall4 Hlen4. apply list_eq. intros j.
    rewrite !list_lookup_fmap.
    destruct (urls !! j) as [p |] eqn:Hp.
    + destruct (Hall4 j p Hp) as (q & _ & ->). done.
    + apply lookup_ge_None in Hp. rewrite <- Hlen4 in Hp.
      apply lookup_ge_None in Hp. by rewrite Hp.
Qed.

(** ** A valid upload action succeeds, whatever the scheduler does *)

Lemma toPresigneds_total fileUploadRequests presignedUrls : forall i,
  i + length presignedUrls <= length fileUploadRequests ->
  exists presigneds, toPresigneds presignedUrls i fileUploadRequests = Some presigneds.
Proof.
  induction presignedUrls as [| p ps IH]; intros i Hlen; cbn in *; [by eexists |].
  destruct (lookup_lt_is_Some_2 fileUploadRequests i) as [q Hq]; [lia |].
  destruct (IH (S i)) as [entries He]; [lia |].
  rewrite Hq, He. by eexists.
Qed.

Lemma presignFile_total cfg uploadable tok slug baseUrl :
  IngestUrl cfg = inr baseUrl ->
  (forall file r, exists key,
     generateKey file (getFileHashParts (routeOptions uploadable)) r = inr key) ->
  (forall url data, exists signed,
     generateSignedURL url (apiKey tok) (presignedURLTTL (routeOptions uploadable)) data
     = inr signed) ->
  forall file w, exists p w', presignFile cfg uploadable tok slug file w = (Success p, w').
Proof.
  intros Hbase Hkey Hurl file w. unfold presignFile. rewrite Hbase.
  eff_step.
  destruct (Hkey file (entropy w (entropyReads w))) as [key ->].
  do 3 eff_step.
  destruct (Hurl (baseUrl +:+ "/" +:+ key) (signedData (appId tok) slug file))
    as [signed ->].
  do 2 eff_step. by eexists _, _.
Qed.

Lemma handleUploadAction_total cfg middlewareArgs request uploadable
    fePackage beAdapter slug json parsedInput metadata parsedConfig tok baseUrl isDev :
  decodeUploadActionPayload (req_text request) = inr json ->
  inputParser uploadable (input json) = inr parsedInput ->
  middleware uploadable middlewareArgs parsedInput (files json) = inr metadata ->
  overrideLengthDiffers metadata (files json) = false ->
  fillInputRouteConfig (routerConfig uploadable) = inr parsedConfig ->
  assertFilesMeetConfig (files json) parsedConfig = None ->
  (forall name, exists t, getTypeFromFileName name (objectKeys parsedConfig) = inr t) ->
  UTToken cfg = inr tok ->
  IngestUrl cfg = inr baseUrl ->
  IsDevelopment cfg = inr isDev ->
  (forall file r, exists key,
     generateKey file (getFileHashParts (routeOptions uploadable)) r = inr key) ->
  (forall url data, exists signed,
     generateSignedURL url (apiKey tok) (presignedURLTTL (routeOptions uploadable)) data
     = inr signed) ->
  forall w, exists presigneds fiber w',
    handleUploadAction cfg middlewareArgs request uploadable fePackage beAdapter slug w
    = (Success (presigneds, fiber), w').
Proof.
  intros Hdec Hparse Hmw Hlen Hfill Hassert Htype Htok Hbase Hdev Hkey Hurl w.
  unfold handleUploadAction. rewrite Hdec.
  do 4 eff_step. rewrite Hparse. do 2 eff_step.
  destruct (runRouteMiddleware_run middlewareArgs
              {| input := parsedInput; files := files json |} uploadable metadata
              Hmw Hlen) as (dc & evs & _ & Hrun).
  match goal with |- context [bind _ _ ?w0] =>
    destruct (Hrun w0) as (fwc & Hrw & _) end.
  rewrite (bind_step _ _ _ _ _ Hrw). cbv beta iota.
  eff_step. rewrite Hfill. do 3 eff_step. rewrite Hassert. eff_step.
  match goal with |- context [bind _ _ ?w0] =>
    destruct (forEachFrom_total (toFileUploadRequest parsedConfig) fwc) with (i := 0) (w := w0)
      as (requests & w1 & Hreq) end.
  { intros c i w0. unfold toFileUploadRequest.
    destruct (Htype (fc_name c)) as [t ->]. by eexists _, _. }
  unfold forEach. rewrite (bind_step _ _ _ _ _ Hreq). cbv beta.
  rewrite Htok. eff_step.
  destruct (forEachUnbounded_total requests (presignFile cfg uploadable tok slug)
              (presignFile_total cfg uploadable tok slug baseUrl Hbase Hkey Hurl) w1)
    as (urls & w2 & Hurls).
  rewrite (bind_step _ _ _ _ _ Hurls). cbv beta.
  rewrite Hdev, Hbase. do 3 eff_step.
  apply forEachUnbounded_Success in Hurls as [Hlen' _].
  destruct (toPresigneds_total requests urls 0) as [entries ->]; [cbn; lia |].
  eff_step. by eexists _, _, _.
Qed.

End Orchestrator.

(* ===================================================================== *)
(** * Strings *)
(* ===================================================================== *)

Lemma startsWith_app s rest : startsWith (s +:+ rest) s = true.
Proof.
  induction s as [| c s IH]; [done |].
  change (String c s +:+ rest) with (String c (s +:+ rest)).
  cbn [startsWith]. by rewrite Ascii.eqb_refl.
Qed.

Lemma includes_startsWith s sub : startsWith s sub = true -> includes s sub = true.
Proof. intros H. destruct s; cbn [includes]; by rewrite H. Qed.

Lemma includes_app_r pre s sub : includes s sub = true -> includes (pre +:+ s) sub = true.
Proof.
  intros H. induction pre as [| c pre IH]; [done |].
  change (String c pre +:+ s) with (String c (pre +:+ s)).
  cbn [includes]. rewrite IH. apply orb_true_r.
Qed.

Lemma includes_app_l s rest : includes (s +:+ rest) s = true.
Proof. apply includes_startsWith, startsWith_app. Qed.

Lemma includes_self s : includes s s = true.
Proof.
  apply includes_startsWith. induction s as [| c s IH]; cbn -[Ascii.eqb]; [done |].
  by rewrite Ascii.eqb_refl.
Qed.

(* ===================================================================== *)
(** * The request classifier and the callback reconciler *)
(* ===================================================================== *)

Section Classifier.

Context {shared : Shared}.

(** Both versions are in the text built for the log and the cause. *)
Lemma versionMismatchMessage_includes clientVersion :
  includes (versionMismatchMessage clientVersion) UPLOADTHING_VERSION = true /\
  includes (versionMismatchMessage clientVersion) clientVersion = true.
Proof.
  unfold versionMismatchMessage. split.
  - apply includes_app_r, includes_app_l.
  - do 3 apply includes_app_r. apply includes_self.
Qed.

Lemma schemaHeaders_Success request w h w' :
  schemaHeaders request w = (Success h, w') ->
  w' = w /\
  optionalLiteral decodeUploadThingHook (hdr_uploadthing_hook request)
    = Some (uploadthingHook h) /\
  clientVersion h = nullish (hdr_x_uploadthing_version request) UPLOADTHING_VERSION.
Proof.
  unfold schemaHeaders.
  destruct (optionalLiteral _ _) as [hook |]; [| done].
  intros [<- ->]%succeed_Success. done.
Qed.

Lemma schemaHeaders_run request hook w :
  optionalLiteral decodeUploadThingHook (hdr_uploadthing_hook request) = Some hook ->
  schemaHeaders request w =
  (Success {| uploadthingHook := hook;
              fePackage := nullish (hdr_x_uploadthing_package request) "unknown";
              clientVersion := nullish (hdr_x_uploadthing_version request)
                                       UPLOADTHING_VERSION |}, w).
Proof. unfold schemaHeaders. by intros ->. Qed.

Lemma schemaHeaders_Failure request w :
  optionalLiteral decodeUploadThingHook (hdr_uploadthing_hook request) = None ->
  schemaHeaders request w
  = (Failure (ErrParse "uploadthing-hook: expected a literal"), w).
Proof. unfold schemaHeaders. by intros ->. Qed.

(** The run of the POST route when the version check fails. *)
Lemma POSTbody_version_mismatch opts beAdapter middlewareArgs request v hook w :
  hdr_x_uploadthing_version request = Some v ->
  v <> UPLOADTHING_VERSION ->
  optionalLiteral decodeUploadThingHook (hdr_uploadthing_hook request) = Some hook ->
  POSTbody opts beAdapter middlewareArgs request w =
  (Failure (ErrUploadThing
     (mkUTError BAD_REQUEST "Client version mismatch" (Some (versionMismatchMessage v)))),
   advance w 0 0 0 [EvLog LError (versionMismatchMessage v)] []).
Proof.
  intros Hv Hne Hhook. unfold POSTbody.
  rewrite (bind_step _ _ _ _ _ (schemaHeaders_run request hook w Hhook)).
  cbn [clientVersion]. rewrite Hv. cbn [nullish].
  apply String.eqb_neq in Hne. rewrite Hne. cbn [negb].
  reflexivity.
Qed.

(** C3, as the code has it: a POST request whose [x-uploadthing-version]
    header is present and differs from the server version is never
    processed and is answered with a BAD_REQUEST error. When the
    [uploadthing-hook] header is absent or a known literal, the error has
    the message "Client version mismatch" and its cause (not its message)
    is the text naming the server version and the client version; when
    that header is not a known literal, header decoding has failed before
    the version check and the error is "Invalid input". In both cases
    nothing but the error log line is added to the trace. *)
Theorem version_mismatch_is_rejected opts beAdapter middlewareArgs request v w :
  hdr_x_uploadthing_version request = Some v ->
  v <> UPLOADTHING_VERSION ->
  (exists hook,
     optionalLiteral decodeUploadThingHook (hdr_uploadthing_hook request) = Some hook /\
     POSTbody opts beAdapter middlewareArgs request w =
     (Failure (ErrUploadThing
        (mkUTError BAD_REQUEST "Client version mismatch"
           (Some (versionMismatchMessage v)))),
      advance w 0 0 0 [EvLog LError (versionMismatchMessage v)] []) /\
     includes (versionMismatchMessage v) UPLOADTHING_VERSION = true /\
     includes (versionMismatchMessage v) v = true /\
     POST opts beAdapter middlewareArgs request w =
     (Success (errorResponse opts
        (mkUTError BAD_REQUEST "Client version mismatch"
           (Some (versionMismatchMessage v)))),
      advance w 0 0 0 [EvLog LError (versionMismatchMessage v)] []))
  \/
  (optionalLiteral decodeUploadThingHook (hdr_uploadthing_hook request) = None /\
   exists detail,
     POST opts beAdapter middlewareArgs request w =
     (Success (jsonResponse
        (BodyJson (formatError (mkUTError BAD_REQUEST "Invalid input" (Some detail))
                               (router opts))) 400), w)).
Proof.
  intros Hv Hne.
  destruct (optionalLiteral decodeUploadThingHook (hdr_uploadthing_hook request))
    as [hook |] eqn:Hhook.
  - left. exists hook. split; [done |].
    pose proof (POSTbody_version_mismatch opts beAdapter middlewareArgs request
                  v hook w Hv Hne Hhook) as Hrun.
    split; [exact Hrun |].
    destruct (versionMismatchMessage_includes v) as [Hs Hc].
    split; [done |]. split; [done |].
    unfold POST, catchSome. rewrite Hrun. reflexivity.
  - right. split; [done |]. eexists.
    unfold POST, catchSome, POSTbody.
    rewrite (bind_Failure _ _ _ _ _ (schemaHeaders_Failure request w Hhook)).
    reflexivity.
Qed.

(** A hook header that is present and not the literal does not decode. *)
Lemma unknown_hook_does_not_decode request raw :
  hdr_uploadthing_hook request = Some raw ->
  raw <> "callback" ->
  optionalLiteral decodeUploadThingHook (hdr_uploadthing_hook request) = None.
Proof.
  intros -> Hne. unfold optionalLiteral, decodeUploadThingHook.
  apply String.eqb_neq in Hne. by rewrite Hne.
Qed.

(** C9, as the code has it: a POST request without the
    [x-uploadthing-version] header gets the server version as its client
    version. When its hook header is absent or the literal, the version
    check passes and the route goes on to process the request (parameters,
    route lookup, dispatch); when the hook header is anything else, header
    decoding has failed before the version is looked at, the request is
    not processed and the answer is 400 "Invalid input". The version check
    itself fails exactly when the header is present and differs from the
    server version. *)
Theorem missing_version_header_passes opts beAdapter middlewareArgs request w :
  hdr_x_uploadthing_version request = None ->
  (forall hook,
     (hdr_uploadthing_hook request = None /\ hook = None) \/
     (hdr_uploadthing_hook request = Some "callback" /\ hook = Some HookCallback) ->
     POSTbody opts beAdapter middlewareArgs request w
     = processRequest opts beAdapter middlewareArgs request
         {| uploadthingHook := hook;
            fePackage := nullish (hdr_x_uploadthing_package request) "unknown";
            clientVersion := UPLOADTHING_VERSION |} w) /\
  (forall raw,
     hdr_uploadthing_hook request = Some raw ->
     raw <> "callback" ->
     exists detail,
       POSTbody opts beAdapter middlewareArgs request w = (Failure (ErrParse detail), w) /\
       POST opts beAdapter middlewareArgs request w =
       (Success (jsonResponse
          (BodyJson (formatError (mkUTError BAD_REQUEST "Invalid input" (Some detail))
                                 (router opts))) 400), w)) /\
  (forall request' h w1 w2,
     schemaHeaders request' w1 = (Success h, w2) ->
     (negb (String.eqb (clientVersion h) UPLOADTHING_VERSION) = true <->
        exists v, hdr_x_uploadthing_version request' = Some v /\ v <> UPLOADTHING_VERSION)).
Proof.
  intros Hnone. split; [| split].
  - intros hook Hhook.
    assert (Hdec : optionalLiteral decodeUploadThingHook (hdr_uploadthing_hook request)
                   = Some hook).
    { destruct Hhook as [[-> ->] | [-> ->]]; reflexivity. }
    unfold POSTbody.
    rewrite (bind_step _ _ _ _ _ (schemaHeaders_run request hook w Hdec)).
    cbn [clientVersion]. rewrite Hnone. cbn [nullish].
    by rewrite String.eqb_refl.
  - intros raw Hraw Hne.
    pose proof (unknown_hook_does_not_decode request raw Hraw Hne) as Hdec.
    eexists. unfold POST, catchSome, POSTbody.
    rewrite (bind_Failure _ _ _ _ _ (schemaHeaders_Failure request w Hdec)).
    split; reflexivity.
  - intros request' h w1 w2 Hh.
    apply schemaHeaders_Success in Hh as (_ & _ & Hcv).
    rewrite Hcv, negb_true_iff, String.eqb_neq.
    destruct (hdr_x_uploadthing_version request') as [v |]; cbn.
    + split; [intros Hne; by exists v |]. by intros (v' & [= ->] & Hne).
    + split; [done |]. by intros (v' & [=] & _).
Qed.

(** ** Dispatch *)

Lemma processRequest_dispatch opts beAdapter middlewareArgs request h action s
    uploadable w :
  optionalLiteral decodeActionType (param_actionType request) = Some action ->
  param_slug request = Some s ->
  getProp (router opts) s = Some uploadable ->
  processRequest opts beAdapter middlewareArgs request h w =
  (let* '(body, fiber) :=
     dispatch (config opts) middlewareArgs request uploadable
              (fePackage h) beAdapter s action (uploadthingHook h) in
   let* _ := handleDaemonFiber (config opts) fiber in
   succeed (jsonResponse body 200)) w.
Proof.
  intros Haction Hslug Hroute. unfold processRequest, schemaParams.
  rewrite Haction, Hslug. eff_step. cbn [slug actionType]. by rewrite Hroute.
Qed.

Lemma POSTbody_dispatch opts beAdapter middlewareArgs request hook action s
    uploadable w :
  optionalLiteral decodeUploadThingHook (hdr_uploadthing_hook request) = Some hook ->
  nullish (hdr_x_uploadthing_version request) UPLOADTHING_VERSION = UPLOADTHING_VERSION ->
  optionalLiteral decodeActionType (param_actionType request) = Some action ->
  param_slug request = Some s ->
  getProp (router opts) s = Some uploadable ->
  POSTbody opts beAdapter middlewareArgs request w =
  (let* '(body, fiber) :=
     dispatch (config opts) middlewareArgs request uploadable
              (nullish (hdr_x_uploadthing_package request) "unknown") beAdapter s
              action hook in
   let* _ := handleDaemonFiber (config opts) fiber in
   succeed (jsonResponse body 200)) w.
Proof.
  intros Hhook Hversion Haction Hslug Hroute. unfold POSTbody.
  rewrite (bind_step _ _ _ _ _ (schemaHeaders_run request hook w Hhook)).
  cbn [clientVersion]. rewrite Hversion, String.eqb_refl. cbn [negb].
  by rewrite (processRequest_dispatch _ _ _ _ _ _ _ _ _ Haction Hslug Hroute).
Qed.

(** A query parameter [actionType] that is not the literal fails decoding:
    the answer is 400 "Invalid input". *)
Lemma unknown_actionType_is_rejected opts beAdapter middlewareArgs request hook w :
  optionalLiteral decodeUploadThingHook (hdr_uploadthing_hook request) = Some hook ->
  nullish (hdr_x_uploadthing_version request) UPLOADTHING_VERSION = UPLOADTHING_VERSION ->
  optionalLiteral decodeActionType (param_actionType request) = None ->
  POST opts beAdapter middlewareArgs request w =
  (Success (jsonResponse
     (BodyJson (formatError
        (mkUTError BAD_REQUEST "Invalid input" (Some "actionType: expected a literal"))
        (router opts))) 400), w).
Proof.
  intros Hhook Hversion Haction. unfold POST, catchSome, POSTbody.
  rewrite (bind_step _ _ _ _ _ (schemaHeaders_run request hook w Hhook)).
  cbn [clientVersion]. rewrite Hversion, String.eqb_refl. cbn [negb].
  unfold processRequest, schemaParams. rewrite Haction. reflexivity.
Qed.

Lemma unknown_actionType_does_not_decode request raw :
  param_actionType request = Some raw ->
  raw <> "upload" ->
  optionalLiteral decodeActionType (param_actionType request) = None.
Proof.
  intros -> Hne. unfold optionalLiteral, decodeActionType.
  apply String.eqb_neq in Hne. by rewrite Hne.
Qed.

(** C4, as the code has it, for a POST request that passes the version
    check. When it names a registered slug and carries both
    [actionType=upload] and the hook header [callback], or neither of
    them, it runs neither handler: the world is left as it was (nothing
    logged, no user code called, no fiber forked) and the answer is 200
    with the body [null]. When its hook header or its [actionType] is
    present and not the literal, decoding fails, the world is left as it
    was and the answer is 400 "Invalid input". *)
Theorem other_combinations_answer_null opts beAdapter middlewareArgs request w :
  nullish (hdr_x_uploadthing_version request) UPLOADTHING_VERSION = UPLOADTHING_VERSION ->
  (forall s uploadable,
     (param_actionType request = None /\ hdr_uploadthing_hook request = None) \/
     (param_actionType request = Some "upload" /\
      hdr_uploadthing_hook request = Some "callback") ->
     param_slug request = Some s ->
     getProp (router opts) s = Some uploadable ->
     POST opts beAdapter middlewareArgs request w
     = (Success (jsonResponse BodyNull 200), w)) /\
  ((exists raw, hdr_uploadthing_hook request = Some raw /\ raw <> "callback") \/
   (exists raw, param_actionType request = Some raw /\ raw <> "upload") ->
   exists detail,
     POST opts beAdapter middlewareArgs request w =
     (Success (jsonResponse
        (BodyJson (formatError (mkUTError BAD_REQUEST "Invalid input" (Some detail))
                               (router opts))) 400), w)).
Proof.
  intros Hversion. split.
  - intros s uploadable Hcombo Hslug Hroute. unfold POST, catchSome.
    destruct Hcombo as [[Ha Hh] | [Ha Hh]].
    + rewrite (POSTbody_dispatch opts beAdapter middlewareArgs request None None s
                 uploadable w);
        [reflexivity | by rewrite Hh | done | by rewrite Ha | done | done].
    + rewrite (POSTbody_dispatch opts beAdapter middlewareArgs request
                 (Some HookCallback) (Some ActionUpload) s uploadable w);
        [reflexivity | by rewrite Hh | done | by rewrite Ha | done | done].
  - intros Hraw.
    destruct (optionalLiteral decodeUploadThingHook (hdr_uploadthing_hook request))
      as [hook |] eqn:Hhook.
    + destruct Hraw as [(raw & Hh & Hne) | (raw & Ha & Hne)].
      * by rewrite (unknown_hook_does_not_decode request raw Hh Hne) in Hhook.
      * eexists.
        apply (unknown_actionType_is_rejected opts beAdapter middlewareArgs request
                 hook w Hhook Hversion
                 (unknown_actionType_does_not_decode request raw Ha Hne)).
    + eexists. unfold POST, catchSome, POSTbody.
      rewrite (bind_Failure _ _ _ _ _ (schemaHeaders_Failure request w Hhook)).
      reflexivity.
Qed.

(** ** The callback with an invalid signature *)

Lemma handleCallbackRequest_invalid_signature cfg request uploadable fePackage
    beAdapter tok w :
  UTToken cfg = inr tok ->
  verifySignature (req_text request) (hdr_x_uploadthing_signature request) (apiKey tok)
    = false ->
  handleCallbackRequest cfg request uploadable fePackage beAdapter w =
  (Failure (ErrUploadThing (mkUTError BAD_REQUEST "Invalid signature" None)),
   advance w 0 0 0 [EvLog LDebug "Signature verified:"; EvLog LError "Invalid signature"] []).
Proof.
  intros Htok Hsig. unfold handleCallbackRequest. rewrite Htok.
  do 2 eff_step. rewrite Hsig. cbn [negb]. eff_step.
  unfold failUT, fail. by rewrite !advance_advance.
Qed.

(** C5: a callback request whose signature does not verify fails with the
    BAD_REQUEST error "Invalid signature"; the handler adds two log lines
    to the trace, none of them a resolver call, and forks no fiber, so the
    resolver is never run for it. Through the POST route, whatever the
    daemon policy, the answer is the error response for that error. *)
Theorem invalid_signature_is_rejected cfg request uploadable fePackage beAdapter tok w :
  UTToken cfg = inr tok ->
  verifySignature (req_text request) (hdr_x_uploadthing_signature request) (apiKey tok)
    = false ->
  (exists w' evs,
     handleCallbackRequest cfg request uploadable fePackage beAdapter w
     = (Failure (ErrUploadThing (mkUTError BAD_REQUEST "Invalid signature" None)), w') /\
     trace w' = trace w ++ evs /\
     Forall (fun ev => forall key, ev <> EvResolver key) evs /\
     daemons w' = daemons w) /\
  (forall registry middlewareArgs s,
     hdr_uploadthing_hook request = Some "callback" ->
     param_actionType request = None ->
     nullish (hdr_x_uploadthing_version request) UPLOADTHING_VERSION
       = UPLOADTHING_VERSION ->
     param_slug request = Some s ->
     getProp registry s = Some uploadable ->
     exists w',
       POST {| router := registry; config := cfg |} beAdapter middlewareArgs request w
       = (Success (errorResponse {| router := registry; config := cfg |}
                     (mkUTError BAD_REQUEST "Invalid signature" None)), w') /\
       daemons w' = daemons w /\
       forall key, EvResolver key ∉ trace w' <-> EvResolver key ∉ trace w).
Proof.
  intros Htok Hsig.
  pose proof (fun fe => handleCallbackRequest_invalid_signature cfg request uploadable
                          fe beAdapter tok w Htok Hsig) as Hrun.
  split.
  - eexists _, _. split; [apply Hrun |]. cbn. split; [reflexivity |].
    split; [by repeat constructor | apply app_nil_r].
  - intros registry middlewareArgs s Hhook Haction Hversion Hslug Hroute.
    eexists. split.
    + unfold POST, catchSome.
      rewrite (POSTbody_dispatch {| router := registry; config := cfg |} beAdapter
                 middlewareArgs request (Some HookCallback) None s uploadable w);
        [| by rewrite Hhook | done | by rewrite Haction | done | done].
      cbn [dispatch config].
      erewrite bind_Failure.
      2: { apply bind_Failure, Hrun. }
      reflexivity.
    + cbn. split; [apply app_nil_r |]. intros key.
      split; intros Hnot Hin; apply Hnot.
      * apply elem_of_app. by left.
      * apply elem_of_app in Hin as [Hin | Hin]; [done |].
        apply elem_of_cons in Hin as [Hin | Hin]; [discriminate |].
        apply elem_of_cons in Hin as [Hin | Hin]; [discriminate |].
        by apply elem_of_nil in Hin.
Qed.

(** ** Building the handler *)

Lemma createRequestHandler_Success opts beAdapter w rt w' :
  createRequestHandler opts beAdapter w = (Success rt, w') ->
  w' = w /\
  exists rc,
    extractRouterConfig (router opts) = inr rc /\
    route_get rt = appendResponseHeaders (GET rc) /\
    route_post rt = (fun middlewareArgs request =>
      appendResponseHeaders (POST opts beAdapter middlewareArgs request)).
Proof.
  unfold createRequestHandler. intros H.
  apply bind_Success in H as (isDev & w1 & Hdev & H).
  destruct (IsDevelopment (config opts)) as [msg | dev]; [done |].
  apply succeed_Success in Hdev as [-> ->].
  apply bind_Success in H as (rc & w2 & Hrc & H).
  destruct (extractRouterConfig (router opts)) as [msg | rc']; [done |].
  apply succeed_Success in Hrc as [-> ->].
  destruct (isDev && _); [done |].
  apply succeed_Success in H as [<- ->].
  split; [done |]. by exists rc.
Qed.

(** C7, as the code has it: with development mode on and the daemon
    policy "await", [createRequestHandler] fails from every world and
    leaves it untouched: no router is built, so no request is served. The
    route configs are extracted before the policy is looked at: when that
    extraction succeeds, the failure is the INVALID_SERVER_CONFIG error;
    when it fails, building has already failed with its
    [InvalidRouteConfig] error. *)
Theorem dev_await_is_invalid_config opts beAdapter w :
  IsDevelopment (config opts) = inr true ->
  handleDaemonPromise (config opts) = Some DaemonAwait ->
  createRequestHandler opts beAdapter w =
  (Failure
     match extractRouterConfig (router opts) with
     | inr _ => ErrUploadThing (mkUTError INVALID_SERVER_CONFIG awaitForbidden None)
     | inl msg => ErrInvalidRouteConfig msg
     end, w).
Proof.
  intros Hdev Hawait. unfold createRequestHandler. rewrite Hdev, Hawait. eff_step.
  destruct (extractRouterConfig (router opts)) as [msg | rc]; [reflexivity |].
  eff_step. reflexivity.
Qed.

(** ** The introspection route *)

Lemma serve_GET rt resp :
  (forall w, route_get rt w = (Success resp, w)) ->
  forall reqs w i,
    reqs !! i = Some IncomingGET ->
    (serve rt reqs w).1 !! i = Some (Success resp).
Proof.
  intros Hget. induction reqs as [| r reqs IH]; intros w i Hi; [done |].
  cbn [serve].
  destruct (serveOne rt r w) as [out w1] eqn:Hone.
  destruct (serve rt reqs w1) as [outs w2] eqn:Hrest.
  destruct i as [| i]; cbn in Hi |- *.
  - inversion Hi; subst. cbn in Hone. rewrite Hget in Hone. by inversion Hone.
  - specialize (IH w1 i Hi). by rewrite Hrest in IH.
Qed.

Lemma permissionsOf_inr registry slugs : forall permissions,
  permissionsOf registry slugs = inr permissions ->
  map fst permissions = slugs /\
  forall slug config, (slug, config) ∈ permissions ->
    exists route, getProp registry slug = Some route /\
                  fillInputRouteConfig (routerConfig route) = inr config.
Proof.
  induction slugs as [| slug slugs IH]; intros permissions H; cbn in H.
  - inversion H; subst. split; [done |]. intros ? ? Hin. by apply elem_of_nil in Hin.
  - destruct (getProp registry slug) as [route |] eqn:Hroute; [| done].
    destruct (fillInputRouteConfig (routerConfig route)) as [err | config] eqn:Hfill;
      [done |].
    destruct (permissionsOf registry slugs) as [err | rest]; [done |].
    inversion H; subst; clear H.
    destruct (IH rest eq_refl) as [Hslugs Hall].
    split; [cbn; by rewrite Hslugs |].
    intros slug' config' Hin. apply elem_of_cons in Hin as [Heq | Hin].
    + inversion Heq; subst. by exists route.
    + by apply Hall.
Qed.

(** C8: the router that [createRequestHandler] built answers every GET
    with one and the same response, from every world and without changing
    it, so also at every position of every sequence of requests served
    (POST requests in between change nothing about it); the body is the
    list of [{ slug, config }] extracted from the registry when the router
    was built. The permissions handler of the adapters is a function of
    the registry alone: every call returns the same value, and when that
    is a list, it lists the slugs in the order of the registry, each with
    the normalized config of its route. *)
Theorem introspection_is_idempotent opts beAdapter w0 rt w0' :
  createRequestHandler opts beAdapter w0 = (Success rt, w0') ->
  (exists rc resp,
     extractRouterConfig (router opts) = inr rc /\
     status resp = 200%Z /\
     body resp = BodyRouterConfig rc /\
     (forall w, route_get rt w = (Success resp, w)) /\
     (forall reqs w i, reqs !! i = Some IncomingGET ->
        (serve rt reqs w).1 !! i = Some (Success resp))) /\
  (forall calls : list unit,
     map (buildPermissionsInfoHandler opts) calls
     = replicate (length calls) (buildPermissionsInfoHandler opts tt)) /\
  (forall permissions,
     buildPermissionsInfoHandler opts tt = inr permissions ->
     map fst permissions = objectKeys (router opts) /\
     forall slug config, (slug, config) ∈ permissions ->
       exists route, getProp (router opts) slug = Some route /\
                     fillInputRouteConfig (routerConfig route) = inr config).
Proof.
  intros H. apply createRequestHandler_Success in H as (_ & rc & Hrc & Hget & _).
  split; [| split].
  - exists rc, (setHeader "x-uploadthing-version" UPLOADTHING_VERSION
                  (jsonResponse (BodyRouterConfig rc) 200)).
    assert (Hall : forall w, route_get rt w =
      (Success (setHeader "x-uploadthing-version" UPLOADTHING_VERSION
                  (jsonResponse (BodyRouterConfig rc) 200)), w)).
    { intros w. by rewrite Hget. }
    repeat split; try done. by apply serve_GET.
  - induction calls as [| [] calls IH]; [done |]. cbn. by rewrite IH.
  - intros permissions Hp. by apply permissionsOf_inr in Hp.
Qed.

End Classifier.

(** ** The earlier dispatcher: the hook header wins over [actionType], and
    a request with neither dies as unreachable. *)
Section EarlierDispatcher.

Context {shared : Shared}.

Lemma handleRequest_hook_first cfg ri w :
  isString (ri_hook ri) "callback" = true ->
  handleRequest cfg ri w =
  (let* '(body, fiber) :=
     handleCallbackRequest cfg (ri_req ri) (ri_uploadable ri)
                           (ri_fePackage ri) (ri_adapter ri) in
   succeed (true, body, fiber)) w.
Proof. unfold handleRequest. by intros ->. Qed.

Lemma handleRequest_unreachable cfg ri w :
  isString (ri_hook ri) "callback" = false ->
  isString (ri_action ri) "upload" = false ->
  handleRequest cfg ri w = (Die "Unreachable", w).
Proof. unfold handleRequest. by intros -> ->. Qed.

End EarlierDispatcher.

(* ===================================================================== *)
(** * The handler at work *)
(* ===================================================================== *)

(** The orchestrator on three files, the scheduler running the fibers
    last to first: the entries come back first to last. *)
Example upload_three_last_first :
  exists presigneds fiber w',
    handleUploadAction (shared := Fixture.shared) Fixture.production JNull
      (Fixture.upload "avatar" "three" None) Fixture.avatar
      "@uploadthing/react" "express" "avatar" (Fixture.world Fixture.lastFirst 1000)
    = (Success (presigneds, fiber), w') /\
    pe_name <$> presigneds = ["a.png"; "renamed.png"; "c.png"] /\
    pe_key <$> presigneds = ["a.png#102"; "renamed.png#101"; "c.png#100"] /\
    filter (fun ev => outbound ev = true) (trace w')
    = [ EvKeyGenerated "c.png#100";
        EvUrlSigned "https://ingest.example/c.png#100?signature=sk_live";
        EvKeyGenerated "renamed.png#101";
        EvUrlSigned "https://ingest.example/renamed.png#101?signature=sk_live";
        EvKeyGenerated "a.png#102";
        EvUrlSigned "https://ingest.example/a.png#102?signature=sk_live" ].
Proof. eexists _, _, _. split; [vm_compute; reflexivity |]. by vm_compute. Qed.

(** C3, as worded, fails: the server is at 7.0.0, the client sends 6.9.0;
    the error is BAD_REQUEST, and its message names neither version. *)
Lemma version_mismatch_message_lacks_versions :
  let request := Fixture.upload "avatar" "one" (Some "6.9.0") in
  hdr_x_uploadthing_version request = Some "6.9.0" /\
  "6.9.0" <> UPLOADTHING_VERSION (Shared := Fixture.shared) /\
  exists e w',
    POSTbody (shared := Fixture.shared) Fixture.opts "express" JNull request
             (Fixture.world Fixture.firstFirst 1000)
    = (Failure (ErrUploadThing e), w') /\
    code e = BAD_REQUEST /\
    includes (message e) (UPLOADTHING_VERSION (Shared := Fixture.shared)) = false /\
    includes (message e) "6.9.0" = false.
Proof.
  cbv zeta. split; [reflexivity |]. split; [discriminate |].
  eexists _, _. split; [vm_compute; reflexivity |].
  split; [reflexivity |]. split; vm_compute; reflexivity.
Qed.

(** C7, as worded, fails: development mode and the policy "await", with a
    route whose config does not normalize. Building fails, and the failure
    is the [InvalidRouteConfig] of the extraction, not an
    [UploadThingError] with the code INVALID_SERVER_CONFIG. *)
Lemma dev_await_with_invalid_route_config :
  IsDevelopment (config Fixture.optsBrokenDevAwait) = inr true /\
  handleDaemonPromise (config Fixture.optsBrokenDevAwait) = Some DaemonAwait /\
  createRequestHandler (shared := Fixture.shared) Fixture.optsBrokenDevAwait "express"
    Fixture.start
  = (Failure (ErrInvalidRouteConfig "InvalidRouteConfig"), Fixture.start) /\
  forall msg cs w',
    createRequestHandler (shared := Fixture.shared) Fixture.optsBrokenDevAwait "express"
      Fixture.start
    <> (Failure (ErrUploadThing (mkUTError INVALID_SERVER_CONFIG msg cs)), w').
Proof.
  split; [reflexivity |]. split; [reflexivity |].
  assert (Hrun :
    createRequestHandler (shared := Fixture.shared) Fixture.optsBrokenDevAwait "express"
      Fixture.start
    = (Failure (ErrInvalidRouteConfig "InvalidRouteConfig"), Fixture.start))
    by reflexivity.
  split; [exact Hrun |]. intros msg cs w'. rewrite Hrun. discriminate.
Qed.

(** C9, as worded, fails: a request without the version header whose hook
    header is no known literal is not processed. Header decoding fails,
    whatever headers processing would have been given, and the answer is
    400 "Invalid input". *)
Lemma unversioned_request_with_unknown_hook :
  hdr_x_uploadthing_version Fixture.pinged = None /\
  POSTbody (shared := Fixture.shared) Fixture.opts "express" JNull Fixture.pinged
    Fixture.start
  = (Failure (ErrParse "uploadthing-hook: expected a literal"), Fixture.start) /\
  POST (shared := Fixture.shared) Fixture.opts "express" JNull Fixture.pinged
    Fixture.start
  = (Success {| status := 400; headers := [];
                body := BodyJson (JObj [("message", JStr "Invalid input")]) |},
     Fixture.start) /\
  forall h,
    POSTbody (shared := Fixture.shared) Fixture.opts "express" JNull Fixture.pinged
      Fixture.start
    <> processRequest (shared := Fixture.shared) Fixture.opts "express" JNull
         Fixture.pinged h Fixture.start.
Proof.
  split; [reflexivity |].
  assert (Hrun :
    POSTbody (shared := Fixture.shared) Fixture.opts "express" JNull Fixture.pinged
      Fixture.start
    = (Failure (ErrParse "uploadthing-hook: expected a literal"), Fixture.start))
    by reflexivity.
  split; [exact Hrun |]. split; [reflexivity |].
  intros [[[] |] fe cv]; rewrite Hrun.
  - cbn. discriminate.
  - destruct (processRequest (shared := Fixture.shared) Fixture.opts "express" JNull
                Fixture.pinged
                {| uploadthingHook := None; fePackage := fe; clientVersion := cv |}
                Fixture.start) as [[r | e | d] w'] eqn:Hproc;
      [discriminate | exfalso; vm_compute in Hproc; discriminate | discriminate].
Qed.

(** C4, as worded, fails: a request with neither [actionType] nor the
    hook header, for a registered slug, is answered 200 with [null]. *)
Lemma bare_request_is_answered_200 :
  param_actionType Fixture.bare = None /\
  hdr_uploadthing_hook Fixture.bare = None /\
  POST (shared := Fixture.shared) Fixture.opts "express" JNull Fixture.bare
       (Fixture.world Fixture.firstFirst 1000)
  = (Success {| status := 200; headers := []; body := BodyNull |},
     Fixture.world Fixture.firstFirst 1000).
Proof. split; [reflexivity |]. split; [reflexivity |]. vm_compute. reflexivity. Qed.

(** ** The theorems at the concrete instance *)

Lemma presigned_entries_in_input_order_witness :
  exists presigneds fiber w',
    handleUploadAction (shared := Fixture.shared) Fixture.production JNull
      (Fixture.upload "avatar" "three" None) Fixture.avatar
      "@uploadthing/react" "express" "avatar" (Fixture.world Fixture.lastFirst 1000)
    = (Success (presigneds, fiber), w') /\
    length presigneds = 3 /\
    exists entry, presigneds !! 1 = Some entry /\ pe_name entry = "renamed.png" /\
                  pe_customId entry = Some "custom-b".
Proof.
  destruct (handleUploadAction (shared := Fixture.shared) Fixture.production JNull
              (Fixture.upload "avatar" "three" None) Fixture.avatar
              "@uploadthing/react" "express" "avatar"
              (Fixture.world Fixture.lastFirst 1000))
    as [[[presigneds fiber] | e | d] w'] eqn:Hrun;
    [| exfalso; vm_compute in Hrun; discriminate
     | exfalso; vm_compute in Hrun; discriminate].
  exists presigneds, fiber, w'. split; [reflexivity |].
  destruct (presigned_entries_in_input_order (shared := Fixture.shared) _ _ _ _ _ _ _ _
              _ _ _ Hrun)
    as (json & parsedInput & metadata & tok & baseUrl & Hdec & Hparse & Hmw & _ & _
        & Hlen & Hall & _).
  vm_compute in Hdec. inversion Hdec; subst json; clear Hdec.
  vm_compute in Hparse. inversion Hparse; subst parsedInput; clear Hparse.
  vm_compute in Hmw. inversion Hmw; subst metadata; clear Hmw.
  split; [exact Hlen |].
  destruct (Hall 1 Fixture.b_png eq_refl) as (entry & q & r & Hentry & Hname & Hcid & _).
  exists entry. split; [exact Hentry |]. split; [exact Hname | exact Hcid].
Defined.

Lemma override_length_mismatch_is_fatal_witness :
  exists detail w' evs,
    handleUploadAction (shared := Fixture.shared) Fixture.production JNull
      (Fixture.upload "strict" "three" None) Fixture.strict
      "@uploadthing/react" "express" "strict" (Fixture.world Fixture.firstFirst 1000)
    = (Failure (ErrUploadThing
         (mkUTError BAD_REQUEST "Files override must have the same length as files"
            (Some detail))), w') /\
    trace w' = trace (Fixture.world Fixture.firstFirst 1000) ++ evs /\
    Forall (fun ev => outbound ev = false) evs /\
    daemons w' = daemons (Fixture.world Fixture.firstFirst 1000) /\
    entropyReads w' = entropyReads (Fixture.world Fixture.firstFirst 1000).
Proof.
  apply (override_length_mismatch_is_fatal (shared := Fixture.shared)
           Fixture.production JNull (Fixture.upload "strict" "three" None) Fixture.strict
           "@uploadthing/react" "express" "strict" Fixture.three JNull
           {| md_fields := [];
              md_UTFiles := Some [ mkOverride None None None None;
                                   mkOverride None None None None ] |}
           [ mkOverride None None None None; mkOverride None None None None ]);
    [reflexivity | reflexivity | reflexivity | reflexivity | cbn; lia].
Defined.

Lemma version_mismatch_is_rejected_witness :
  exists w',
    POST (shared := Fixture.shared) Fixture.opts "express" JNull
         (Fixture.upload "avatar" "one" (Some "6.9.0"))
         (Fixture.world Fixture.firstFirst 1000)
    = (Success {| status := 400; headers := [];
                  body := BodyJson (JObj [("message", JStr "Client version mismatch")]) |},
       w') /\
    trace w' = [EvLog LError "Server version: 7.0.0, Client version: 6.9.0"].
Proof.
  assert (Hne : "6.9.0" <> UPLOADTHING_VERSION (Shared := Fixture.shared))
    by discriminate.
  destruct (version_mismatch_is_rejected (shared := Fixture.shared) Fixture.opts
              "express" JNull (Fixture.upload "avatar" "one" (Some "6.9.0")) "6.9.0"
              (Fixture.world Fixture.firstFirst 1000) eq_refl Hne)
    as [(hook & _ & _ & _ & _ & Hpost) | [Hnone _]].
  - eexists. split; [exact Hpost | reflexivity].
  - exfalso. vm_compute in Hnone. discriminate.
Defined.

Lemma other_combinations_answer_null_witness :
  POST (shared := Fixture.shared) Fixture.opts "express" JNull Fixture.both
       (Fixture.world Fixture.firstFirst 1000)
  = (Success (jsonResponse BodyNull 200), Fixture.world Fixture.firstFirst 1000).
Proof.
  destruct (other_combinations_answer_null (shared := Fixture.shared) Fixture.opts
              "express" JNull Fixture.both (Fixture.world Fixture.firstFirst 1000)
              eq_refl) as [Hnull _].
  apply (Hnull "avatar" Fixture.avatar);
    [right; split; reflexivity | reflexivity | reflexivity].
Defined.

Lemma invalid_signature_is_rejected_witness :
  exists w' evs,
    handleCallbackRequest (shared := Fixture.shared) Fixture.production
      (Fixture.callback (Some "forged")) Fixture.avatar "unknown" "express"
      (Fixture.world Fixture.firstFirst 1000)
    = (Failure (ErrUploadThing (mkUTError BAD_REQUEST "Invalid signature" None)), w') /\
    trace w' = trace (Fixture.world Fixture.firstFirst 1000) ++ evs /\
    Forall (fun ev => forall key, ev <> EvResolver key) evs /\
    daemons w' = daemons (Fixture.world Fixture.firstFirst 1000).
Proof.
  apply (invalid_signature_is_rejected (shared := Fixture.shared) Fixture.production
           (Fixture.callback (Some "forged")) Fixture.avatar "unknown" "express"
           Fixture.token (Fixture.world Fixture.firstFirst 1000));
    [reflexivity | vm_compute; reflexivity].
Defined.

Lemma size_is_client_declared_witness :
  exists metadata fwc w' r,
    runRouteMiddleware JNull Fixture.three Fixture.avatar
      (Fixture.world Fixture.firstFirst 1000)
    = (Success (metadata, fwc), w') /\
    trace w' = [EvLog LDebug "Running middleware"; EvMiddleware;
                EvLog LWarning "File size mismatch. Reverting to original size"] /\
    fwc !! 1 = Some r /\
    fc_size r = 2000000%Z /\ fc_name r = "renamed.png" /\
    fc_customId r = Some "custom-b" /\ fc_lastModified r = 42%Z.
Proof.
  destruct (size_is_client_declared (shared := Fixture.shared) JNull Fixture.three
              Fixture.avatar _ (Fixture.world Fixture.firstFirst 1000) eq_refl eq_refl)
    as (fwc & w' & evs & Hrun & Htrace & Hevs & _ & _ & Hall & _).
  destruct (Hall 1 Fixture.b_png eq_refl) as (r & Hr & Hsize & _ & Hname & Hcid & Hlm).
  eexists _, fwc, w', r. split; [exact Hrun |].
  split; [rewrite Htrace, Hevs; reflexivity |].
  split; [exact Hr |]. split; [exact Hsize |]. split; [exact Hname |].
  split; [exact Hcid |]. apply Hlm. reflexivity.
Defined.

Lemma dev_await_is_invalid_config_witness :
  createRequestHandler (shared := Fixture.shared) Fixture.optsDevAwait "express"
    (Fixture.world Fixture.firstFirst 1000)
  = (Failure (ErrUploadThing (mkUTError INVALID_SERVER_CONFIG awaitForbidden None)),
     Fixture.world Fixture.firstFirst 1000).
Proof.
  apply (dev_await_is_invalid_config (shared := Fixture.shared) Fixture.optsDevAwait
           "express" (Fixture.world Fixture.firstFirst 1000) eq_refl eq_refl).
Defined.

Lemma introspection_is_idempotent_witness :
  exists rt resp,
    createRequestHandler (shared := Fixture.shared) Fixture.opts "express"
      (Fixture.world Fixture.firstFirst 1000)
    = (Success rt, Fixture.world Fixture.firstFirst 1000) /\
    body resp = BodyRouterConfig [ ("avatar", [("image", Fixture.imageBucket)]);
                                   ("strict", [("image", Fixture.imageBucket)]) ] /\
    forall reqs w i, reqs !! i = Some IncomingGET ->
      (serve rt reqs w).1 !! i = Some (Success resp).
Proof.
  assert (Hbuilt : exists rt,
    createRequestHandler (shared := Fixture.shared) Fixture.opts "express"
      (Fixture.world Fixture.firstFirst 1000)
    = (Success rt, Fixture.world Fixture.firstFirst 1000)).
  { eexists. reflexivity. }
  destruct Hbuilt as [rt Hrt].
  destruct (introspection_is_idempotent (shared := Fixture.shared) Fixture.opts "express"
              _ rt _ Hrt) as [(rc & resp & Hrc & _ & Hbody & _ & Hserve) _].
  exists rt, resp. split; [exact Hrt |]. split; [| exact Hserve].
  cbn in Hrc. inversion Hrc; subst rc. exact Hbody.
Defined.

Lemma missing_version_header_passes_witness :
  POSTbody (shared := Fixture.shared) Fixture.opts "express" JNull
    (Fixture.upload "avatar" "one" None) (Fixture.world Fixture.firstFirst 1000)
  = processRequest (shared := Fixture.shared) Fixture.opts "express" JNull
      (Fixture.upload "avatar" "one" None)
      {| uploadthingHook := None; fePackage := "@uploadthing/react";
         clientVersion := "7.0.0" |}
      (Fixture.world Fixture.firstFirst 1000).
Proof.
  destruct (missing_version_header_passes (shared := Fixture.shared) Fixture.opts
              "express" JNull (Fixture.upload "avatar" "one" None)
              (Fixture.world Fixture.firstFirst 1000) eq_refl) as [Hpass _].
  apply (Hpass None). left. split; reflexivity.
Defined.


(* ===================================================================== *)
(** * What the handlers leave behind, for every outcome *)
(* ===================================================================== *)

Lemma count_advance kind w dc de ds evs fs :
  count kind (advance w dc de ds evs fs)
  = count kind w + length (filter (fun ev => kind ev = true) evs).
Proof. unfold count. cbn. by rewrite filter_app, length_app. Qed.

Lemma filter_none (kind : Event -> bool) evs :
  Forall (fun ev => kind ev = false) evs ->
  filter (fun ev => kind ev = true) evs = [].
Proof.
  induction 1 as [| ev evs Hev _ IH]; [done |].
  rewrite filter_cons_False; [done | congruence].
Qed.

Section KeepsLemmas.

Context (R : World -> World -> Prop).
Hypothesis R_refl : forall w, R w w.
Hypothesis R_trans : forall a b c, R a b -> R b c -> R a c.

Lemma Keeps_succeed {A : Type} (a : A) : Keeps R (succeed a).
Proof using R_refl. intros w r w' H. inversion H; subst. apply R_refl. Qed.

Lemma Keeps_fail {A : Type} e : Keeps R (@fail A e).
Proof using R_refl. intros w r w' H. inversion H; subst. apply R_refl. Qed.

Lemma Keeps_die {A : Type} d : Keeps R (@die A d).
Proof using R_refl. intros w r w' H. inversion H; subst. apply R_refl. Qed.

Lemma Keeps_bind {A B : Type} (m : Eff A) (k : A -> Eff B) :
  Keeps R m -> (forall a, Keeps R (k a)) -> Keeps R (bind m k).
Proof using R_trans.
  intros Hm Hk w r w'. unfold bind.
  destruct (m w) as [[a | e | d] w1] eqn:E; intros H.
  - eapply R_trans; [eapply Hm, E | eapply Hk, H].
  - inversion H; subst. eapply Hm, E.
  - inversion H; subst. eapply Hm, E.
Qed.

Lemma Keeps_tryPromise {A : Type} (r : Thrown + A) catch : Keeps R (tryPromise r catch).
Proof using R_refl. destruct r; [apply Keeps_fail | apply Keeps_succeed]. Qed.

Lemma Keeps_fromConfig {A : Type} (c : string + A) : Keeps R (fromConfig c).
Proof using R_refl. destruct c; [apply Keeps_fail | apply Keeps_succeed]. Qed.

Lemma Keeps_fromEither {A : Type} (r : Err + A) : Keeps R (fromEither r).
Proof using R_refl. destruct r; [apply Keeps_fail | apply Keeps_succeed]. Qed.

Lemma Keeps_forEachFrom {A B : Type} (f : A -> nat -> Eff B) :
  (forall x i, Keeps R (f x i)) -> forall xs i, Keeps R (forEachFrom f i xs).
Proof using R_refl R_trans.
  intros Hf. induction xs as [| x xs IH]; intros i; cbn [forEachFrom].
  - apply Keeps_succeed.
  - apply Keeps_bind; [apply Hf |]. intros b.
    apply Keeps_bind; [apply IH |]. intros bs. apply Keeps_succeed.
Qed.

Lemma Keeps_runFibers {A B : Type} (f : A -> Eff B) :
  (forall n, Keeps R (schedule n)) -> (forall x, Keeps R (f x)) ->
  forall fuel pending slots, Keeps R (runFibers f fuel pending slots).
Proof using R_refl R_trans.
  intros Hs Hf. induction fuel as [| fuel IH]; intros pending slots; cbn [runFibers].
  - apply Keeps_succeed.
  - destruct pending as [| p rest]; [apply Keeps_succeed |].
    apply Keeps_bind; [apply Hs |]. intros k.
    destruct (_ !! k) as [[i x] |]; [| apply Keeps_succeed].
    apply Keeps_bind; [apply Hf |]. intros b. apply IH.
Qed.

Lemma Keeps_forEachUnbounded {A B : Type} (xs : list A) (f : A -> Eff B) :
  (forall n, Keeps R (schedule n)) -> (forall x, Keeps R (f x)) ->
  Keeps R (forEachUnbounded xs f).
Proof using R_refl R_trans.
  intros Hs Hf. unfold forEachUnbounded.
  apply Keeps_bind; [by apply Keeps_runFibers |]. intros slots.
  destruct (collect slots); [apply Keeps_succeed | apply Keeps_die].
Qed.

End KeepsLemmas.

(** ** Calm effects *)

Lemma calm_refl w : calm w w.
Proof. exists 0, []. split; [by rewrite advance_zero | constructor]. Qed.

Lemma calm_trans a b c : calm a b -> calm b c -> calm a c.
Proof.
  intros (dc1 & evs1 & -> & H1) (dc2 & evs2 & -> & H2).
  exists (dc1 + dc2), (evs1 ++ evs2). rewrite advance_advance. cbn.
  split; [done |]. by apply Forall_app.
Qed.

Lemma calm_sameDaemons w w' : calm w w' -> sameDaemons w w'.
Proof. intros (dc & evs & -> & _). unfold sameDaemons. cbn. apply app_nil_r. Qed.

Lemma Keeps_weaken (R R' : World -> World -> Prop) {A : Type} (m : Eff A) :
  (forall w w', R w w' -> R' w w') -> Keeps R m -> Keeps R' m.
Proof. intros HR Hm w r w' H. eapply HR, Hm, H. Qed.

Lemma calm_emit ev : outbound ev = false -> Keeps calm (emit ev).
Proof.
  intros Hev w r w' H. inversion H; subst.
  exists 0, [ev]. split; [done | by constructor].
Qed.

Lemma calm_DateNow : Keeps calm DateNow.
Proof. intros w r w' H. inversion H; subst. exists 1, []. by split. Qed.

(** Proves [Keeps calm m] for an effect built from the calm primitives. *)
Ltac calm_tac :=
  repeat first
    [ apply (Keeps_bind calm calm_trans)
    | apply (Keeps_succeed calm calm_refl)
    | apply (Keeps_fail calm calm_refl)
    | apply (Keeps_die calm calm_refl)
    | apply (Keeps_tryPromise calm calm_refl)
    | apply (Keeps_fromConfig calm calm_refl)
    | apply calm_DateNow
    | apply calm_emit; reflexivity
    | apply (Keeps_forEachFrom calm calm_refl calm_trans)
    | progress intros
    | match goal with
      | |- Keeps _ (match ?x with _ => _ end) => destruct x
      end ].

Lemma calm_attachCustomId metadata file idx : Keeps calm (attachCustomId metadata file idx).
Proof. unfold attachCustomId, logWarning. calm_tac. Qed.

Lemma calm_runRouteMiddleware middlewareArgs json uploadable :
  Keeps calm (runRouteMiddleware middlewareArgs json uploadable).
Proof.
  unfold runRouteMiddleware, failUT, forEach, logDebug, logError. calm_tac.
Qed.

(** ** Effects that fork nothing *)

Lemma sameDaemons_refl w : sameDaemons w w.
Proof. reflexivity. Qed.

Lemma sameDaemons_trans a b c : sameDaemons a b -> sameDaemons b c -> sameDaemons a c.
Proof. unfold sameDaemons. congruence. Qed.

Lemma sameDaemons_advance w dc de ds evs : sameDaemons w (advance w dc de ds evs []).
Proof. unfold sameDaemons. cbn. apply app_nil_r. Qed.

Lemma sameDaemons_schedule n : Keeps sameDaemons (schedule n).
Proof. intros w r w' H. inversion H; subst. apply sameDaemons_advance. Qed.

Section Outcomes.

Context {shared : Shared}.

Lemma sameDaemons_emit ev : Keeps sameDaemons (emit ev).
Proof. intros w r w' H. inversion H; subst. apply sameDaemons_advance. Qed.

Lemma sameDaemons_random : Keeps sameDaemons random.
Proof. intros w r w' H. inversion H; subst. apply sameDaemons_advance. Qed.

Lemma sameDaemons_presignFile cfg uploadable tok slug file :
  Keeps sameDaemons (presignFile cfg uploadable tok slug file).
Proof.
  unfold presignFile.
  repeat first
    [ apply (Keeps_bind sameDaemons sameDaemons_trans)
    | apply (Keeps_succeed sameDaemons sameDaemons_refl)
    | apply (Keeps_fromConfig sameDaemons sameDaemons_refl)
    | apply (Keeps_fromEither sameDaemons sameDaemons_refl)
    | apply sameDaemons_random
    | apply sameDaemons_emit
    | progress intros ].
Qed.

(** X2: an upload action either passes every validation stage (the body
    decodes, the input parser accepts the input, the middleware returns,
    its override array has the length of the files, the route config
    normalizes and the files meet it), or it fails, and has until then
    only logged, called user hooks and read the clock: no key was
    generated, no URL signed, no HTTP call made, no entropy drawn and no
    fiber forked. *)
Theorem upload_errors_precede_generation cfg middlewareArgs request uploadable
    fePackage beAdapter slug w r w' :
  handleUploadAction cfg middlewareArgs request uploadable fePackage beAdapter slug w
  = (r, w') ->
  (exists json parsedInput metadata parsedConfig,
     decodeUploadActionPayload (req_text request) = inr json /\
     inputParser uploadable (input json) = inr parsedInput /\
     middleware uploadable middlewareArgs parsedInput (files json) = inr metadata /\
     (forall overrides,
        md_UTFiles metadata = Some overrides -> length overrides = length (files json)) /\
     fillInputRouteConfig (routerConfig uploadable) = inr parsedConfig /\
     assertFilesMeetConfig (files json) parsedConfig = None)
  \/
  ((exists e, r = Failure e) /\
   exists dc evs,
     w' = advance w dc 0 0 evs [] /\ Forall (fun ev => outbound ev = false) evs).
Proof.
  intros H.
  assert (Hcalm : forall evs, Forall (fun ev => outbound ev = false) evs ->
    forall dc, exists dc' evs',
      advance w dc 0 0 evs [] = advance w dc' 0 0 evs' [] /\
      Forall (fun ev => outbound ev = false) evs').
  { intros evs Hevs dc. by exists dc, evs. }
  assert (Hwarn : forall evs, Forall (fun ev => ev = sizeWarning) evs ->
    Forall (fun ev => outbound ev = false) evs).
  { intros evs Hevs. eapply Forall_impl; [exact Hevs |]. by intros ? ->. }
  unfold handleUploadAction in H.
  destruct (decodeUploadActionPayload (req_text request)) as [err | json] eqn:Hdec.
  { right. erewrite bind_Failure in H by reflexivity. inversion H; subst.
    split; [by eexists | apply calm_refl]. }
  do 4 (erewrite bind_step in H by reflexivity; cbv beta in H).
  destruct (inputParser uploadable (input json)) as [thrown | parsedInput] eqn:Hparse.
  { right. erewrite bind_Failure in H by reflexivity. inversion H; subst.
    split; [by eexists |]. rewrite !advance_advance. apply Hcalm. repeat constructor. }
  do 2 (erewrite bind_step in H by reflexivity; cbv beta in H).
  destruct (middleware uploadable middlewareArgs parsedInput (files json))
    as [thrown | metadata] eqn:Hmw.
  { right. erewrite bind_Failure in H.
    2: { unfold runRouteMiddleware. cbn [input files]. do 2 eff_step.
         rewrite Hmw. apply bind_Failure. reflexivity. }
    inversion H; subst. split; [by eexists |].
    rewrite !advance_advance. apply Hcalm. repeat constructor. }
  destruct (overrideLengthDiffers metadata (files json)) eqn:Hlen.
  { right. erewrite bind_Failure in H.
    2: { apply (runRouteMiddleware_length_mismatch middlewareArgs
                  {| input := parsedInput; files := files json |} uploadable metadata);
           [exact Hmw | exact Hlen]. }
    inversion H; subst. split; [by eexists |].
    rewrite !advance_advance. apply Hcalm. repeat constructor. }
  destruct (runRouteMiddleware_run middlewareArgs
              {| input := parsedInput; files := files json |} uploadable metadata
              Hmw Hlen) as (dc & evs & Hevs & Hrun).
  match type of H with context [bind _ _ ?w0] =>
    destruct (Hrun w0) as (fwc & Hrw & _) end.
  rewrite (bind_step _ _ _ _ _ Hrw) in H. cbv beta iota in H.
  erewrite bind_step in H by reflexivity; cbv beta in H.
  destruct (fillInputRouteConfig (routerConfig uploadable)) as [err | parsedConfig] eqn:Hfill.
  { right. erewrite bind_Failure in H by reflexivity. inversion H; subst.
    split; [by eexists |]. rewrite !advance_advance. apply Hcalm.
    repeat first [ apply Forall_nil_2 | apply Forall_cons_2; [reflexivity |]
                 | apply Forall_app; split | by apply Hwarn ]. }
  do 3 (erewrite bind_step in H by reflexivity; cbv beta in H).
  destruct (assertFilesMeetConfig (files json) parsedConfig) as [[tag reason] |] eqn:Hassert.
  { right. erewrite bind_Failure in H by reflexivity. inversion H; subst.
    split; [by eexists |]. rewrite !advance_advance. apply Hcalm.
    repeat first [ apply Forall_nil_2 | apply Forall_cons_2; [reflexivity |]
                 | apply Forall_app; split | by apply Hwarn ]. }
  left. exists json, parsedInput, metadata, parsedConfig.
  repeat split; try done.
  intros overrides Hov. unfold overrideLengthDiffers in Hlen. rewrite Hov in Hlen.
  by apply negb_false_iff, Nat.eqb_eq in Hlen.
Qed.

Lemma fork_bind {A : Type} (m : Eff A) (k : A -> Eff (list PresignedEntry * Fiber)) :
  Keeps sameDaemons m ->
  (forall a w r w', k a w = (r, w') -> forkOutcome w r w') ->
  forall w r w', bind m k w = (r, w') -> forkOutcome w r w'.
Proof.
  intros Hm Hk w r w'. unfold bind.
  destruct (m w) as [[a | e | d] w1] eqn:E; intros H.
  - pose proof (Hm _ _ _ E) as Hsame. unfold sameDaemons in Hsame.
    pose proof (Hk _ _ _ _ H) as Hout.
    destruct r as [[p f] | e | d]; cbn in *; by rewrite <- Hsame.
  - inversion H; subst. exact (Hm _ _ _ E).
  - inversion H; subst. left. exact (Hm _ _ _ E).
Qed.

(** X1: the metadata-registration fiber is forked exactly when the upload
    action succeeds. On success the list of forked fibers has grown by
    the returned fiber and nothing else; on any failure it is unchanged;
    on a defect it has grown by at most one fiber. *)
Theorem registration_forked_only_on_success cfg middlewareArgs request uploadable
    fePackage beAdapter slug w r w' :
  handleUploadAction cfg middlewareArgs request uploadable fePackage beAdapter slug w
  = (r, w') ->
  forkOutcome w r w'.
Proof.
  revert w r w'.
  unfold handleUploadAction, forEach, toFileUploadRequest, failUT, logDebug.
  assert (Hweak : forall A (m : Eff A), Keeps calm m -> Keeps sameDaemons m).
  { intros A m. apply Keeps_weaken, calm_sameDaemons. }
  apply fork_bind; [apply Hweak; calm_tac | intros json].
  do 3 (apply fork_bind; [apply Hweak; calm_tac | intros _]).
  apply fork_bind; [apply Hweak; calm_tac | intros parsedInput].
  apply fork_bind; [apply Hweak; calm_tac | intros _].
  apply fork_bind; [apply Hweak, calm_runRouteMiddleware | intros [metadata fwc]].
  apply fork_bind; [apply Hweak; calm_tac | intros _].
  apply fork_bind; [apply Hweak; calm_tac | intros parsedConfig].
  do 2 (apply fork_bind; [apply Hweak; calm_tac | intros _]).
  apply fork_bind; [apply Hweak; calm_tac | intros _].
  apply fork_bind; [apply Hweak; calm_tac | intros requests].
  apply fork_bind; [apply Hweak; calm_tac | intros tok].
  apply fork_bind.
  { apply (Keeps_forEachUnbounded sameDaemons sameDaemons_refl sameDaemons_trans);
      [apply sameDaemons_schedule | apply sameDaemons_presignFile]. }
  intros urls.
  apply fork_bind; [apply Hweak; calm_tac | intros isDev].
  apply fork_bind; [apply Hweak; calm_tac | intros baseUrl].
  intros w r w'. unfold bind, forkDaemon, logInfo, emit, succeed, die.
  destruct (toPresigneds urls 0 requests); intros H; inversion H; subst; cbn.
  - by rewrite app_nil_r.
  - right. by eexists.
Qed.

End Outcomes.

(* ===================================================================== *)
(** * The routes, case by case *)
(* ===================================================================== *)

Section Routes.

Context {shared : Shared}.

Lemma ignoreLogged_succeeds {A : Type} (m : Eff A) w :
  exists w', ignoreLogged m w = (Success tt, w').
Proof.
  unfold ignoreLogged. destruct (m w) as [[a | e | d] w1]; by eexists.
Qed.

(** A forked fiber never fails: its program runs under [ignoreLogged]. *)
Lemma runFiber_succeeds cfg f w :
  exists w', runFiber cfg f w = (Success tt, w').
Proof. destruct f; apply ignoreLogged_succeeds. Qed.

(** X4: what the forked fiber does never changes the response. Once a
    POST request is classified and its handler has returned a body, the
    answer is 200 with that body: without a policy, or with "void",
    nothing happens after the handler returned; with "await" the fiber is
    run first, and whatever it meets it completes and the answer is the
    same; with a function of the host, the function is called. The one
    way to lose the response is a host function that throws: it is called
    unguarded, and the route dies with what it threw. *)
Theorem detached_work_never_changes_response opts beAdapter middlewareArgs request
    hook action s uploadable w body fiber w1 :
  optionalLiteral decodeUploadThingHook (hdr_uploadthing_hook request) = Some hook ->
  nullish (hdr_x_uploadthing_version request) UPLOADTHING_VERSION = UPLOADTHING_VERSION ->
  optionalLiteral decodeActionType (param_actionType request) = Some action ->
  param_slug request = Some s ->
  getProp (router opts) s = Some uploadable ->
  dispatch (config opts) middlewareArgs request uploadable
           (nullish (hdr_x_uploadthing_package request) "unknown") beAdapter s
           action hook w = (Success (body, fiber), w1) ->
  match fiber, handleDaemonPromise (config opts) with
  | Some f, Some DaemonAwait =>
      exists w',
        runFiber (config opts) f w1 = (Success tt, w') /\
        POST opts beAdapter middlewareArgs request w
        = (Success (jsonResponse body 200), w')
  | Some _, Some (DaemonFunction None) =>
      POST opts beAdapter middlewareArgs request w
      = (Success (jsonResponse body 200), advance w1 0 0 0 [EvHandleDaemon] [])
  | Some _, Some (DaemonFunction (Some thrown)) =>
      POST opts beAdapter middlewareArgs request w
      = (Die thrown, advance w1 0 0 0 [EvHandleDaemon] [])
  | _, _ =>
      POST opts beAdapter middlewareArgs request w = (Success (jsonResponse body 200), w1)
  end.
Proof.
  intros Hhook Hversion Haction Hslug Hroute Hdispatch.
  assert (HPOST : POST opts beAdapter middlewareArgs request w =
    catchSome (catchPOST opts)
      (let* _ := handleDaemonFiber (config opts) fiber in
       succeed (jsonResponse body 200)) w1).
  { unfold POST, catchSome.
    rewrite (POSTbody_dispatch _ _ _ _ _ _ _ _ _ Hhook Hversion Haction Hslug Hroute).
    by rewrite (bind_step _ _ _ _ _ Hdispatch). }
  rewrite HPOST. unfold handleDaemonFiber.
  destruct fiber as [f |]; [| by destruct (handleDaemonPromise (config opts)) as [[] |]].
  destruct (handleDaemonPromise (config opts)) as [[| | [thrown |]] |]; try reflexivity.
  destruct (runFiber_succeeds (config opts) f w1) as [w' Hf].
  exists w'. split; [exact Hf |].
  unfold catchSome. by rewrite (bind_step _ _ _ _ _ Hf).
Qed.

Lemma handleCallbackRequest_accepted cfg request uploadable fePackage
    beAdapter tok payload w :
  UTToken cfg = inr tok ->
  verifySignature (req_text request) (hdr_x_uploadthing_signature request) (apiKey tok)
    = true ->
  decodeCallbackPayload (req_text request) = inr payload ->
  handleCallbackRequest cfg request uploadable fePackage beAdapter w =
  (Success (BodyNull,
            CompleteCallback uploadable payload (authHeaders tok beAdapter fePackage)),
   advance w 0 0 0
     [EvLog LDebug "Signature verified:";
      EvLog LDebug "Handling callback request with input:"]
     [CompleteCallback uploadable payload (authHeaders tok beAdapter fePackage)]).
Proof.
  intros Htok Hsig Hdec. unfold handleCallbackRequest.
  rewrite Htok. do 2 eff_step. rewrite Hsig. cbn [negb].
  rewrite Hdec. do 3 eff_step. unfold succeed.
  by rewrite !advance_advance.
Qed.

(** X5: a callback request whose signature verifies and whose body decodes
    is acknowledged with the body [null] without the resolver having been
    called: the handler logs two lines and forks one fiber, which carries
    the route, the decoded payload and the headers for the ingest
    service. *)
Theorem callback_is_acknowledged_before_resolver cfg request uploadable fePackage
    beAdapter tok payload w :
  UTToken cfg = inr tok ->
  verifySignature (req_text request) (hdr_x_uploadthing_signature request) (apiKey tok)
    = true ->
  decodeCallbackPayload (req_text request) = inr payload ->
  handleCallbackRequest cfg request uploadable fePackage beAdapter w =
  (Success (BodyNull,
            CompleteCallback uploadable payload (authHeaders tok beAdapter fePackage)),
   advance w 0 0 0
     [EvLog LDebug "Signature verified:";
      EvLog LDebug "Handling callback request with input:"]
     [CompleteCallback uploadable payload (authHeaders tok beAdapter fePackage)]).
Proof.
  intros Htok Hsig Hdec. unfold handleCallbackRequest.
  rewrite Htok. do 2 eff_step. rewrite Hsig. cbn [negb].
  rewrite Hdec. do 3 eff_step. unfold succeed.
  by rewrite !advance_advance.
Qed.

(** A sequence, whatever its first part does. *)
Lemma bind_run {A B : Type} (m : Eff A) (k : A -> Eff B) w r w1 :
  m w = (r, w1) ->
  bind m k w = match r with
               | Success a => k a w1
               | Failure e => (Failure e, w1)
               | Die d => (Die d, w1)
               end.
Proof. unfold bind. by intros ->. Qed.

(** The request to [/callback-result] with its [filterStatusOk] and its
    tap on a [ResponseError]. *)
Lemma callbackResultRequest_run url w :
  tapError logResponseError (let* res := httpExecute url in filterStatusOk res) w =
  match network w (count isHttpPost w) with
  | Unanswered reason => (Failure (ErrRequest reason), advance w 0 0 0 [EvHttpPost url] [])
  | Answered res =>
      if (200 <=? res_status res)%Z && (res_status res <? 300)%Z
      then (Success res, advance w 0 0 0 [EvHttpPost url] [])
      else
        match res_json res with
        | Some j =>
            (Failure (ErrResponse (res_status res) (Some j)),
             advance w 0 0 0
               [EvHttpPost url;
                EvLog LError
                  ("Failed to register metadata (" +:+ pretty (res_status res) +:+ ")")]
               [])
        | None =>
            (Failure (ErrResponse (res_status res) None),
             advance w 0 0 0 [EvHttpPost url] [])
        end
  end.
Proof.
  unfold tapError, tapBoth, bind, httpExecute, filterStatusOk, logResponseError.
  destruct (network w (count isHttpPost w)) as [res | reason]; [| reflexivity].
  destruct ((200 <=? res_status res)%Z && (res_status res <? 300)%Z); [reflexivity |].
  unfold fail. destruct (res_json res) as [j |]; [| reflexivity].
  unfold logError, emit. by rewrite advance_advance.
Qed.

(** The run of the callback fiber, in full. *)
Lemma completeCallback_run cfg uploadable payload hdrs w :
  runFiber cfg (CompleteCallback uploadable payload hdrs) w =
  (Success tt,
   advance w 0 0 0
     (EvResolver (up_key (cb_file payload)) ::
      match resolver uploadable (cb_file payload) (cb_metadata payload), IngestUrl cfg with
      | inl _, _ => [EvLog LDebug silentlyIgnored]
      | inr _, inl _ =>
          [EvLog LDebug
             "'onUploadComplete' callback finished. Sending response to UploadThing:";
           EvLog LDebug silentlyIgnored]
      | inr _, inr baseUrl =>
          EvLog LDebug
            "'onUploadComplete' callback finished. Sending response to UploadThing:"
          :: EvHttpPost (baseUrl +:+ "/callback-result")
          :: afterCallbackResult (network w (count isHttpPost w))
      end) []).
Proof.
  unfold runFiber, ignoreLogged. eff_step.
  destruct (resolver uploadable (cb_file payload) (cb_metadata payload)) as [t | data].
  { unfold bind, tryPromise, fail, logDebug, emit. by rewrite !advance_advance. }
  do 2 eff_step.
  destruct (IngestUrl cfg) as [msg | baseUrl].
  { unfold bind, fromConfig, fail, logDebug, emit. by rewrite !advance_advance. }
  eff_step. rewrite !advance_advance. cbn [app Nat.add].
  match goal with |- context [bind (tapError _ _) _ ?w3] =>
    pose proof (callbackResultRequest_run (baseUrl +:+ "/callback-result") w3) as Hreq
  end.
  rewrite count_advance in Hreq.
  rewrite !filter_cons_False, filter_nil in Hreq by done.
  cbn [length] in Hreq. rewrite Nat.add_0_r in Hreq.
  change (network (advance w 0 0 0 _ [])) with (network w) in Hreq.
  unfold afterCallbackResult, schemaBodyJsonScoped.
  destruct (network w (count isHttpPost w)) as [res | reason].
  2: { rewrite (bind_run _ _ _ _ _ Hreq). unfold logDebug, emit.
       by rewrite !advance_advance. }
  destruct ((200 <=? res_status res)%Z && (res_status res <? 300)%Z).
  - rewrite (bind_run _ _ _ _ _ Hreq).
    destruct (res_json res) as [j |].
    + destruct (isCallbackResultResponse j);
        unfold bind, succeed, fail, logInfo, logDebug, emit; by rewrite !advance_advance.
    + unfold bind, fail, logDebug, emit. by rewrite !advance_advance.
  - destruct (res_json res) as [j |]; rewrite (bind_run _ _ _ _ _ Hreq);
      unfold logDebug, emit; by rewrite !advance_advance.
Qed.

(** X6: the resolver's fiber never fails, whatever the resolver and the
    ingest service do, so awaiting it cannot fail the request. It calls
    the resolver once, first of all; it posts to [/callback-result] of the
    ingest service once if the resolver returned (and the ingest URL is
    configured) and not at all if the resolver threw; it logs "Sent
    callback result to UploadThing" exactly when that request was answered
    with a 2xx status and a body of the expected schema, and otherwise
    ends on the debug line of a silently ignored error. It forks nothing
    and draws nothing. *)
Theorem resolver_outcome_is_contained cfg uploadable payload hdrs w :
  exists evs,
    runFiber cfg (CompleteCallback uploadable payload hdrs) w
    = (Success tt, advance w 0 0 0 (EvResolver (up_key (cb_file payload)) :: evs) []) /\
    Forall (fun ev => forall key, ev <> EvResolver key) evs /\
    filter (fun ev => isHttpPost ev = true) evs
    = match resolver uploadable (cb_file payload) (cb_metadata payload), IngestUrl cfg with
      | inr _, inr baseUrl => [EvHttpPost (baseUrl +:+ "/callback-result")]
      | _, _ => []
      end /\
    (EvLog LInfo "Sent callback result to UploadThing" ∈ evs <->
     exists data baseUrl res j,
       resolver uploadable (cb_file payload) (cb_metadata payload) = inr data /\
       IngestUrl cfg = inr baseUrl /\
       network w (count isHttpPost w) = Answered res /\
       (200 <= res_status res < 300)%Z /\
       res_json res = Some j /\
       isCallbackResultResponse j = true) /\
    (EvLog LInfo "Sent callback result to UploadThing" ∉ evs ->
     last evs = Some (EvLog LDebug silentlyIgnored)).
Proof.
  eexists. split; [apply completeCallback_run |].
  assert (Hnot : forall evs,
    Forall (fun ev => exists lvl msg, ev = EvLog lvl msg /\ lvl <> LInfo) evs ->
    EvLog LInfo "Sent callback result to UploadThing" ∉ evs).
  { intros evs Hevs Hin. rewrite Forall_forall in Hevs.
    destruct (Hevs _ Hin) as (lvl & msg & [= <- _] & Hne). done. }
  destruct (resolver uploadable (cb_file payload) (cb_metadata payload)) as [t | data]
    eqn:Hres.
  { split; [repeat constructor; intros key; discriminate |].
    split; [by rewrite filter_cons_False, filter_nil by done |]. split; [| done].
    split.
    - intros Hin. exfalso. revert Hin. apply Hnot. repeat constructor. by eexists _, _.
    - by intros (? & ? & ? & ? & [=] & _). }
  destruct (IngestUrl cfg) as [msg | baseUrl] eqn:Hbase.
  { split; [repeat constructor; intros key; discriminate |].
    split; [by rewrite !filter_cons_False, filter_nil by done |]. split; [| done].
    split.
    - intros Hin. exfalso. revert Hin. apply Hnot. repeat constructor; by eexists _, _.
    - by intros (? & ? & ? & ? & _ & [=] & _). }
  assert (Hshape :
    (afterCallbackResult (network w (count isHttpPost w))
       = [EvLog LInfo "Sent callback result to UploadThing"] /\
     exists res j,
       network w (count isHttpPost w) = Answered res /\
       (200 <= res_status res < 300)%Z /\
       res_json res = Some j /\ isCallbackResultResponse j = true)
    \/
    (Forall (fun ev => exists lvl msg, ev = EvLog lvl msg /\ lvl <> LInfo)
       (afterCallbackResult (network w (count isHttpPost w))) /\
     last (afterCallbackResult (network w (count isHttpPost w)))
       = Some (EvLog LDebug silentlyIgnored) /\
     ~ exists res j,
       network w (count isHttpPost w) = Answered res /\
       (200 <= res_status res < 300)%Z /\
       res_json res = Some j /\ isCallbackResultResponse j = true)).
  { unfold afterCallbackResult.
    destruct (network w (count isHttpPost w)) as [res | reason].
    2: { right. split; [repeat constructor; by eexists _, _ |]. split; [done |].
         by intros (? & ? & [=] & _). }
    destruct ((200 <=? res_status res)%Z && (res_status res <? 300)%Z) eqn:Hok.
    - apply andb_true_iff in Hok as [Hlo%Z.leb_le Hhi%Z.ltb_lt].
      destruct (res_json res) as [j |] eqn:Hjson.
      + destruct (isCallbackResultResponse j) eqn:Hfits.
        * left. split; [done |]. by exists res, j.
        * right. split; [repeat constructor; by eexists _, _ |]. split; [done |].
          intros (res' & j' & [= <-] & _ & Hj & Hf). congruence.
      + right. split; [repeat constructor; by eexists _, _ |]. split; [done |].
        intros (res' & j' & [= <-] & _ & Hj & _). congruence.
    - apply andb_false_iff in Hok.
      assert (Hout : ~ (200 <= res_status res < 300)%Z).
      { destruct Hok as [Hlo%Z.leb_gt | Hhi%Z.ltb_ge]; lia. }
      right. split; [| split].
      + destruct (res_json res); repeat constructor; by eexists _, _.
      + by destruct (res_json res).
      + intros (res' & j' & [= <-] & Hin & _). done. }
  set (after := afterCallbackResult (network w (count isHttpPost w))) in *.
  assert (Hafter : Forall (fun ev => forall key, ev <> EvResolver key) after /\
                   filter (fun ev => isHttpPost ev = true) after = []).
  { destruct Hshape as [[-> _] | [Hall _]].
    - split; [repeat constructor; intros key; discriminate |].
      by rewrite filter_cons_False, filter_nil by done.
    - split.
      + eapply Forall_impl; [exact Hall |]. by intros ev (lvl & msg & -> & _) key.
      + apply filter_none. eapply Forall_impl; [exact Hall |].
        by intros ev (lvl & msg & -> & _). }
  destruct Hafter as [Hres' Hposts].
  split; [repeat (constructor; [intros key; discriminate |]); exact Hres' |].
  split.
  { rewrite filter_cons_False by done. rewrite filter_cons_True by done.
    by rewrite Hposts. }
  split.
  - split.
    + intros Hin.
      destruct Hshape as [[_ (res & j & Hnet & Hok & Hjson & Hfits)] | [Hall _]].
      * by exists data, baseUrl, res, j.
      * exfalso.
        apply elem_of_cons in Hin as [Hin | Hin]; [discriminate |].
        apply elem_of_cons in Hin as [Hin | Hin]; [discriminate |].
        by apply (Hnot after).
    + intros (data' & baseUrl' & res & j & _ & _ & Hnet & Hok & Hjson & Hfits).
      destruct Hshape as [[-> _] | [_ [_ Hno]]].
      * do 2 apply list_elem_of_further. apply list_elem_of_here.
      * exfalso. apply Hno. by exists res, j.
  - intros Hno. destruct Hshape as [[Heq _] | [_ [Hlast _]]].
    + exfalso. apply Hno. rewrite Heq.
      do 2 apply list_elem_of_further. apply list_elem_of_here.
    + destruct after as [| ev after']; [done |]. exact Hlast.
Qed.

(** The request to [/route-metadata] with its [filterStatusOk] and its
    [tapBoth]. *)
Lemma metadataRequest_run r w :
  metadataRequest r w =
  match network w (count isHttpPost w) with
  | Unanswered reason =>
      (Failure (ErrRequest reason),
       advance w 0 0 0
         [EvHttpPost (mr_url r); EvLog LError "Failed to register metadata"] [])
  | Answered res =>
      if (200 <=? res_status res)%Z && (res_status res <? 300)%Z
      then (Success res,
            advance w 0 0 0
              [EvHttpPost (mr_url r); EvLog LDebug "Registerred metadata"] [])
      else
        match res_json res with
        | Some j =>
            (Failure (ErrResponse (res_status res) (Some j)),
             advance w 0 0 0
               [EvHttpPost (mr_url r);
                EvLog LError
                  ("Failed to register metadata (" +:+ pretty (res_status res) +:+ ")")]
               [])
        | None =>
            (Failure (ErrResponse (res_status res) None),
             advance w 0 0 0 [EvHttpPost (mr_url r)] [])
        end
  end.
Proof.
  unfold metadataRequest, tapBoth, bind, httpExecute, filterStatusOk, logResponseError.
  destruct (network w (count isHttpPost w)) as [res | reason].
  2: { unfold logError, emit, fail. by rewrite advance_advance. }
  destruct ((200 <=? res_status res)%Z && (res_status res <? 300)%Z).
  { unfold succeed, logDebug, emit. by rewrite advance_advance. }
  unfold fail. destruct (res_json res) as [j |]; [| reflexivity].
  unfold logError, emit. by rewrite advance_advance.
Qed.

(** The replay of a development stream: one request to the callback URL
    for every chunk up to the first that does not decode; a replay that
    fails does not end the stream. *)
Lemma simulateCallbacks_run url : forall chunks w,
  exists r evs n,
    simulateCallbacks url chunks w = (r, advance w 0 0 0 evs []) /\
    (forall d, r <> Die d) /\
    filter (fun ev => isHttpPost ev = true) evs = replicate n (EvHttpPost url) /\
    n <= length chunks /\
    (forall i chunk, i < n -> chunks !! i = Some chunk ->
       decodeMetadataFetchStreamPart chunk <> None) /\
    (forall chunk, chunks !! n = Some chunk ->
       decodeMetadataFetchStreamPart chunk = None).
Proof.
  induction chunks as [| chunk rest IH]; intros w.
  { exists (Success tt), [], 0. cbn. rewrite advance_zero.
    split; [done |]. split; [done |]. split; [done |]. split; [done |].
    split; [intros i chunk Hi; lia | done]. }
  cbn [simulateCallbacks].
  destruct (decodeMetadataFetchStreamPart chunk) as [part |] eqn:Hpart.
  2: { exists (Failure (ErrParse chunk)), [], 0. unfold fail. rewrite advance_zero.
       split; [done |]. split; [done |]. split; [done |]. split; [cbn; lia |].
       split; [intros i c Hi; lia |]. intros c [= <-]. done. }
  assert (Hreplay : exists line,
    ignoreLogged (let* _ := httpExecute url in
                  logInfo "Successfully simulated callback") w
    = (Success tt, advance w 0 0 0 [EvHttpPost url; EvLog line.1 line.2] [])).
  { unfold ignoreLogged, bind, httpExecute.
    destruct (network w (count isHttpPost w)) as [res | reason].
    - exists (LInfo, "Successfully simulated callback").
      unfold logInfo, emit. by rewrite advance_advance.
    - exists (LDebug, silentlyIgnored).
      unfold logDebug, emit. by rewrite advance_advance. }
  destruct Hreplay as [line Hreplay].
  rewrite (bind_step _ _ _ _ _ Hreplay).
  destruct (IH (advance w 0 0 0 [EvHttpPost url; EvLog line.1 line.2] []))
    as (r & evs & n & Hrun & Hdie & Hposts & Hn & Hdec & Hstop).
  exists r, ([EvHttpPost url; EvLog line.1 line.2] ++ evs), (S n).
  rewrite Hrun, advance_advance. split; [done |]. split; [done |].
  split.
  { cbn [app]. rewrite filter_cons_True by done. rewrite filter_cons_False by done.
    by rewrite Hposts. }
  split; [cbn; lia |]. split.
  - intros [| i] c Hi Hc; cbn in Hc.
    + inversion Hc; subst. by rewrite Hpart.
    + apply (Hdec i); [lia | done].
  - intros c Hc. cbn in Hc. by apply Hstop.
Qed.

(** X3: the registration fiber never fails, whatever the ingest service
    does: what goes wrong is logged, and awaiting the fiber cannot fail
    the request. Its first act is the one request to [/route-metadata].
    In production it makes no other request. In development it replays
    the stream of the response: when the request was answered with a 2xx
    status, one request to the callback URL for every chunk up to the
    first that does not decode as a stream part, and none otherwise. It
    forks nothing and draws nothing. *)
Theorem registration_outcome_is_contained cfg r w :
  exists evs,
    runFiber cfg (RegisterMetadata r) w
    = (Success tt, advance w 0 0 0 (EvHttpPost (mr_url r) :: evs) []) /\
    (mr_isDev r = false -> filter (fun ev => isHttpPost ev = true) evs = []) /\
    (mr_isDev r = true ->
     exists n,
       filter (fun ev => isHttpPost ev = true) evs
       = replicate n (EvHttpPost (mr_callbackUrl r)) /\
       match network w (count isHttpPost w) with
       | Answered res =>
           if (200 <=? res_status res)%Z && (res_status res <? 300)%Z
           then
             n <= length (res_chunks res) /\
             (forall i chunk, i < n -> res_chunks res !! i = Some chunk ->
                decodeMetadataFetchStreamPart chunk <> None) /\
             (forall chunk, res_chunks res !! n = Some chunk ->
                decodeMetadataFetchStreamPart chunk = None)
           else n = 0
       | Unanswered _ => n = 0
       end).
Proof.
  unfold runFiber, ignoreLogged.
  pose proof (metadataRequest_run r w) as Hreq.
  destruct (network w (count isHttpPost w)) as [res | reason].
  2: { rewrite (bind_run _ _ _ _ _ Hreq).
       eexists. unfold logDebug, emit. rewrite advance_advance.
       split; [reflexivity |].
       split; [intros _; by rewrite !filter_cons_False, filter_nil by done |].
       intros _. exists 0. split; [| done].
       by rewrite !filter_cons_False, filter_nil by done. }
  destruct ((200 <=? res_status res)%Z && (res_status res <? 300)%Z).
  2: { destruct (res_json res) as [j |]; rewrite (bind_run _ _ _ _ _ Hreq);
         (eexists; unfold logDebug, emit; rewrite advance_advance;
          split; [reflexivity |];
          split; [intros _; by rewrite ?filter_cons_False, filter_nil by done |];
          intros _; exists 0; split; [| done];
          by rewrite ?filter_cons_False, filter_nil by done). }
  rewrite (bind_run _ _ _ _ _ Hreq).
  destruct (mr_isDev r).
  - destruct (simulateCallbacks_run (mr_callbackUrl r) (res_chunks res)
                (advance w 0 0 0
                   [EvHttpPost (mr_url r); EvLog LDebug "Registerred metadata"] []))
      as (out & evs & n & Hrun & Hdie & Hposts & Hn & Hdec & Hstop).
    rewrite Hrun.
    assert (Hend : exists tail,
      Forall (fun ev => isHttpPost ev = false) tail /\
      match out with
      | Success _ =>
          (Success tt,
           advance
             (advance w 0 0 0
                [EvHttpPost (mr_url r); EvLog LDebug "Registerred metadata"] [])
             0 0 0 evs [])
      | _ =>
          logDebug silentlyIgnored
            (advance
               (advance w 0 0 0
                  [EvHttpPost (mr_url r); EvLog LDebug "Registerred metadata"] [])
               0 0 0 evs [])
      end
      = (Success tt,
         advance w 0 0 0
           (EvHttpPost (mr_url r) :: EvLog LDebug "Registerred metadata" :: evs ++ tail)
           [])).
    { destruct out as [[] | e | d].
      - exists []. rewrite advance_advance, !app_nil_r. split; [constructor | reflexivity].
      - exists [EvLog LDebug silentlyIgnored]. unfold logDebug, emit.
        rewrite !advance_advance. split; [by repeat constructor | done].
      - by destruct (Hdie d). }
    destruct Hend as (tail & Htail & ->).
    eexists. split; [reflexivity |]. split; [done |]. intros _. exists n.
    split; [| done].
    rewrite filter_cons_False by done. rewrite filter_app, Hposts.
    by rewrite (filter_none _ _ Htail), app_nil_r.
  - unfold schemaBodyJsonScoped.
    assert (Hend : exists tail,
      Forall (fun ev => isHttpPost ev = false) tail /\
      match
        match res_json res with
        | Some j =>
            if isMetadataFetchResponse j
            then succeed tt
            else fail (ErrParse "response body")
        | None => fail (ErrResponse (res_status res) None)
        end
          (advance w 0 0 0
             [EvHttpPost (mr_url r); EvLog LDebug "Registerred metadata"] [])
      with
      | (Success _, w') => (Success tt, w')
      | (_, w') => logDebug silentlyIgnored w'
      end
      = (Success tt,
         advance w 0 0 0
           (EvHttpPost (mr_url r) :: EvLog LDebug "Registerred metadata" :: tail) [])).
    { destruct (res_json res) as [j |]; [destruct (isMetadataFetchResponse j) |].
      - exists []. split; [constructor | reflexivity].
      - exists [EvLog LDebug silentlyIgnored]. unfold fail, logDebug, emit.
        rewrite advance_advance. split; [by repeat constructor | done].
      - exists [EvLog LDebug silentlyIgnored]. unfold fail, logDebug, emit.
        rewrite advance_advance. split; [by repeat constructor | done]. }
    destruct Hend as (tail & Htail & Hend).
    eexists. split; [exact Hend |]. split; [| done]. intros _.
    rewrite filter_cons_False by done. by apply filter_none.
Qed.

(** A name that is not among the inherited ones. *)
Lemma inherited_false s : s ∉ objectPrototypeNames -> inherited s = false.
Proof.
  intros Hnot. unfold inherited. destruct (existsb _ _) eqn:E; [| done].
  apply existsb_exists in E as (name & Hin & Heq%String.eqb_eq). subst.
  by apply list_elem_of_In in Hin.
Qed.

(** X7: a POST request for a slug that names neither a route of the
    router nor a member of [Object.prototype] is answered with the
    NOT_FOUND error naming the slug; the only thing the route does is log
    that message: no handler and no user code runs. *)
Theorem unknown_slug_is_not_found opts beAdapter middlewareArgs request hook action s w :
  optionalLiteral decodeUploadThingHook (hdr_uploadthing_hook request) = Some hook ->
  nullish (hdr_x_uploadthing_version request) UPLOADTHING_VERSION = UPLOADTHING_VERSION ->
  optionalLiteral decodeActionType (param_actionType request) = Some action ->
  param_slug request = Some s ->
  getProp (router opts) s = None ->
  s ∉ objectPrototypeNames ->
  POST opts beAdapter middlewareArgs request w =
  (Success (errorResponse opts
              (mkUTError NOT_FOUND ("No file route found for slug " +:+ s) None)),
   advance w 0 0 0 [EvLog LError ("No file route found for slug " +:+ s)] []).
Proof.
  intros Hhook Hversion Haction Hslug Hroute Hown.
  unfold POST, catchSome, POSTbody.
  rewrite (bind_step _ _ _ _ _ (schemaHeaders_run request hook w Hhook)).
  cbn [clientVersion]. rewrite Hversion, String.eqb_refl. cbn [negb].
  unfold processRequest, schemaParams. rewrite Haction, Hslug. eff_step.
  cbn [slug]. rewrite Hroute, (inherited_false s Hown). reflexivity.
Qed.

Lemma inherited_true s : s ∈ objectPrototypeNames -> inherited s = true.
Proof.
  intros Hin. unfold inherited. apply existsb_exists.
  exists s. split; [by apply list_elem_of_In | apply String.eqb_refl].
Qed.

(** X15: a slug that names no route of the router but a member of
    [Object.prototype] ("constructor", "toString", ...) is not answered
    NOT_FOUND: the lookup [opts.router[slug]] finds the inherited member
    and the route goes on with it. Without [actionType] and hook header
    the answer is 200 with the body [null], the world untouched; an upload
    action with a decodable body logs two lines and then dies on reading
    [uploadable._def.inputParser]. *)
Theorem prototype_member_passes_for_a_route opts beAdapter middlewareArgs request s w :
  hdr_uploadthing_hook request = None ->
  nullish (hdr_x_uploadthing_version request) UPLOADTHING_VERSION = UPLOADTHING_VERSION ->
  param_slug request = Some s ->
  getProp (router opts) s = None ->
  s ∈ objectPrototypeNames ->
  (param_actionType request = None ->
   POST opts beAdapter middlewareArgs request w
   = (Success (jsonResponse BodyNull 200), w)) /\
  (forall json,
     param_actionType request = Some "upload" ->
     decodeUploadActionPayload (req_text request) = inr json ->
     POST opts beAdapter middlewareArgs request w
     = (Die "TypeError: Cannot read properties of undefined (reading 'inputParser')",
        advance w 0 0 0
          [EvLog LDebug "Handling upload request with input:";
           EvLog LDebug "Parsing user input"] [])).
Proof.
  intros Hhook Hversion Hslug Hroute Hin.
  assert (Hhdr : optionalLiteral decodeUploadThingHook (hdr_uploadthing_hook request)
                 = Some None) by (by rewrite Hhook).
  assert (HPOST : forall action,
    optionalLiteral decodeActionType (param_actionType request) = Some action ->
    POST opts beAdapter middlewareArgs request w =
    catchSome (catchPOST opts)
      (let* '(body, fiber) :=
         dispatchInherited (config opts) request
           (nullish (hdr_x_uploadthing_package request) "unknown") beAdapter action None in
       let* _ := handleDaemonFiber (config opts) fiber in
       succeed (jsonResponse body 200)) w).
  { intros action Haction. unfold POST, POSTbody.
    unfold catchSome at 1.
    rewrite (bind_step _ _ _ _ _ (schemaHeaders_run request None w Hhdr)).
    cbn [clientVersion]. rewrite Hversion, String.eqb_refl. cbn [negb].
    unfold processRequest, schemaParams. rewrite Haction, Hslug. eff_step.
    cbn [slug actionType uploadthingHook fePackage].
    by rewrite Hroute, (inherited_true s Hin). }
  split.
  - intros Haction. rewrite (HPOST None) by (by rewrite Haction). reflexivity.
  - intros json Haction Hdec.
    rewrite (HPOST (Some ActionUpload)) by (by rewrite Haction).
    unfold catchSome, dispatchInherited. rewrite Hdec.
    unfold bind, succeed, logDebug, emit, die. by rewrite !advance_advance.
Qed.

(** X8: an error thrown by the middleware. An [UploadThingError] is
    surfaced as it is, code, message and cause; anything else is wrapped
    as INTERNAL_SERVER_ERROR "Failed to run middleware". The orchestrator
    stops there: after the middleware call nothing more happens. *)
Theorem middleware_error_is_surfaced cfg middlewareArgs request uploadable
    fePackage beAdapter slug json parsedInput thrown w :
  decodeUploadActionPayload (req_text request) = inr json ->
  inputParser uploadable (input json) = inr parsedInput ->
  middleware uploadable middlewareArgs parsedInput (files json) = inl thrown ->
  handleUploadAction cfg middlewareArgs request uploadable fePackage beAdapter slug w =
  (Failure (ErrUploadThing
     match thrown with
     | ThrownUTError u => u
     | ThrownOther r => mkUTError INTERNAL_SERVER_ERROR "Failed to run middleware" (Some r)
     end),
   advance w 0 0 0
     [EvLog LDebug "Handling upload request with input:";
      EvLog LDebug "Parsing user input"; EvInputParser;
      EvLog LDebug "Input parsed successfully";
      EvLog LDebug "Running middleware"; EvMiddleware] []).
Proof.
  intros Hdec Hparse Hmw. unfold handleUploadAction. rewrite Hdec.
  do 4 eff_step. rewrite Hparse. do 2 eff_step.
  erewrite bind_Failure.
  2: { unfold runRouteMiddleware. cbn [input files]. do 2 eff_step.
       rewrite Hmw. apply bind_Failure. reflexivity. }
  unfold catchMiddleware. by rewrite !advance_advance.
Qed.

(** X9: input that the route's input parser rejects fails the request
    with BAD_REQUEST "Invalid input" carrying the parser's error as cause,
    and the middleware is not called. *)
Theorem invalid_input_stops_before_middleware cfg middlewareArgs request uploadable
    fePackage beAdapter slug json thrown w :
  decodeUploadActionPayload (req_text request) = inr json ->
  inputParser uploadable (input json) = inl thrown ->
  handleUploadAction cfg middlewareArgs request uploadable fePackage beAdapter slug w =
  (Failure (ErrUploadThing
     (mkUTError BAD_REQUEST "Invalid input" (Some (renderThrown thrown)))),
   advance w 0 0 0
     [EvLog LDebug "Handling upload request with input:";
      EvLog LDebug "Parsing user input"; EvInputParser] []).
Proof.
  intros Hdec Hparse. unfold handleUploadAction. rewrite Hdec.
  do 4 eff_step. rewrite Hparse.
  erewrite bind_Failure by reflexivity.
  unfold catchInputParser. by rewrite !advance_advance.
Qed.

(** X10: files that break the route config. The check runs on the files
    of the payload as the client declared them, after the middleware has
    run and whatever names or sizes its overrides carry; its failure is
    BAD_REQUEST "Invalid config: <tag>" with the reason as cause; no
    entropy has been drawn and no fiber forked. *)
Theorem files_breaking_config_are_rejected cfg middlewareArgs request uploadable
    fePackage beAdapter slug json parsedInput metadata parsedConfig tag reason w :
  decodeUploadActionPayload (req_text request) = inr json ->
  inputParser uploadable (input json) = inr parsedInput ->
  middleware uploadable middlewareArgs parsedInput (files json) = inr metadata ->
  overrideLengthDiffers metadata (files json) = false ->
  fillInputRouteConfig (routerConfig uploadable) = inr parsedConfig ->
  assertFilesMeetConfig (files json) parsedConfig = Some (tag, reason) ->
  exists w',
    handleUploadAction cfg middlewareArgs request uploadable fePackage beAdapter slug w
    = (Failure (ErrUploadThing
         (mkUTError BAD_REQUEST ("Invalid config: " +:+ tag) (Some reason))), w') /\
    EvMiddleware ∈ trace w' /\
    daemons w' = daemons w /\
    entropyReads w' = entropyReads w.
Proof.
  intros Hdec Hparse Hmw Hlen Hfill Hassert.
  destruct (runRouteMiddleware_run middlewareArgs
              {| input := parsedInput; files := files json |} uploadable metadata
              Hmw Hlen) as (dc & evs & Hevs & Hrun).
  eexists. split; [| split; [| split]].
  - unfold handleUploadAction. rewrite Hdec.
    do 4 eff_step. rewrite Hparse. do 2 eff_step.
    match goal with |- context [bind _ _ ?w0] =>
      destruct (Hrun w0) as (fwc & Hrw & _) end.
    rewrite (bind_step _ _ _ _ _ Hrw). cbv beta iota.
    eff_step. rewrite Hfill. do 3 eff_step. rewrite Hassert.
    erewrite bind_Failure by reflexivity. reflexivity.
  - rewrite !advance_advance. cbn. apply elem_of_app. right.
    repeat first [apply list_elem_of_here | apply list_elem_of_further].
  - rewrite !advance_advance. cbn. apply app_nil_r.
  - rewrite !advance_advance. cbn. lia.
Qed.

(** X11: every response the built router gives, to a GET or to a POST,
    for a success or for an error, ends its headers with
    [x-uploadthing-version] set to the server version. *)
Theorem every_response_carries_version opts beAdapter w0 rt w0' incoming w resp w' :
  createRequestHandler opts beAdapter w0 = (Success rt, w0') ->
  serveOne rt incoming w = (Success resp, w') ->
  last (headers resp) = Some ("x-uploadthing-version", UPLOADTHING_VERSION).
Proof.
  intros Hrt Hserve.
  apply createRequestHandler_Success in Hrt as (_ & rc & _ & Hget & Hpost).
  assert (Hmap : forall m, appendResponseHeaders m w = (Success resp, w') ->
    last (headers resp) = Some ("x-uploadthing-version", UPLOADTHING_VERSION)).
  { intros m H. unfold appendResponseHeaders, effMap in H.
    apply bind_Success in H as (a & w1 & _ & H).
    apply succeed_Success in H as [<- _]. cbn. apply last_snoc. }
  destruct incoming as [| middlewareArgs request]; cbn in Hserve.
  - rewrite Hget in Hserve. by eapply Hmap.
  - rewrite Hpost in Hserve. by eapply Hmap.
Qed.

End Routes.

(* ===================================================================== *)
(** * One key and one signed URL per file *)
(* ===================================================================== *)

Lemma filter_not_outbound kind evs :
  (forall ev, kind ev = true -> outbound ev = true) ->
  Forall (fun ev => outbound ev = false) evs ->
  filter (fun ev => kind ev = true) evs = [].
Proof.
  intros Hkind. induction 1 as [| ev evs Hev _ IH]; [done |].
  rewrite filter_cons. destruct (decide (kind ev = true)) as [Hk | Hk]; [| done].
  apply Hkind in Hk. congruence.
Qed.

Lemma calm_steady w w' : calm w w' -> steady w w'.
Proof.
  intros (dc & evs & -> & Hevs). unfold steady. rewrite !count_advance.
  rewrite !(filter_not_outbound _ evs); try done; cbn; try lia.
  - by intros [].
  - by intros [].
Qed.

(** The scheduling loop runs every pending fiber once: with tasks that
    each draw once, generate one key and sign one URL, it does each once
    per pending fiber. *)
Lemma runFibers_once {A B : Type} (f : A -> Eff B) :
  (forall x w b w', f x w = (Success b, w') ->
     entropyReads w' = entropyReads w + 1 /\
     count isKeyGenerated w' = count isKeyGenerated w + 1 /\
     count isUrlSigned w' = count isUrlSigned w + 1) ->
  forall fuel pending slots w slots' w',
    runFibers f fuel pending slots w = (Success slots', w') ->
    length pending <= fuel ->
    entropyReads w' = entropyReads w + length pending /\
    count isKeyGenerated w' = count isKeyGenerated w + length pending /\
    count isUrlSigned w' = count isUrlSigned w + length pending.
Proof.
  intros Hf. induction fuel as [| fuel IH]; intros pending slots w slots' w' H Hfuel.
  - destruct pending; [| cbn in Hfuel; lia].
    cbn in H. inversion H; subst. cbn. lia.
  - destruct pending as [| p0 rest] eqn:Epend.
    { cbn in H. inversion H; subst. cbn. lia. }
    rewrite <- Epend in *.
    assert (Hpos : 0 < length pending) by (rewrite Epend; cbn; lia).
    assert (H' : (let* k := schedule (length pending) in
                  match pending !! k with
                  | Some (i, x) =>
                      let* b := f x in
                      runFibers f fuel (delete k pending) (<[i := Some b]> slots)
                  | None => succeed slots
                  end) w = (Success slots', w')).
    { rewrite <- H. cbn. rewrite Epend. reflexivity. }
    clear H. apply bind_Success in H' as (k & w1 & Hk & H).
    pose proof (schedule_lt _ _ _ _ Hpos Hk) as Hlt.
    unfold schedule in Hk. inversion Hk; subst w1. clear Hk.
    destruct (lookup_lt_is_Some_2 pending _ Hlt) as [[i x] Hix].
    rewrite Hix in H.
    apply bind_Success in H as (b & w2 & Hb & H).
    apply Hf in Hb as (He & Hkeys & Hurls).
    rewrite !count_advance in Hkeys, Hurls. cbn in He, Hkeys, Hurls.
    apply IH in H as (He' & Hkeys' & Hurls').
    + rewrite length_delete in He', Hkeys', Hurls' by eauto. lia.
    + rewrite length_delete by eauto. lia.
Qed.

Section Once.

Context {shared : Shared}.

Lemma presignFile_once cfg uploadable tok slug file w p w' :
  presignFile cfg uploadable tok slug file w = (Success p, w') ->
  entropyReads w' = entropyReads w + 1 /\
  count isKeyGenerated w' = count isKeyGenerated w + 1 /\
  count isUrlSigned w' = count isUrlSigned w + 1.
Proof.
  unfold presignFile. intros H.
  apply bind_Success in H as (r & w1 & Hr & H).
  apply bind_Success in H as (key & w2 & Hkey & H).
  apply bind_Success in H as (? & w3 & Hk & H).
  apply bind_Success in H as (baseUrl & w4 & Hbase & H).
  apply bind_Success in H as (url & w5 & Hurl & H).
  apply bind_Success in H as (? & w6 & Hu & H).
  apply succeed_Success in H as [_ ->].
  unfold random in Hr. unfold emit in Hk, Hu.
  inversion Hr; subst w1. inversion Hk; subst w3. inversion Hu; subst w'.
  destruct (generateKey file _ _) as [e | key']; cbn in Hkey; [done |].
  apply succeed_Success in Hkey as [_ <-].
  destruct (IngestUrl cfg) as [msg | base']; cbn in Hbase; [done |].
  apply succeed_Success in Hbase as [_ <-].
  destruct (generateSignedURL _ _ _ _) as [e | url']; cbn in Hurl; [done |].
  apply succeed_Success in Hurl as [_ <-].
  rewrite !advance_advance, !count_advance. cbn [app].
  repeat first [ rewrite filter_cons_True by done
               | rewrite filter_cons_False by done ].
  rewrite !filter_nil. cbn. lia.
Qed.

Lemma once_bind {A : Type} (m : Eff A) (k : A -> Eff (list PresignedEntry * Fiber)) :
  Keeps calm m ->
  (forall a w p f w', k a w = (Success (p, f), w') ->
     entropyReads w' = entropyReads w + length p /\
     count isKeyGenerated w' = count isKeyGenerated w + length p /\
     count isUrlSigned w' = count isUrlSigned w + length p) ->
  forall w p f w', bind m k w = (Success (p, f), w') ->
    entropyReads w' = entropyReads w + length p /\
    count isKeyGenerated w' = count isKeyGenerated w + length p /\
    count isUrlSigned w' = count isUrlSigned w + length p.
Proof.
  intros Hm Hk w p f w' H.
  apply bind_Success in H as (a & w1 & Ha & H).
  apply Hm, calm_steady in Ha as (He & Hkeys & Hurls).
  apply Hk in H as (He' & Hkeys' & Hurls'). lia.
Qed.

(** X12: a successful upload action has generated exactly one key and
    signed exactly one URL per returned entry, that is per file, drawing
    entropy once for each: whatever the scheduler chose, no file's key is
    generated twice and none is skipped. *)
Theorem one_key_per_file cfg middlewareArgs request uploadable
    fePackage beAdapter slug w presigneds fiber w' :
  handleUploadAction cfg middlewareArgs request uploadable fePackage beAdapter slug w
  = (Success (presigneds, fiber), w') ->
  entropyReads w' = entropyReads w + length presigneds /\
  count isKeyGenerated w' = count isKeyGenerated w + length presigneds /\
  count isUrlSigned w' = count isUrlSigned w + length presigneds.
Proof.
  revert w presigneds fiber w'.
  unfold handleUploadAction, forEach, toFileUploadRequest, failUT, logDebug.
  apply once_bind; [calm_tac | intros json].
  do 3 (apply once_bind; [calm_tac | intros _]).
  apply once_bind; [calm_tac | intros parsedInput].
  apply once_bind; [calm_tac | intros _].
  apply once_bind; [apply calm_runRouteMiddleware | intros [metadata fwc]].
  apply once_bind; [calm_tac | intros _].
  apply once_bind; [calm_tac | intros parsedConfig].
  do 2 (apply once_bind; [calm_tac | intros _]).
  apply once_bind; [calm_tac | intros _].
  apply once_bind; [calm_tac | intros requests].
  apply once_bind; [calm_tac | intros tok].
  intros w presigneds fiber w' H.
  apply bind_Success in H as (urls & w1 & Hurls & H).
  pose proof Hurls as Hlen. apply forEachUnbounded_Success in Hlen as [Hlen _].
  unfold forEachUnbounded in Hurls.
  apply bind_Success in Hurls as (slots & w0 & Hrun & Hcollect).
  apply (runFibers_once _ (presignFile_once cfg uploadable tok slug)) in Hrun
    as (He & Hk & Hu); [| by rewrite indexed_length].
  rewrite indexed_length in He, Hk, Hu.
  assert (w1 = w0) as ->.
  { destruct (collect slots); inversion Hcollect; by subst. }
  apply bind_Success in H as (isDev & w2 & HisDev & H).
  apply bind_Success in H as (baseUrl & w3 & Hbase & H).
  apply bind_Success in H as (fiber' & w4 & Hfork & H).
  destruct (toPresigneds urls 0 requests) as [entries |] eqn:Hentries; [| done].
  apply bind_Success in H as (? & w5 & Hlog & H).
  apply succeed_Success in H as [Heq ->]. inversion Heq; subst entries fiber'.
  apply toPresigneds_Some in Hentries as [Hlen' _].
  assert (Hsame : steady w0 w').
  { assert (H2 : calm w0 w2).
    { eapply (Keeps_fromConfig calm calm_refl), HisDev. }
    assert (H3 : calm w2 w3).
    { eapply (Keeps_fromConfig calm calm_refl), Hbase. }
    apply calm_steady in H2 as (? & ? & ?). apply calm_steady in H3 as (? & ? & ?).
    unfold forkDaemon in Hfork. unfold logInfo, emit in Hlog.
    inversion Hfork. inversion Hlog. subst.
    unfold steady. rewrite !advance_advance, !count_advance. cbn [app].
    rewrite !filter_cons_False by done. rewrite !filter_nil. cbn in *. lia. }
  destruct Hsame as (? & ? & ?). lia.
Qed.

End Once.

(* ===================================================================== *)
(** * The earlier dispatcher and the client transfer *)
(* ===================================================================== *)

Section Earlier.

Context {shared : Shared}.

(** X13: in the [RequestInput]-based dispatcher the hook is looked at
    first. A request with the hook "callback" is handled as a callback
    also when its action is "upload": with a verifying signature and a
    decodable body it is acknowledged with [null] and a resolver fiber,
    and the upload handler has not run (no input parser or middleware
    call). A request with neither the hook nor the action dies as
    "Unreachable" with the world untouched. *)
Theorem earlier_dispatcher_prefers_hook cfg ri tok payload w :
  isString (ri_hook ri) "callback" = true ->
  UTToken cfg = inr tok ->
  verifySignature (req_text (ri_req ri)) (hdr_x_uploadthing_signature (ri_req ri))
                  (apiKey tok) = true ->
  decodeCallbackPayload (req_text (ri_req ri)) = inr payload ->
  handleRequest cfg ri w =
  (Success (true, BodyNull,
            CompleteCallback (ri_uploadable ri) payload
              (authHeaders tok (ri_adapter ri) (ri_fePackage ri))),
   advance w 0 0 0
     [EvLog LDebug "Signature verified:";
      EvLog LDebug "Handling callback request with input:"]
     [CompleteCallback (ri_uploadable ri) payload
        (authHeaders tok (ri_adapter ri) (ri_fePackage ri))]) /\
  forall ri',
    isString (ri_hook ri') "callback" = false ->
    isString (ri_action ri') "upload" = false ->
    handleRequest cfg ri' w = (Die "Unreachable", w).
Proof.
  intros Hhook Htok Hsig Hdec. split.
  - unfold handleRequest. rewrite Hhook.
    by rewrite (bind_step _ _ _ _ _
                  (handleCallbackRequest_accepted cfg (ri_req ri) (ri_uploadable ri)
                     (ri_fePackage ri) (ri_adapter ri) tok payload w Htok Hsig Hdec)).
  - intros ri' Hh Ha. unfold handleRequest. by rewrite Hh, Ha.
Qed.

End Earlier.


(** ** The further theorems at the concrete instance *)

Lemma registration_forked_only_on_success_witness :
  exists presigneds fiber w',
    handleUploadAction (shared := Fixture.shared) Fixture.production JNull
      (Fixture.upload "avatar" "three" None) Fixture.avatar
      "@uploadthing/react" "express" "avatar" (Fixture.world Fixture.lastFirst 1000)
    = (Success (presigneds, fiber), w') /\
    daemons w' = [fiber].
Proof.
  destruct (handleUploadAction (shared := Fixture.shared) Fixture.production JNull
              (Fixture.upload "avatar" "three" None) Fixture.avatar
              "@uploadthing/react" "express" "avatar"
              (Fixture.world Fixture.lastFirst 1000))
    as [[[presigneds fiber] | e | d] w'] eqn:Hrun;
    [| exfalso; vm_compute in Hrun; discriminate
     | exfalso; vm_compute in Hrun; discriminate].
  exists presigneds, fiber, w'. split; [reflexivity |].
  exact (registration_forked_only_on_success (shared := Fixture.shared) _ _ _ _ _ _ _ _
           _ _ Hrun).
Defined.

Lemma upload_errors_precede_generation_witness :
  exists e w' dc evs,
    handleUploadAction (shared := Fixture.shared) Fixture.production JNull
      (Fixture.upload "strict" "three" None) Fixture.strict
      "@uploadthing/react" "express" "strict" Fixture.start
    = (Failure e, w') /\
    w' = advance Fixture.start dc 0 0 evs [] /\
    Forall (fun ev => outbound ev = false) evs.
Proof.
  destruct (handleUploadAction (shared := Fixture.shared) Fixture.production JNull
              (Fixture.upload "strict" "three" None) Fixture.strict
              "@uploadthing/react" "express" "strict" Fixture.start)
    as [r w'] eqn:Hrun.
  destruct (upload_errors_precede_generation (shared := Fixture.shared) _ _ _ _ _ _ _ _
              _ _ Hrun)
    as [(json & parsedInput & metadata & parsedConfig & Hdec & Hparse & Hmw & Hlen & _)
       | [[e ->] (dc & evs & Hw & Hevs)]].
  - exfalso.
    vm_compute in Hdec. inversion Hdec; subst json; clear Hdec.
    vm_compute in Hparse. inversion Hparse; subst parsedInput; clear Hparse.
    vm_compute in Hmw. inversion Hmw; subst metadata; clear Hmw.
    specialize (Hlen _ eq_refl). discriminate Hlen.
  - by exists e, w', dc, evs.
Defined.

Lemma detached_work_never_changes_response_witness :
  exists presigneds w',
    POST (shared := Fixture.shared)
      {| router := [("avatar", Fixture.avatar)]; config := Fixture.awaiting |}
      "express" JNull (Fixture.upload "avatar" "one" None) Fixture.start
    = (Success (jsonResponse (BodyPresigneds presigneds) 200), w') /\
    length presigneds = 1.
Proof.
  destruct (dispatch (shared := Fixture.shared) Fixture.awaiting JNull
              (Fixture.upload "avatar" "one" None) Fixture.avatar "@uploadthing/react"
              "express" "avatar" (Some ActionUpload) None Fixture.start)
    as [[[body [fiber |]] | e | d] w1] eqn:Hrun;
    [| exfalso; vm_compute in Hrun; discriminate
     | exfalso; vm_compute in Hrun; discriminate
     | exfalso; vm_compute in Hrun; discriminate].
  destruct (detached_work_never_changes_response (shared := Fixture.shared)
              {| router := [("avatar", Fixture.avatar)]; config := Fixture.awaiting |}
              "express" JNull (Fixture.upload "avatar" "one" None) None
              (Some ActionUpload) "avatar" Fixture.avatar Fixture.start body (Some fiber) w1
              eq_refl eq_refl eq_refl eq_refl eq_refl Hrun) as (w' & _ & Hpost).
  vm_compute in Hrun. inversion Hrun; subst body.
  eexists _, w'. split; [exact Hpost | reflexivity].
Defined.

Lemma callback_is_acknowledged_before_resolver_witness :
  exists fiber w',
    handleCallbackRequest (shared := Fixture.shared) Fixture.production
      Fixture.signedCallback Fixture.picky "unknown" "express" Fixture.start
    = (Success (BodyNull, fiber), w') /\
    daemons w' = [fiber] /\
    trace w' = [EvLog LDebug "Signature verified:";
                EvLog LDebug "Handling callback request with input:"].
Proof.
  eexists _, _. split.
  - apply (callback_is_acknowledged_before_resolver (shared := Fixture.shared)
             Fixture.production Fixture.signedCallback Fixture.picky "unknown" "express"
             Fixture.token); [reflexivity | vm_compute; reflexivity | reflexivity].
  - split; reflexivity.
Defined.

Lemma unknown_slug_is_not_found_witness :
  exists w',
    POST (shared := Fixture.shared) Fixture.opts "express" JNull
      (Fixture.upload "banner" "one" None) Fixture.start
    = (Success {| status := 404; headers := [];
                  body := BodyJson (JObj [("message",
                            JStr "No file route found for slug banner")]) |}, w') /\
    trace w' = [EvLog LError "No file route found for slug banner"].
Proof.
  eexists. split.
  - apply (unknown_slug_is_not_found (shared := Fixture.shared) Fixture.opts "express"
             JNull (Fixture.upload "banner" "one" None) None (Some ActionUpload) "banner"
             Fixture.start); try reflexivity.
    intros Hin.
    repeat (apply elem_of_cons in Hin as [Hin | Hin]; [discriminate |]).
    by apply elem_of_nil in Hin.
  - reflexivity.
Defined.

Lemma middleware_error_is_surfaced_witness :
  exists w',
    handleUploadAction (shared := Fixture.shared) Fixture.production JNull
      (Fixture.upload "guarded" "one" None) Fixture.guarded
      "@uploadthing/react" "express" "guarded" Fixture.start
    = (Failure (ErrUploadThing Fixture.forbidden), w').
Proof.
  eexists.
  apply (middleware_error_is_surfaced (shared := Fixture.shared) Fixture.production JNull
           (Fixture.upload "guarded" "one" None) Fixture.guarded
           "@uploadthing/react" "express" "guarded"
           {| input := JNull; files := [Fixture.a_png] |} JNull
           (ThrownUTError Fixture.forbidden) Fixture.start); reflexivity.
Defined.

Lemma invalid_input_stops_before_middleware_witness :
  exists w',
    handleUploadAction (shared := Fixture.shared) Fixture.production JNull
      (Fixture.upload "picky" "one" None) Fixture.picky
      "@uploadthing/react" "express" "picky" Fixture.start
    = (Failure (ErrUploadThing
         (mkUTError BAD_REQUEST "Invalid input" (Some "Expected a string"))), w') /\
    EvMiddleware ∉ trace w'.
Proof.
  eexists. split.
  - apply (invalid_input_stops_before_middleware (shared := Fixture.shared)
             Fixture.production JNull (Fixture.upload "picky" "one" None) Fixture.picky
             "@uploadthing/react" "express" "picky"
             {| input := JNull; files := [Fixture.a_png] |}
             (ThrownOther "Expected a string") Fixture.start); reflexivity.
  - cbn. intros Hin.
    repeat (apply elem_of_cons in Hin as [Hin | Hin]; [discriminate |]).
    by apply elem_of_nil in Hin.
Defined.

Lemma files_breaking_config_are_rejected_witness :
  exists w',
    handleUploadAction (shared := Fixture.sharedHuge) Fixture.production JNull
      (Fixture.upload "avatar" "one" None) Fixture.avatar
      "@uploadthing/react" "express" "avatar" Fixture.start
    = (Failure (ErrUploadThing
         (mkUTError BAD_REQUEST "Invalid config: FileSizeMismatch"
            (Some "file is too large"))), w') /\
    EvMiddleware ∈ trace w'.
Proof.
  destruct (files_breaking_config_are_rejected (shared := Fixture.sharedHuge)
              Fixture.production JNull (Fixture.upload "avatar" "one" None)
              Fixture.avatar "@uploadthing/react" "express" "avatar"
              {| input := JNull; files := [Fixture.huge] |} JNull _ _
              "FileSizeMismatch" "file is too large" Fixture.start
              eq_refl eq_refl eq_refl eq_refl eq_refl eq_refl)
    as (w' & Hrun & Hmw & _).
  exists w'. split; [exact Hrun | exact Hmw].
Defined.

Lemma every_response_carries_version_witness :
  exists rt resp w',
    createRequestHandler (shared := Fixture.shared) Fixture.opts "express" Fixture.start
    = (Success rt, Fixture.start) /\
    serveOne rt (IncomingPOST JNull (Fixture.upload "banner" "one" None)) Fixture.start
    = (Success resp, w') /\
    status resp = 404%Z /\
    last (headers resp) = Some ("x-uploadthing-version", "7.0.0").
Proof.
  assert (Hbuilt : exists rt,
    createRequestHandler (shared := Fixture.shared) Fixture.opts "express" Fixture.start
    = (Success rt, Fixture.start) /\
    exists resp w',
      serveOne rt (IncomingPOST JNull (Fixture.upload "banner" "one" None)) Fixture.start
      = (Success resp, w') /\ status resp = 404%Z).
  { eexists. split; [reflexivity |]. eexists _, _. split; reflexivity. }
  destruct Hbuilt as (rt & Hrt & resp & w' & Hserve & Hstatus).
  exists rt, resp, w'. split; [exact Hrt |]. split; [exact Hserve |].
  split; [exact Hstatus |].
  exact (every_response_carries_version (shared := Fixture.shared) _ _ _ _ _ _ _ _ _
           Hrt Hserve).
Defined.

Lemma one_key_per_file_witness :
  exists presigneds fiber w',
    handleUploadAction (shared := Fixture.shared) Fixture.production JNull
      (Fixture.upload "avatar" "three" None) Fixture.avatar
      "@uploadthing/react" "express" "avatar" (Fixture.world Fixture.lastFirst 1000)
    = (Success (presigneds, fiber), w') /\
    length presigneds = 3 /\
    entropyReads w' = 3 /\
    count isKeyGenerated w' = 3 /\
    count isUrlSigned w' = 3.
Proof.
  destruct (handleUploadAction (shared := Fixture.shared) Fixture.production JNull
              (Fixture.upload "avatar" "three" None) Fixture.avatar
              "@uploadthing/react" "express" "avatar"
              (Fixture.world Fixture.lastFirst 1000))
    as [[[presigneds fiber] | e | d] w'] eqn:Hrun;
    [| exfalso; vm_compute in Hrun; discriminate
     | exfalso; vm_compute in Hrun; discriminate].
  exists presigneds, fiber, w'. split; [reflexivity |].
  pose proof (one_key_per_file (shared := Fixture.shared) _ _ _ _ _ _ _ _ _ _ _ Hrun)
    as (He & Hk & Hu).
  assert (Hlen : length presigneds = 3).
  { vm_compute in Hrun. by inversion Hrun. }
  rewrite Hlen in He, Hk, Hu. by repeat split.
Defined.

Lemma earlier_dispatcher_prefers_hook_witness :
  exists fiber w',
    handleRequest (shared := Fixture.shared) Fixture.production Fixture.hookAndAction
      Fixture.start
    = (Success (true, BodyNull, fiber), w') /\
    trace w' = [EvLog LDebug "Signature verified:";
                EvLog LDebug "Handling callback request with input:"].
Proof.
  destruct (earlier_dispatcher_prefers_hook (shared := Fixture.shared) Fixture.production
              Fixture.hookAndAction Fixture.token
              {| cb_status := "uploaded";
                 cb_file := {| up_key := "k1"; up_name := "a.png"; up_size := 1000000 |};
                 cb_metadata := [] |}
              Fixture.start eq_refl eq_refl) as [Hrun _];
    [vm_compute; reflexivity | reflexivity |].
  eexists _, _. split; [exact Hrun | reflexivity].
Defined.

Lemma prototype_member_passes_for_a_route_witness :
  POST (shared := Fixture.shared) Fixture.opts "express" JNull
    (Fixture.upload "constructor" "one" None) Fixture.start
  = (Die "TypeError: Cannot read properties of undefined (reading 'inputParser')",
     advance Fixture.start 0 0 0
       [EvLog LDebug "Handling upload request with input:";
        EvLog LDebug "Parsing user input"] []).
Proof.
  destruct (prototype_member_passes_for_a_route (shared := Fixture.shared) Fixture.opts
              "express" JNull (Fixture.upload "constructor" "one" None) "constructor"
              Fixture.start eq_refl eq_refl eq_refl eq_refl) as [_ Hupload].
  - apply list_elem_of_here.
  - apply (Hupload {| input := JNull; files := [Fixture.a_png] |}); reflexivity.
Defined.

(** The fibers at work: a resolver that throws, and an ingest service
    that answers 500. *)
Example resolver_that_throws :
  runFiber (shared := Fixture.shared) Fixture.production
    (CompleteCallback Fixture.picky
       {| cb_status := "uploaded";
          cb_file := {| up_key := "k1"; up_name := "a.png"; up_size := 1000000 |};
          cb_metadata := [] |} [])
    Fixture.start
  = (Success tt,
     advance Fixture.start 0 0 0 [EvResolver "k1"; EvLog LDebug silentlyIgnored] []).
Proof. reflexivity. Qed.

Example ingest_answers_500 :
  trace (runFiber (shared := Fixture.shared) Fixture.production
    (CompleteCallback Fixture.avatar
       {| cb_status := "uploaded";
          cb_file := {| up_key := "k1"; up_name := "a.png"; up_size := 1000000 |};
          cb_metadata := [] |} [])
    (Fixture.failing 500)).2
  = [ EvResolver "k1";
      EvLog LDebug
        "'onUploadComplete' callback finished. Sending response to UploadThing:";
      EvHttpPost "https://ingest.example/callback-result";
      EvLog LError "Failed to register metadata (500)";
      EvLog LDebug silentlyIgnored ].
Proof. reflexivity. Qed.

(** A development stream of two parts and a chunk that is none: two
    replays, then the stream ends. *)
Example development_stream_is_replayed :
  filter (fun ev => isHttpPost ev = true)
    (trace (runFiber (shared := Fixture.shared) Fixture.production
       (RegisterMetadata
          {| mr_url := "https://ingest.example/route-metadata"; mr_headers := [];
             mr_fileKeys := ["k1"; "k2"];
             mr_metadata := {| md_fields := []; md_UTFiles := None |};
             mr_isDev := true;
             mr_callbackUrl := "http://localhost:3000/api/uploadthing";
             mr_callbackSlug := "avatar"; mr_awaitServerData := false |})
       (Fixture.streaming ["a|sig1"; "b|sig2"; "garbage"; "c|sig3"])).2)
  = [ EvHttpPost "https://ingest.example/route-metadata";
      EvHttpPost "http://localhost:3000/api/uploadthing";
      EvHttpPost "http://localhost:3000/api/uploadthing" ].
Proof. reflexivity. Qed.

(** Three progress events, then the load: the reports and their sum. *)
Example progress_of_three_chunks :
  progressCalls (uploadWithProgress true
    [XhrProgress 100; XhrProgress 250; XhrProgress 400; XhrLoad 200 JNull])
  = [(100, 100); (250, 150); (400, 150)]%Z.
Proof. reflexivity. Qed.
